(** * stock-project: a shallow embedding of the collectors, the storage
      adapters, the request models, the stock service and the nine-turn
      strategy job, with the properties of the written specification.

    Layout: the Python run-time notions the sources rely on (exceptions,
    keyword calls, attribute lookup, [range], slices); the external engines
    (the Elasticsearch cluster, the market-data provider, the message bus);
    one module per source file; then the theorems. *)

From Stdlib Require Import ZArith List String Ascii Bool Lia Floats.
From Stdlib Require Import Sorting.Sorted Sorting.Permutation.
Import ListNotations.

Local Open Scope string_scope.
Local Open Scope Z_scope.

#[local] Set Warnings "-inexact-float".

(* ===================================================================== *)
(** * Python run-time notions                                             *)
(* ===================================================================== *)

Module Py.

(** The exceptions the sources raise or meet. *)
Inductive exn : Type :=
| TypeError (msg : string)
| AttributeError (obj attr : string)
| ValueError (msg : string)
| OverflowError (msg : string)
| OSError (msg : string)
| ZeroDivisionError
| TransportError                       (* a failed request to an engine *)
| Wrapped (what : string) (cause : exn) (* raise Exception(f"...: {str(e)}") *).

Inductive res (A : Type) : Type :=
| Ok (a : A)
| Raise (e : exn).
Arguments Ok {A} a.
Arguments Raise {A} e.

Definition bind {A B} (r : res A) (k : A -> res B) : res B :=
  match r with Ok a => k a | Raise e => Raise e end.

(** [try: body  except Exception as e: handler e] *)
Definition try_except {A} (body : res A) (handler : exn -> res A) : res A :=
  match body with Ok a => Ok a | Raise e => handler e end.

Definition is_ok {A} (r : res A) : bool :=
  match r with Ok _ => true | Raise _ => false end.

(** Values passed between the layers. *)
Inductive pyval : Type :=
| PNone
| PBool (b : bool)
| PInt (z : Z)
| PStr (s : string).

(** [bool(v)], as [if v:] reads it. *)
Definition truthy (v : pyval) : bool :=
  match v with
  | PNone => false
  | PBool b => b
  | PInt z => negb (z =? 0)
  | PStr s => negb (s =? "")%string
  end.

(** A call written with keyword arguments only: [f(k1=v1, ..., kn=vn)]. *)
Definition kwargs : Type := list (string * pyval).

(** The [TypeError] of a keyword that names no parameter. The text names
    the function as CPython up to 3.9 does; from 3.10 on the class name
    stands before it. Nothing below reads the text. *)
Definition unexpected_keyword (fname k : string) : exn :=
  TypeError (fname ++ "() got an unexpected keyword argument '" ++ k ++ "'").

(** Binding the keywords of a call to the parameters of a [def]: a keyword
    that names no parameter raises [TypeError] before the body runs. *)
Fixpoint check_keywords (fname : string) (params : list string) (kw : kwargs)
  : res unit :=
  match kw with
  | [] => Ok tt
  | (k, _) :: rest =>
      if existsb (String.eqb k) params
      then check_keywords fname params rest
      else Raise (unexpected_keyword fname k)
  end.

(** The value bound to parameter [name]: the keyword's, else the default. *)
Fixpoint kwarg (kw : kwargs) (name : string) (default : pyval) : pyval :=
  match kw with
  | [] => default
  | (k, v) :: rest => if (k =? name)%string then v else kwarg rest name default
  end.

(** [obj.name] on an instance of class [cls] whose attributes are
    [members]: a name the class does not have raises [AttributeError]. *)
Definition getattr (cls : string) (members : list string) (name : string) : res unit :=
  if existsb (String.eqb name) members then Ok tt
  else Raise (AttributeError cls name).

(** [range(start, stop, step)]: [ValueError] on a zero step, no element
    when the step points away from [stop]. *)
Definition range (start stop step : Z) : res (list Z) :=
  if step =? 0 then Raise (ValueError "range() arg 3 must not be zero")
  else
    let n := if 0 <? step
             then (stop - start + step - 1) / step
             else (start - stop - step - 1) / (- step) in
    Ok (map (fun k => start + Z.of_nat k * step) (seq 0 (Z.to_nat n))).

(** [l[lo:hi]] for [0 <= lo], the only slices the sources take. *)
Definition slice {A} (l : list A) (lo hi : Z) : list A :=
  firstn (Z.to_nat (hi - lo)) (skipn (Z.to_nat lo) l).

Definition spec_of_Z (z : Z) : spec_float :=
  match z with
  | Z0 => S754_zero false
  | Zpos m => S754_finite false m 0
  | Zneg m => S754_finite true m 0
  end.

(** [a / b] on integers: the float nearest to the exact quotient. *)
Definition true_div (a b : Z) : res float :=
  if b =? 0 then Raise ZeroDivisionError
  else Ok (SF2Prim (SFdiv prec emax (spec_of_Z a) (spec_of_Z b))).

(** [round(x, 2)] on a float: the exact value of [x] is rounded to two
    decimals, ties to even, and the float nearest to that decimal is
    returned; zeros, infinities and NaN are returned as they are. *)
Definition round2 (x : float) : float :=
  match Prim2SF x with
  | S754_finite negative m e =>
      if 0 <=? e then x
      else
        let num := Zpos m * 100 in
        let den := 2 ^ (- e) in
        let q := num / den in
        let r := num mod den in
        let n := if (den <? 2 * r) || ((2 * r =? den) && Z.odd q) then q + 1 else q in
        let y := SF2Prim (SFdiv prec emax (spec_of_Z n) (spec_of_Z 100)) in
        if negative then (- y)%float else y
  | _ => x
  end.

(** [time.sleep(secs)] for a whole number of seconds (CPython 3.11 on
    Linux). A negative length raises [ValueError]. A length that does not
    fit the clock's 63 bits of nanoseconds, 9223372037 s and more, raises
    [OverflowError]. A length whose deadline, the reading of the monotonic
    clock plus the length, does not fit either raises [OSError]; the
    reading is not part of the model, it is taken to stay below
    [uptime_bound], and a length within that distance of the limit is
    refused as on a machine that has run that long. So a length the model
    accepts is accepted by every machine up for less than [uptime_bound],
    and the statements below rely on a refusal only for a negative length
    or for one that raises [OverflowError]. Elapsed time itself is not
    part of the model. *)
Definition sleep_limit : Z := 9223372036.
Definition uptime_bound : Z := 1000000000.

Definition time_sleep (secs : Z) : res unit :=
  if secs <? 0 then Raise (ValueError "sleep length must be non-negative")
  else if sleep_limit <? secs
  then Raise (OverflowError "timestamp too large to convert to C _PyTime_t")
  else if sleep_limit - uptime_bound <=? secs
  then Raise (OSError "[Errno 22] Invalid argument")
  else Ok tt.

(** [s.replace(c, '')] for a one-character [c]. *)
Fixpoint remove_char (c : ascii) (s : string) : string :=
  match s with
  | EmptyString => EmptyString
  | String a s' => if Ascii.eqb a c then remove_char c s'
                   else String a (remove_char c s')
  end.

(** [s.startswith((p1, ..., pn))] *)
Definition startswith_any (s : string) (ps : list string) : bool :=
  existsb (fun p => String.prefix p s) ps.

(** [list(set(l))]: duplicates dropped. Python gives the elements in the
    order of its hash table, which differs from run to run; the model
    keeps the last occurrences in list order, and the statements below
    speak of membership and repeats only, never of the order. *)
Definition list_set (l : list string) : list string := nodup string_dec l.

End Py.
Import Py.

Notation "x <- r ;; k" := (Py.bind r (fun x => k))
  (at level 61, r at next level, right associativity).

(* ===================================================================== *)
(** * The data model                                                      *)
(* ===================================================================== *)

Module Model.

(** One document of the daily-bar index: prices, volume, amount, change and
    turnover scaled by 100 and held as integers. *)
Record DailyBar : Type := {
  date : string;
  stock_code : string;
  market_type : string;
  open_price : Z;
  close_price : Z;
  high_price : Z;
  low_price : Z;
  prev_close_price : Z;
  volume : Z;
  amount : Z;
  change_percent : Z;
  change_amount : Z;
  turnover_rate : Z;
  stamp : string;        (* update_time, or created_at on the realtime path *)
  data_source : string
}.

(** The two fields of a basic-snapshot document that the code listing and
    the symbol universe read; a document may lack either. *)
Record BasicDoc : Type := {
  basic_stock_code : option string;
  basic_market_type : option string
}.

(** The dict [_execute_nine_turn_strategy] builds when the rule fires. *)
Record StrategyData : Type := {
  sd_date : string;
  sd_stock_code : string;
  sd_market_type : option string;
  sd_current_price : Z;
  sd_compare_price : Z;
  sd_price_diff : Z;
  sd_price_diff_percent : float;
  sd_created_at : string
}.

(** The result dict of the collectors. *)
Record Tally : Type := {
  total : Z;
  success : Z;
  failed : Z
}.

End Model.
Import Model.

(* ===================================================================== *)
(** * The Elasticsearch cluster (external engine)                         *)
(* ===================================================================== *)

Module Es.

(** The handle [Elasticsearch(hosts=[url], ...)] returns. *)
Inductive client : Type := Client (url : string).

Inductive order : Type := Asc | Desc.

Inductive clause : Type :=
| Term (field : string) (v : pyval)
| Range (field : string) (gte lte : option pyval).

Inductive query : Type :=
| MatchAll
| BoolMust (must : list clause).

Record search_body : Type := {
  sb_query : query;
  sb_size : pyval;
  sb_sort : list (string * order)
}.

(** The cluster: whether it answers a ping, how many requests it has
    served, which of them it answers with an error, and its indices. *)
Record Cluster : Type := {
  answers_ping : bool;
  served : nat;
  faulty : nat -> bool;
  stock_daily_data : list (string * DailyBar);     (* _id, _source *)
  stock_basic_data : list BasicDoc;
  nine_turn_strategy : list (string * StrategyData)
}.

(** Every request is counted; a faulty one raises at the client. *)
Definition request (c : Cluster) : Cluster * res unit :=
  ({| answers_ping := answers_ping c; served := S (served c);
      faulty := faulty c; stock_daily_data := stock_daily_data c;
      stock_basic_data := stock_basic_data c;
      nine_turn_strategy := nine_turn_strategy c |},
   if faulty c (served c) then Raise TransportError else Ok tt).

(** The cluster after [n] requests. *)
Fixpoint request_n (c : Cluster) (n : nat) : Cluster :=
  match n with
  | O => c
  | S n' => request_n (fst (request c)) n'
  end.

Definition with_daily (c : Cluster) (docs : list (string * DailyBar)) : Cluster :=
  {| answers_ping := answers_ping c; served := served c;
     faulty := faulty c; stock_daily_data := docs;
     stock_basic_data := stock_basic_data c;
     nine_turn_strategy := nine_turn_strategy c |}.

Definition with_strategy (c : Cluster) (docs : list (string * StrategyData)) : Cluster :=
  {| answers_ping := answers_ping c; served := served c;
     faulty := faulty c; stock_daily_data := stock_daily_data c;
     stock_basic_data := stock_basic_data c;
     nine_turn_strategy := docs |}.

(** The keyword and date fields of a daily bar that queries name. *)
Definition bar_field (b : DailyBar) (f : string) : option string :=
  if (f =? "stock_code")%string then Some (stock_code b)
  else if (f =? "market_type")%string then Some (market_type b)
  else if (f =? "date")%string then Some (date b)
  else None.

Definition bound_ok (lower : bool) (bound : option pyval) (x : string) : bool :=
  match bound with
  | None => true
  | Some (PStr s) => if lower then String.leb s x else String.leb x s
  | Some _ => false
  end.

Definition matches_clause (b : DailyBar) (cl : clause) : bool :=
  match cl with
  | Term f (PStr s) =>
      match bar_field b f with Some x => (x =? s)%string | None => false end
  | Term _ _ => false
  | Range f gte lte =>
      match bar_field b f with
      | Some x => bound_ok true gte x && bound_ok false lte x
      | None => false
      end
  end.

Definition matches (q : query) (b : DailyBar) : bool :=
  match q with
  | MatchAll => true
  | BoolMust must => forallb (matches_clause b) must
  end.

(** Comparison of two bars under a sort specification, first key first. *)
Fixpoint compare_bars (sort : list (string * order)) (a b : DailyBar) : comparison :=
  match sort with
  | [] => Eq
  | (f, o) :: rest =>
      let c := match bar_field a f, bar_field b f with
               | Some x, Some y => String.compare x y
               | _, _ => Eq
               end in
      match (match o with Asc => c | Desc => CompOpp c end) with
      | Eq => compare_bars rest a b
      | r => r
      end
  end.

Fixpoint insert_hit (sort : list (string * order)) (h : string * DailyBar)
    (l : list (string * DailyBar)) : list (string * DailyBar) :=
  match l with
  | [] => [h]
  | h' :: l' =>
      match compare_bars sort (snd h) (snd h') with
      | Gt => h' :: insert_hit sort h l'
      | _ => h :: l
      end
  end.

Definition sort_hits (sort : list (string * order)) (l : list (string * DailyBar))
  : list (string * DailyBar) :=
  fold_right (insert_hit sort) [] l.

(** [search] on the daily-bar index: the hits that match, in sort order,
    at most [size] of them; a size that is not an integer in [0, 10000]
    is refused by the engine. *)
Definition search_daily (c : Cluster) (body : search_body)
  : Cluster * res (list (string * DailyBar)) :=
  let (c', r) := request c in
  (c',
   _ <- r ;;
   match sb_size body with
   | PInt n =>
       if (0 <=? n) && (n <=? 10000)
       then Ok (firstn (Z.to_nat n)
                  (sort_hits (sb_sort body)
                     (filter (fun h => matches (sb_query body) (snd h))
                             (stock_daily_data c))))
       else Raise TransportError
   | _ => Raise TransportError
   end).

(** [delete_by_query] on the daily-bar index: the matching documents go,
    the answer carries their number. [stock_daily_data] is the content of
    the index; the model has no separate view for searches, which on the
    engine lags behind the content until the next refresh (the adapter
    refreshes after a save, not after a delete). So nothing is stated
    below about a search or a count that follows a delete. *)
Definition delete_by_query_daily (c : Cluster) (q : query) : Cluster * res Z :=
  let (c', r) := request c in
  match r with
  | Raise e => (c', Raise e)
  | Ok _ =>
      let gone := filter (fun h => matches q (snd h)) (stock_daily_data c) in
      (with_daily c' (filter (fun h => negb (matches q (snd h))) (stock_daily_data c)),
       Ok (Z.of_nat (List.length gone)))
  end.

(** Index (create or replace) one document under its id. *)
Fixpoint upsert {D} (id : string) (d : D) (docs : list (string * D))
  : list (string * D) :=
  match docs with
  | [] => [(id, d)]
  | (id', d') :: rest =>
      if (id' =? id)%string then (id, d) :: rest
      else (id', d') :: upsert id d rest
  end.

(** [helpers.bulk] with its default [raise_on_error]: either every action
    is applied and the answer is (number applied, no error), or the call
    raises. A failed call is modelled as applying nothing. *)
Definition bulk_daily (c : Cluster) (actions : list (string * DailyBar))
  : Cluster * res (Z * list string) :=
  let (c', r) := request c in
  match r with
  | Raise e => (c', Raise e)
  | Ok _ =>
      (with_daily c' (fold_left (fun docs a => upsert (fst a) (snd a) docs)
                                actions (stock_daily_data c)),
       Ok (Z.of_nat (List.length actions), []))
  end.

(** [count] on the daily-bar index: the number of matching documents. *)
Definition count_daily (c : Cluster) (q : query) : Cluster * res Z :=
let (c', r) := request c in
(c',
 _ <- r ;;
 Ok (Z.of_nat (List.length (filter (fun h => matches q (snd h)) (stock_daily_data c))))).

(** The least and the greatest of a list of dates; none for no date. *)
Definition least (dates : list string) : option string :=
match dates with
| [] => None
| d :: rest => Some (fold_left (fun m x => if String.leb x m then x else m) rest d)
end.

Definition greatest (dates : list string) : option string :=
match dates with
| [] => None
| d :: rest => Some (fold_left (fun m x => if String.leb m x then x else m) rest d)
end.

(** What [get_stock_date_range] reads of the answer to its aggregation. *)
Record date_stats : Type := {
  min_date : option string;      (* aggregations.min_date.value_as_string *)
  max_date : option string;      (* aggregations.max_date.value_as_string *)
  total_count : Z                (* hits.total.value *)
}.

(** [search] with [size 0] and the [min] and [max] aggregations on [date]:
    both are absent when nothing matches; the hit total is tracked up to
    10000, the engine's default. *)
Definition date_stats_daily (c : Cluster) (q : query) : Cluster * res date_stats :=
let (c', r) := request c in
(c',
 _ <- r ;;
 let dates := map (fun h => date (snd h))
                  (filter (fun h => matches q (snd h)) (stock_daily_data c)) in
 Ok {| min_date := least dates;
       max_date := greatest dates;
       total_count := Z.min (Z.of_nat (List.length dates)) 10000 |}).

End Es.

(* ===================================================================== *)
(** * core/data_storage/daily_storage.py                                  *)
(* ===================================================================== *)

Module DailyStorage.
Import Es.

(** The state of a [DailyDataStorage]: [self.es_client] is a client or
    [None]. *)
Record DailyDataStorage : Type := { es_client : option client }.

Definition hit : Type := (string * DailyBar)%type.   (* '_id' and the source *)

(** What the class defines and what [__init__] sets. *)
Definition methods : list string :=
  ["__init__"; "_ensure_index_exists"; "save_daily_data"; "search_daily_data";
   "get_daily_data_count"; "delete_daily_data"; "get_stock_date_range"; "close"].
Definition instance_attributes : list string :=
  ["logger"; "es_client"; "index_name"; "alias_name"].

(** [_ensure_index_exists]: one [indices.exists] request, any failure
    logged and swallowed. Index creation is left to the engine. *)
Definition _ensure_index_exists (c : Cluster) : Cluster :=
  fst (request c).

(** [__init__]: the handle is kept when the ping is answered. *)
Definition init (c : Cluster) : Cluster * DailyDataStorage :=
  if answers_ping c
  then (_ensure_index_exists c, {| es_client := Some (Client "http://localhost:9200") |})
  else (c, {| es_client := None |}).

(** [save_daily_data(self, data_list, batch_size=1000)] *)
Definition save_batch (actions : list hit) (batch_size : Z)
    (acc : Cluster * Z * Z) (i : Z) : Cluster * Z * Z :=
  let '(c, success_count, error_count) := acc in
  let batch_actions := slice actions i (i + batch_size) in
  let (c', response) := bulk_daily c batch_actions in
  match response with
  | Ok (batch_success, errors) =>
      (c', success_count + batch_success,
       error_count + Z.of_nat (List.length errors))
  | Raise _ =>
      (c', success_count, error_count + Z.of_nat (List.length batch_actions))
  end.

Definition save_daily_data (self : DailyDataStorage) (c : Cluster)
    (data_list : list DailyBar) (batch_size : Z) : Cluster * bool :=
  match es_client self with
  | None => (c, false)
  | Some _ =>
      match data_list with
      | [] => (c, true)
      | _ =>
          let actions :=
            map (fun data => (stock_code data ++ "_" ++ date data, data)) data_list in
          match range 0 (Z.of_nat (List.length actions)) batch_size with
          | Raise _ => (c, false)
          | Ok starts =>
              let '(c1, _, error_count) :=
                fold_left (save_batch actions batch_size) starts (c, 0, 0) in
              let (c2, refreshed) := request c1 in
              match refreshed with
              | Raise _ => (c2, false)
              | Ok _ => (c2, error_count =? 0)
              end
          end
      end
  end.

(** [def search_daily_data(self, stock_code=None, start_date=None,
    end_date=None, market_type=None, size=100, sort_by_date=True)] *)
Definition search_daily_data_params : list string :=
  ["stock_code"; "start_date"; "end_date"; "market_type"; "size"; "sort_by_date"].

Definition date_range (start_date end_date : pyval) : clause :=
  Range "date"
    (if truthy start_date then Some start_date else None)
    (if truthy end_date then Some end_date else None).

Definition search_conditions (stock_code start_date end_date market_type : pyval)
  : list clause :=
  (if truthy stock_code then [Term "stock_code" stock_code] else [])
  ++ (if truthy market_type then [Term "market_type" market_type] else [])
  ++ (if truthy start_date || truthy end_date
      then [date_range start_date end_date] else []).

Definition query_of (conditions : list clause) : query :=
  match conditions with
  | [] => MatchAll
  | _ => BoolMust conditions
  end.

(** The request body the function builds from its bound parameters. *)
Definition search_body_of (kw : kwargs) : search_body :=
  let stock_code := kwarg kw "stock_code" PNone in
  let start_date := kwarg kw "start_date" PNone in
  let end_date := kwarg kw "end_date" PNone in
  let market_type := kwarg kw "market_type" PNone in
  let size := kwarg kw "size" (PInt 100) in
  let sort_by_date := kwarg kw "sort_by_date" (PBool true) in
  {| sb_query := query_of (search_conditions stock_code start_date end_date market_type);
     sb_size := size;
     sb_sort := if truthy sort_by_date
                then [("date", Desc); ("stock_code", Asc)]
                else [] |}.

Definition search_daily_data (self : DailyDataStorage) (c : Cluster) (kw : kwargs)
  : Cluster * res (list hit) :=
  match check_keywords "search_daily_data" search_daily_data_params kw with
  | Raise e => (c, Raise e)
  | Ok _ =>
      match es_client self with
      | None => (c, Ok [])
      | Some _ =>
          let (c', response) := search_daily c (search_body_of kw) in
          (c', try_except response (fun _ => Ok []))
      end
  end.

(** [delete_daily_data(self, stock_code=None, start_date=None, end_date=None)] *)
Definition delete_conditions (stock_code start_date end_date : pyval) : list clause :=
  (if truthy stock_code then [Term "stock_code" stock_code] else [])
  ++ (if truthy start_date || truthy end_date
      then [date_range start_date end_date] else []).

Definition delete_daily_data (self : DailyDataStorage) (c : Cluster)
    (stock_code start_date end_date : pyval) : Cluster * bool :=
  match es_client self with
  | None => (c, false)
  | Some _ =>
      match delete_conditions stock_code start_date end_date with
      | [] => (c, false)
      | query_conditions =>
          let (c', response) := delete_by_query_daily c (BoolMust query_conditions) in
          match response with
          | Ok _ => (c', true)
          | Raise _ => (c', false)
          end
      end
  end.

(** [get_daily_data_count(self, stock_code=None, start_date=None,
    end_date=None)]: the conditions are built as for a delete, match-all
    when there is none; no client or a failed request gives 0. *)
Definition count_conditions (stock_code start_date end_date : pyval) : list clause :=
(if truthy stock_code then [Term "stock_code" stock_code] else [])
++ (if truthy start_date || truthy end_date
    then [date_range start_date end_date] else []).

Definition get_daily_data_count (self : DailyDataStorage) (c : Cluster)
    (stock_code start_date end_date : pyval) : Cluster * Z :=
match es_client self with
| None => (c, 0)
| Some _ =>
    let (c', response) :=
      count_daily c (query_of (count_conditions stock_code start_date end_date)) in
    match response with
    | Ok n => (c', n)
    | Raise _ => (c', 0)
    end
end.

(** [get_stock_date_range(self, stock_code)]: the dict of the three
    figures, or the empty dict ([None]) without a client or on a failed
    request. The code is put into the term query as it comes. *)
Definition get_stock_date_range (self : DailyDataStorage) (c : Cluster)
    (stock_code : pyval) : Cluster * option date_stats :=
match es_client self with
| None => (c, None)
| Some _ =>
    let (c', response) := date_stats_daily c (BoolMust [Term "stock_code" stock_code]) in
    match response with
    | Ok stats => (c', Some stats)
    | Raise _ => (c', None)
    end
end.

Definition members : list string := methods ++ instance_attributes.

End DailyStorage.

(* ===================================================================== *)
(** * datetime: the calendar operations the sources call                  *)
(* ===================================================================== *)

Module Datetime.

Record datetime : Type := { year : Z; month : Z; day : Z }.

(** A decimal digit, as the class [\d] and [strptime] read it. The
    strings of the model are sequences of code points below 256, and among
    these the decimal digits are 0 to 9; strings with other code points,
    some of which Python also takes for digits, are outside the model. *)
Definition is_digit (a : ascii) : bool :=
  let n := Z.of_nat (nat_of_ascii a) in (48 <=? n) && (n <=? 57).

Definition digit_value (a : ascii) : Z := Z.of_nat (nat_of_ascii a) - 48.

Definition in_digits (lo hi : Z) (a : ascii) : bool :=
  is_digit a && (lo <=? digit_value a) && (digit_value a <=? hi).

(** One alternative of a regular-expression group: the value it reads and
    what is left of the subject, or no match. *)
Definition alternative : Type := string -> option (Z * string).

Definition two_chars (first : ascii -> bool) (second : ascii -> bool) : alternative :=
  fun s =>
    match s with
    | String a (String b rest) =>
        if first a && second b
        then Some (10 * digit_value a + digit_value b, rest)
        else None
    | _ => None
    end.

Definition one_char (p : ascii -> bool) : alternative :=
  fun s =>
    match s with
    | String a rest => if p a then Some (digit_value a, rest) else None
    | _ => None
    end.

Definition space_then (p : ascii -> bool) : alternative :=
  fun s =>
    match s with
    | String a (String b rest) =>
        if Ascii.eqb a " " && p b then Some (digit_value b, rest) else None
    | _ => None
    end.

(** Ordered choice with backtracking: the first alternative after which
    the rest of the pattern, [k], also matches. *)
Fixpoint first_match {B} (alts : list alternative) (k : Z -> string -> option B)
    (s : string) : option B :=
  match alts with
  | [] => None
  | alt :: rest =>
      match alt s with
      | Some (v, s') =>
          match k v s' with
          | Some b => Some b
          | None => first_match rest k s
          end
      | None => first_match rest k s
      end
  end.

(** [%Y]: \d\d\d\d *)
Definition year_group : alternative :=
  fun s =>
    match s with
    | String a (String b (String c (String d rest))) =>
        if is_digit a && is_digit b && is_digit c && is_digit d
        then Some (1000 * digit_value a + 100 * digit_value b
                   + 10 * digit_value c + digit_value d, rest)
        else None
    | _ => None
    end.

(** [%m]: 1[0-2]|0[1-9]|[1-9] *)
Definition month_group : list alternative :=
  [ two_chars (in_digits 1 1) (in_digits 0 2);
    two_chars (in_digits 0 0) (in_digits 1 9);
    one_char (in_digits 1 9) ].

(** [%d]: 3[0-1]|[1-2]\d|0[1-9]|[1-9]| [1-9] *)
Definition day_group : list alternative :=
  [ two_chars (in_digits 3 3) (in_digits 0 1);
    two_chars (in_digits 1 2) is_digit;
    two_chars (in_digits 0 0) (in_digits 1 9);
    one_char (in_digits 1 9);
    space_then (in_digits 1 9) ].

Definition dash (k : string -> option (Z * Z * Z * string)) (s : string)
  : option (Z * Z * Z * string) :=
  match s with
  | String a rest => if Ascii.eqb a "-" then k rest else None
  | _ => None
  end.

(** [format_regex.match(data_string)] for the format "%Y-%m-%d": the three
    numbers read and the unconverted remainder. *)
Definition match_ymd (s : string) : option (Z * Z * Z * string) :=
  first_match [year_group]
    (fun y => dash (first_match month_group
       (fun m => dash (first_match day_group
          (fun d rest => Some (y, m, d, rest)))))) s.

Definition is_leap (y : Z) : bool :=
  (y mod 4 =? 0) && (negb (y mod 100 =? 0) || (y mod 400 =? 0)).

Definition days_in_month (y m : Z) : Z :=
  if m =? 2 then (if is_leap y then 29 else 28)
  else if (m =? 4) || (m =? 6) || (m =? 9) || (m =? 11) then 30
  else 31.

(** [datetime.strptime(s, "%Y-%m-%d")]: [ValueError] when the pattern does
    not match, when data remains after it, or when the numbers name no
    calendar day of the years 1 to 9999. *)
Definition strptime (s : string) : res datetime :=
  match match_ymd s with
  | None => Raise (ValueError "time data does not match format '%Y-%m-%d'")
  | Some (y, m, d, rest) =>
      match rest with
      | String _ _ => Raise (ValueError "unconverted data remains")
      | EmptyString =>
          if (1 <=? y) && (d <=? days_in_month y m)
          then Ok {| year := y; month := m; day := d |}
          else Raise (ValueError "day or year is out of range")
      end
  end.

(** [a > b] on datetimes. *)
Definition gtb (a b : datetime) : bool :=
  (year b <? year a)
  || ((year a =? year b)
      && ((month b <? month a)
          || ((month a =? month b) && (day b <? day a)))).

(** [dt - timedelta(days=1)]: [OverflowError] before 0001-01-01. *)
Definition minus_one_day (dt : datetime) : res datetime :=
  if 1 <? day dt
  then Ok {| year := year dt; month := month dt; day := day dt - 1 |}
  else if 1 <? month dt
  then Ok {| year := year dt; month := month dt - 1;
             day := days_in_month (year dt) (month dt - 1) |}
  else if 1 <? year dt
  then Ok {| year := year dt - 1; month := 12; day := 31 |}
  else Raise (OverflowError "date value out of range").

Definition digit_char (n : Z) : ascii := ascii_of_nat (Z.to_nat (48 + n mod 10)).

Definition pad2 (n : Z) : string :=
  String (digit_char (n / 10)) (String (digit_char n) EmptyString).

(** [%Y] as the C library writes it: the year without leading zeros. *)
Definition year_string (y : Z) : string :=
  if y <? 10 then String (digit_char y) EmptyString
  else if y <? 100 then pad2 y
  else if y <? 1000 then String (digit_char (y / 100)) (pad2 y)
  else pad2 (y / 100) ++ pad2 y.

(** [dt.strftime('%Y-%m-%d')] for the years 1 to 9999. *)
Definition strftime (dt : datetime) : string :=
  year_string (year dt) ++ "-" ++ pad2 (month dt) ++ "-" ++ pad2 (day dt).

End Datetime.

(* ===================================================================== *)
(** * app/models/request_models.py                                        *)
(* ===================================================================== *)

Module RequestModels.
Import Datetime.

Record HistoryCollectRequest : Type := {
  start_date : string;
  end_date : string;
  stock_codes : option (list string);
  adjust_flag : string
}.

(** [_is_valid_date]: [strptime] raises nothing but [ValueError] on a
    string, and that is caught. *)
Definition _is_valid_date (date_str : string) : bool :=
  is_ok (strptime date_str).

Definition newline : ascii := ascii_of_nat 10.

(** [re.match(r'^\d{6}$', code)]: six digits, then the end of the string;
    [$] also matches just before a newline that ends the string. *)
Fixpoint digits_then_end (n : nat) (s : string) : bool :=
  match n with
  | O =>
      match s with
      | EmptyString => true
      | String a EmptyString => Ascii.eqb a newline
      | _ => false
      end
  | S n' =>
      match s with
      | String a rest => is_digit a && digits_then_end n' rest
      | EmptyString => false
      end
  end.

Definition _is_valid_stock_code (code : string) : bool :=
  digits_then_end 6 code.

Definition adjust_flags : list string := ["qfq"; "hfq"; "none"].

(** The loop over the supplied codes: the first bad one raises. *)
Fixpoint check_codes (codes : list string) : res unit :=
  match codes with
  | [] => Ok tt
  | code :: rest =>
      if _is_valid_stock_code code then check_codes rest
      else Raise (ValueError ("stock code format error: " ++ code))
  end.

Definition validate (self : HistoryCollectRequest) : res unit :=
  if negb (_is_valid_date (start_date self))
  then Raise (ValueError "start_date format error, expected YYYY-MM-DD")
  else if negb (_is_valid_date (end_date self))
  then Raise (ValueError "end_date format error, expected YYYY-MM-DD")
  else
    start <- strptime (start_date self) ;;
    finish <- strptime (end_date self) ;;
    if gtb start finish
    then Raise (ValueError "start_date cannot be later than end_date")
    else if negb (existsb (String.eqb (adjust_flag self)) adjust_flags)
    then Raise (ValueError "adjust_flag must be one of qfq, hfq, none")
    else
      match stock_codes self with
      | None => Ok tt
      | Some codes => check_codes codes
      end.

(** Construction: the dataclass stores the four fields, then
    [__post_init__] validates. *)
Definition new (start_date end_date : string) (stock_codes : option (list string))
    (adjust_flag : string) : res HistoryCollectRequest :=
  let self := {| start_date := start_date; end_date := end_date;
                 stock_codes := stock_codes; adjust_flag := adjust_flag |} in
  _ <- validate self ;;
  Ok self.

Record StockCodesRequest : Type := { limit : pyval }.

Definition isinstance_int (v : pyval) : bool :=
  match v with PInt _ | PBool _ => true | _ => false end.

Definition int_value (v : pyval) : Z :=
  match v with PInt z => z | PBool true => 1 | _ => 0 end.

Definition validate_codes_request (self : StockCodesRequest) : res unit :=
  if negb (isinstance_int (limit self)) || (int_value (limit self) <=? 0)
  then Raise (ValueError "limit must be a positive integer")
  else if 10000 <? int_value (limit self)
  then Raise (ValueError "limit cannot exceed 10000")
  else Ok tt.

Definition new_codes_request (limit : pyval) : res StockCodesRequest :=
  let self := {| limit := limit |} in
  _ <- validate_codes_request self ;;
  Ok self.

End RequestModels.

(* ===================================================================== *)
(** * The market-data provider and its frames (external)                  *)
(* ===================================================================== *)

Module Akshare.

(** One row of the frame [stock_zh_a_hist] returns; the numeric columns
    are float64, a missing value is NaN. *)
Record hist_row : Type := {
  h_date : string;             (* 日期 *)
  h_open : float;              (* 开盘 *)
  h_close : float;             (* 收盘 *)
  h_high : float;              (* 最高 *)
  h_low : float;               (* 最低 *)
  h_volume : float;            (* 成交量 *)
  h_amount : float;            (* 成交额 *)
  h_change_percent : float;    (* 涨跌幅 *)
  h_change_amount : float;     (* 涨跌额 *)
  h_turnover : float           (* 换手率 *)
}.

(** One row of the whole-market spot frames. *)
Record spot_row : Type := {
  s_code : string;             (* 代码 *)
  s_open : float;              (* 今开 *)
  s_latest : float;            (* 最新价 *)
  s_high : float;              (* 最高 *)
  s_low : float;               (* 最低 *)
  s_volume : float;            (* 成交量 *)
  s_amount : float;            (* 成交额 *)
  s_change_percent : float;    (* 涨跌幅 *)
  s_change_amount : float;     (* 涨跌额 *)
  s_turnover : float           (* 换手率 *)
}.

Record hist_request : Type := {
  symbol : string;
  period : string;
  start_date : string;
  end_date : string;
  adjust : string
}.

(** The provider: how many calls it has answered, and what it answers to
    the n-th one: a frame, [None], or an exception. *)
Record Provider : Type := {
  calls : nat;
  stock_zh_a_hist : nat -> hist_request -> res (option (list hist_row));
  stock_sz_a_spot_em : nat -> res (option (list spot_row));
  stock_sh_a_spot_em : nat -> res (option (list spot_row))
}.

Definition answered (p : Provider) : Provider :=
  {| calls := S (calls p); stock_zh_a_hist := stock_zh_a_hist p;
     stock_sz_a_spot_em := stock_sz_a_spot_em p;
     stock_sh_a_spot_em := stock_sh_a_spot_em p |}.

Definition call_hist (p : Provider) (rq : hist_request)
  : Provider * res (option (list hist_row)) :=
  (answered p, stock_zh_a_hist p (calls p) rq).

Definition call_sz_spot (p : Provider) : Provider * res (option (list spot_row)) :=
  (answered p, stock_sz_a_spot_em p (calls p)).

Definition call_sh_spot (p : Provider) : Provider * res (option (list spot_row)) :=
  (answered p, stock_sh_a_spot_em p (calls p)).

(** [int(x)] on a float: truncation toward zero; NaN and the infinities
    raise. *)
Definition int_of_float (x : float) : res Z :=
  match Prim2SF x with
  | S754_zero _ => Ok 0
  | S754_finite negative m e =>
      let magnitude := if 0 <=? e then Z.shiftl (Zpos m) e
                       else Z.shiftr (Zpos m) (- e) in
      Ok (if negative then - magnitude else magnitude)
  | S754_infinity _ => Raise (OverflowError "cannot convert float infinity to integer")
  | S754_nan => Raise (ValueError "cannot convert float NaN to integer")
  end.

(** [int(float(x) * 100)] *)
Definition scaled (x : float) : res Z := int_of_float (x * 100)%float.

(** [int(float(x) * 100) if pd.notna(x) else 0] *)
Definition scaled_or_zero (x : float) : res Z :=
  if PrimFloat.is_nan x then Ok 0 else scaled x.

End Akshare.

(* ===================================================================== *)
(** * core/kafka/kafka_producer.py                                        *)
(* ===================================================================== *)

Module Kafka.

(** The broker: whether it accepts connections, how many sends it has
    seen, which of them it acknowledges within the producer's wait of 10
    seconds, and the records of the quote topic it has acknowledged, in
    order. A record whose acknowledgement does not come in time may reach
    the topic all the same, by a retry or the closing flush; the model
    does not follow such a record, so [stock_realtime_data] is the
    acknowledged part of the topic and not the whole of it. *)
Record Broker : Type := {
  reachable : bool;
  sent : nat;
  acknowledges : nat -> bool;
  stock_realtime_data : list (option string * DailyBar)     (* key, value *)
}.

(** [key_serializer]: [k.encode('utf-8') if k else None]. *)
Definition serialized_key (k : string) : option string :=
  if (k =? "")%string then None else Some k.

Record KafkaProducer : Type := { producer : option unit }.

(** [__init__]: [_connect] logs and re-raises a failed connection. *)
Definition init (b : Broker) : res KafkaProducer :=
  if reachable b then Ok {| producer := Some tt |} else Raise TransportError.

(** [send_stock_data(self, stock_data, key=None)]: the key defaults to the
    symbol code; a send whose acknowledgement raises or does not come in
    time is logged and answered [False]. *)
Definition send_stock_data (self : KafkaProducer) (b : Broker) (stock_data : DailyBar)
  : Broker * bool :=
  match producer self with
  | None => (b, false)
  | Some _ =>
      if acknowledges b (sent b)
      then ({| reachable := reachable b; sent := S (sent b);
               acknowledges := acknowledges b;
               stock_realtime_data :=
                 stock_realtime_data b
                 ++ [(serialized_key (stock_code stock_data), stock_data)] |},
            true)
      else ({| reachable := reachable b; sent := S (sent b);
               acknowledges := acknowledges b;
               stock_realtime_data := stock_realtime_data b |},
            false)
  end.

(** [send_stock_data_batch(self, stock_data_list)]: one send per record,
    each answer counted; [flush] is the outcome of the closing
    [producer.flush()], whose exception is logged and sets
    failed = total - success. Without a producer nothing is sent. *)
Definition send_counted (self : KafkaProducer) (acc : Broker * Z * Z)
    (stock_data : DailyBar) : Broker * Z * Z :=
  let '(b, success_count, failed_count) := acc in
  let (b', sent_ok) := send_stock_data self b stock_data in
  if sent_ok then (b', success_count + 1, failed_count)
  else (b', success_count, failed_count + 1).

Definition send_stock_data_batch (self : KafkaProducer) (b : Broker)
    (stock_data_list : list DailyBar) (flush : res unit) : Broker * Tally :=
  let total_count := Z.of_nat (List.length stock_data_list) in
  match producer self with
  | None => (b, {| total := total_count; success := 0; failed := total_count |})
  | Some _ =>
      let '(b', success_count, failed_count) :=
        fold_left (send_counted self) stock_data_list (b, 0, 0) in
      match flush with
      | Ok _ =>
          (b', {| total := total_count; success := success_count;
                  failed := failed_count |})
      | Raise _ =>
          (b', {| total := total_count; success := success_count;
                  failed := total_count - success_count |})
      end
  end.

End Kafka.

(* ===================================================================== *)
(** * core/data_storage/es_storage.py                                     *)
(* ===================================================================== *)

Module EsStorage.
Import Es.

Record ElasticsearchStorage : Type := {
  es_client : option client;
  batch_size : Z
}.

Definition methods : list string :=
  ["__init__"; "_connect"; "_ensure_index_exists"; "_prepare_bulk_data";
   "clear_index"; "save_stock_data"; "get_stock_count"; "search_stock";
   "get_all_stock_codes"; "close"].
Definition instance_attributes : list string := ["es_client"; "batch_size"].
Definition members : list string := methods ++ instance_attributes.

(** [__init__]: [_connect] keeps the handle whatever the ping answers. *)
Definition init (c : Cluster) : Cluster * ElasticsearchStorage :=
  (c, {| es_client := Some (Client "http://localhost:9200"); batch_size := 100 |}).

(** [def get_all_stock_codes(self, market_type: str = None)] *)
Definition get_all_stock_codes_params : list string := ["market_type"].

Definition basic_matches (market_type : pyval) (d : BasicDoc) : bool :=
  if truthy market_type
  then match market_type, basic_market_type d with
       | PStr m, Some m' => (m' =? m)%string
       | _, _ => false
       end
  else true.

(** [if 'stock_code' in source: stock_codes.append(source['stock_code'])] *)
Definition codes_of (hits : list BasicDoc) : list string :=
  flat_map (fun d => match basic_stock_code d with
                     | Some code => [code]
                     | None => []
                     end) hits.

(** The pages a scroll cursor of page size [n] serves. *)
Definition pages_of (n : Z) (hits : list BasicDoc) : list (list BasicDoc) :=
  match range 0 (Z.of_nat (List.length hits)) n with
  | Ok starts => map (fun i => slice hits i (i + n)) starts
  | Raise _ => []
  end.

(** [while scroll_id and len(response['hits']['hits']) > 0]: one scroll
    request per turn; the cursor answers an empty page once exhausted. *)
Fixpoint scroll_loop (pending : list (list BasicDoc)) (c : Cluster)
    (last_hits : list BasicDoc) (stock_codes : list string)
  : Cluster * res (list string) :=
  match last_hits with
  | [] => (c, Ok stock_codes)
  | _ :: _ =>
      let (c', r) := request c in
      match r with
      | Raise e => (c', Raise e)
      | Ok _ =>
          match pending with
          | [] => (c', Ok stock_codes)
          | page :: rest => scroll_loop rest c' page (stock_codes ++ codes_of page)
          end
      end
  end.

Definition scroll_size : Z := 1000.

Definition get_all_stock_codes (self : ElasticsearchStorage) (c : Cluster) (kw : kwargs)
  : Cluster * res (list string) :=
  match check_keywords "get_all_stock_codes" get_all_stock_codes_params kw with
  | Raise e => (c, Raise e)
  | Ok _ =>
      let market_type := kwarg kw "market_type" PNone in
      match es_client self with
      | None => (c, Ok [])
      | Some _ =>
          let (c1, r) := request c in
          match r with
          | Raise _ => (c1, Ok [])
          | Ok _ =>
              let pages :=
                pages_of scroll_size (filter (basic_matches market_type) (stock_basic_data c)) in
              let first := match pages with [] => [] | page :: _ => page end in
              let (c2, scrolled) := scroll_loop (tl pages) c1 first (codes_of first) in
              match scrolled with
              | Raise _ => (c2, Ok [])
              | Ok stock_codes =>
                  (* clear_scroll: a failure is passed over *)
                  (fst (request c2), Ok (list_set stock_codes))
              end
          end
      end
  end.

End EsStorage.

(* ===================================================================== *)
(** * core/data_collector/history_collector.py                            *)
(* ===================================================================== *)

Module HistoryCollector.
Import Es Akshare.

Record HistoryDataCollector : Type := {
  es_storage : EsStorage.ElasticsearchStorage
}.

Definition init (c : Cluster) : Cluster * HistoryDataCollector :=
  let (c', storage) := EsStorage.init c in (c', {| es_storage := storage |}).

(** [df if df is not None and not df.empty else None] *)
Definition nonempty_frame (df : option (list hist_row)) : option (list hist_row) :=
  match df with
  | Some (row :: rows) => Some (row :: rows)
  | _ => None
  end.

(** The loop [for attempt in range(max_retries)] of
    [get_stock_history_data]: an answer, empty or not, ends it; an
    exception is retried after [time.sleep(2 ** attempt)] until the last
    attempt. *)
Fixpoint attempts (remaining : nat) (attempt max_retries : Z) (p : Provider)
    (rq : hist_request) : Provider * option (list hist_row) :=
  match remaining with
  | O => (p, None)
  | S remaining' =>
      let (p', answer) := call_hist p rq in
      match answer with
      | Ok df => (p', nonempty_frame df)
      | Raise _ =>
          if attempt <? max_retries - 1
          then attempts remaining' (attempt + 1) max_retries p' rq
          else (p', None)
      end
  end.

Definition get_stock_history_data (p : Provider)
    (stock_code start_date end_date period adjust : string) (max_retries : Z)
  : Provider * option (list hist_row) :=
  attempts (Z.to_nat max_retries) 0 max_retries p
    {| symbol := stock_code; period := period;
       start_date := remove_char "-" start_date;
       end_date := remove_char "-" end_date;
       adjust := adjust |}.

(** [df.sort_values('日期')]: ascending dates. pandas sorts with an
    unstable quicksort, so the order of rows with equal dates is open; the
    model sorts by insertion, and the statements below use only that the
    result is an ascending permutation of the rows. *)
Fixpoint insert_row (row : hist_row) (sorted : list hist_row) : list hist_row :=
  match sorted with
  | [] => [row]
  | row' :: rest =>
      if String.leb (h_date row) (h_date row') then row :: sorted
      else row' :: insert_row row rest
  end.

Definition sort_values (rows : list hist_row) : list hist_row :=
  fold_right insert_row [] rows.

(** The dict built from one row; the first conversion that raises ends
    the attempt for that row. *)
Definition convert_row (row : hist_row) (stock_code market_type : string)
    (prev_close : Z) (now : string) : res DailyBar :=
  open_price <- scaled_or_zero (h_open row) ;;
  close_price <- scaled_or_zero (h_close row) ;;
  high_price <- scaled_or_zero (h_high row) ;;
  low_price <- scaled_or_zero (h_low row) ;;
  volume <- scaled_or_zero (h_volume row) ;;
  amount <- scaled_or_zero (h_amount row) ;;
  change_percent <- scaled_or_zero (h_change_percent row) ;;
  change_amount <- scaled_or_zero (h_change_amount row) ;;
  turnover_rate <- scaled_or_zero (h_turnover row) ;;
  Ok {| date := h_date row;
        stock_code := stock_code;
        market_type := market_type;
        open_price := open_price;
        close_price := close_price;
        high_price := high_price;
        low_price := low_price;
        prev_close_price := prev_close;
        volume := volume;
        amount := amount;
        change_percent := change_percent;
        change_amount := change_amount;
        turnover_rate := turnover_rate;
        stamp := now;
        data_source := "akshare_history" |}.

(** The loop over the sorted rows: a converted row is appended and its
    close carried to the next one; a row that raises is logged and
    skipped. *)
Fixpoint process_rows (rows : list hist_row) (stock_code market_type : string)
    (prev_close : Z) (now : string) : list DailyBar :=
  match rows with
  | [] => []
  | row :: rest =>
      match convert_row row stock_code market_type prev_close now with
      | Ok data_item =>
          data_item :: process_rows rest stock_code market_type (close_price data_item) now
      | Raise _ => process_rows rest stock_code market_type prev_close now
      end
  end.

Definition process_history_data (df : option (list hist_row))
    (stock_code market_type : string) (now : string) : list DailyBar :=
  match df with
  | None => []
  | Some [] => []
  | Some rows => process_rows (sort_values rows) stock_code market_type 0 now
  end.


(** The locals of a backfill that the per-symbol block reads and writes. *)
Record Run : Type := {
  provider : Provider;
  success_count : Z;
  failed_count : Z;
  batch_data : list DailyBar
}.

(** The [try] block for one symbol: fetch; a non-empty frame is processed,
    appended and counted a success, anything else counted a failure; then
    the pause. What was done before an exception stays done. *)
Definition try_symbol (start_date end_date adjust : string) (delay_between_requests : Z)
    (now : string) (r : Run) (stock : string * string) : Run * res unit :=
  let (stock_code, market_type) := stock in
  let (p', df) :=
    get_stock_history_data (provider r) stock_code start_date end_date "daily" adjust 3 in
  let r' :=
    match df with
    | Some rows =>
        let processed_data := process_history_data (Some rows) stock_code market_type now in
        {| provider := p';
           success_count := success_count r + 1;
           failed_count := failed_count r;
           batch_data := batch_data r ++ processed_data |}
    | None =>
        {| provider := p';
           success_count := success_count r;
           failed_count := failed_count r + 1;
           batch_data := batch_data r |}
    end in
  (r', time_sleep delay_between_requests).

(** [except Exception: failed_count += 1] *)
Definition collect_symbol (start_date end_date adjust : string) (delay_between_requests : Z)
    (now : string) (r : Run) (stock : string * string) : Run :=
  let (r', outcome) := try_symbol start_date end_date adjust delay_between_requests now r stock in
  match outcome with
  | Ok _ => r'
  | Raise _ =>
      {| provider := provider r';
         success_count := success_count r';
         failed_count := failed_count r' + 1;
         batch_data := batch_data r' |}
  end.

(** [if batch_data:] a fresh [DailyDataStorage] saves the batch; the
    outcome is logged only. *)
Definition save_batch_data (c : Cluster) (batch_data : list DailyBar) : Cluster :=
  match batch_data with
  | [] => c
  | _ :: _ =>
      let (c1, daily_storage) := DailyStorage.init c in
      fst (DailyStorage.save_daily_data daily_storage c1 batch_data 1000)
  end.

(** One turn of [for i in range(0, total_count, batch_size)]. *)
Definition collect_batch (start_date end_date adjust : string)
    (stock_list : list (string * string)) (batch_size delay_between_requests : Z)
    (now : string) (acc : Provider * Cluster * Z * Z) (i : Z)
  : Provider * Cluster * Z * Z :=
  let '(p, c, success_count0, failed_count0) := acc in
  let batch_stocks := slice stock_list i (i + batch_size) in
  let r := fold_left
             (collect_symbol start_date end_date adjust delay_between_requests now)
             batch_stocks
             {| provider := p; success_count := success_count0;
                failed_count := failed_count0; batch_data := [] |} in
  (provider r, save_batch_data c (batch_data r), success_count r, failed_count r).

Definition collect_loop (start_date end_date adjust : string)
    (stock_list : list (string * string)) (batch_size delay_between_requests : Z)
    (now : string) (p : Provider) (c : Cluster) : Provider * Cluster * res Tally :=
  let total_count := Z.of_nat (List.length stock_list) in
  match range 0 total_count batch_size with
  | Raise e => (p, c, Raise e)
  | Ok starts =>
      let '(p', c', success_count, failed_count) :=
        fold_left
          (collect_batch start_date end_date adjust stock_list batch_size
                         delay_between_requests now)
          starts (p, c, 0, 0) in
      (p', c', Ok {| total := total_count; success := success_count;
                     failed := failed_count |})
  end.

Definition nothing_collected : Tally := {| total := 0; success := 0; failed := 0 |}.


(** ["SZ" if stock_code.startswith(('000', '002', '300')) else "SH"] *)
Definition market_of (stock_code : string) : string :=
  if startswith_any stock_code ["000"; "002"; "300"] then "SZ" else "SH".

(** [collect_history_data_by_codes(self, start_date, end_date, stock_codes,
    adjust_flag="qfq", batch_size=50, delay_between_requests=1)] *)
Definition collect_history_data_by_codes (self : HistoryDataCollector)
    (p : Provider) (c : Cluster) (start_date end_date : string)
    (stock_codes : list string) (adjust_flag : string)
    (batch_size delay_between_requests : Z) (now : string)
  : Provider * Cluster * res Tally :=
  match stock_codes with
  | [] => (p, c, Ok nothing_collected)
  | _ :: _ =>
      collect_loop start_date end_date adjust_flag
                   (map (fun stock_code => (stock_code, market_of stock_code)) stock_codes)
                   batch_size delay_between_requests now p c
  end.

(** Reference for the tally: the outcome of each symbol's fetch, in list
    order, the provider threaded from one fetch to the next. *)
Fixpoint fetch_outcomes (p : Provider) (start_date end_date adjust : string)
    (stock_codes : list string) : list bool :=
  match stock_codes with
  | [] => []
  | stock_code :: rest =>
      let (p', df) :=
        get_stock_history_data p stock_code start_date end_date "daily" adjust 3 in
      (match df with Some _ => true | None => false end)
      :: fetch_outcomes p' start_date end_date adjust rest
  end.

Definition count_of (b : bool) (l : list bool) : Z :=
  Z.of_nat (List.length (filter (Bool.eqb b) l)).

End HistoryCollector.

(* ===================================================================== *)
(** * core/data_collector/realtime_collector.py                           *)
(* ===================================================================== *)

Module RealtimeCollector.
Import Es Akshare.

Record RealtimeDataCollector : Type := {
  daily_storage : DailyStorage.DailyDataStorage;
  kafka_producer : Kafka.KafkaProducer
}.

Definition init (c : Cluster) (b : Kafka.Broker) : Cluster * res RealtimeDataCollector :=
  let (c', storage) := DailyStorage.init c in
  (c', producer <- Kafka.init b ;;
       Ok {| daily_storage := storage; kafka_producer := producer |}).

(** The result dict of one cycle. *)
Record Result : Type := {
  total : Z;
  success : Z;
  failed : Z;
  sz_count : Z;
  sh_count : Z
}.

(** [get_sz_realtime_data] and [get_sh_realtime_data]: one attempt; an
    empty frame, [None] and an exception all give [None]. *)
Definition frame_or_none (answer : res (option (list spot_row)))
  : option (list spot_row) :=
  match answer with
  | Ok (Some (row :: rows)) => Some (row :: rows)
  | _ => None
  end.

Definition get_sz_realtime_data (p : Provider) : Provider * option (list spot_row) :=
  let (p', answer) := call_sz_spot p in (p', frame_or_none answer).

Definition get_sh_realtime_data (p : Provider) : Provider * option (list spot_row) :=
  let (p', answer) := call_sh_spot p in (p', frame_or_none answer).

(** The keyword call [_get_previous_close_price] makes. *)
Definition previous_close_call (stock_code : string) : kwargs :=
  [("stock_code", PStr stock_code); ("size", PInt 1);
   ("sort_by_date", PBool true); ("ascending", PBool false)].

Definition _get_previous_close_price (self : RealtimeDataCollector) (c : Cluster)
    (stock_code current_date : string) : Cluster * Z :=
  let (c', recent_data) :=
    DailyStorage.search_daily_data (daily_storage self) c (previous_close_call stock_code) in
  match recent_data with
  | Ok (recent :: _) => (c', close_price (snd recent))
  | Ok [] => (c', 0)
  | Raise _ => (c', 0)
  end.

Definition convert_row (row : spot_row) (market_type current_date : string)
    (prev_close : Z) (now : string) : res DailyBar :=
  open_price <- scaled (s_open row) ;;
  close_price <- scaled (s_latest row) ;;
  high_price <- scaled (s_high row) ;;
  low_price <- scaled (s_low row) ;;
  volume <- scaled (s_volume row) ;;
  amount <- scaled (s_amount row) ;;
  change_percent <- scaled (s_change_percent row) ;;
  change_amount <- scaled (s_change_amount row) ;;
  turnover_rate <- scaled (s_turnover row) ;;
  Ok {| date := current_date;
        stock_code := s_code row;
        market_type := market_type;
        open_price := open_price;
        close_price := close_price;
        high_price := high_price;
        low_price := low_price;
        prev_close_price := prev_close;
        volume := volume;
        amount := amount;
        change_percent := change_percent;
        change_amount := change_amount;
        turnover_rate := turnover_rate;
        stamp := now;
        data_source := "" |}.

(** [process_realtime_data]: the [try] spans the whole loop, so the first
    row that raises ends it and the rows converted so far are returned. *)
Fixpoint process_realtime_data (self : RealtimeDataCollector) (c : Cluster)
    (data : list spot_row) (market_type current_date now : string)
  : Cluster * list DailyBar :=
  match data with
  | [] => (c, [])
  | row :: rest =>
      let (c1, prev_close) := _get_previous_close_price self c (s_code row) current_date in
      match convert_row row market_type current_date prev_close now with
      | Raise _ => (c1, [])
      | Ok stock_data =>
          let (c2, processed) :=
            process_realtime_data self c1 rest market_type current_date now in
          (c2, stock_data :: processed)
      end
  end.

(** [_send_to_kafka]: every record is sent in turn, answers unread. *)
Definition _send_to_kafka (self : RealtimeDataCollector) (b : Kafka.Broker)
    (data : list DailyBar) : Kafka.Broker :=
  fold_left (fun b stock_data => fst (Kafka.send_stock_data (kafka_producer self) b stock_data))
            data b.

(** Modelled from the spec: the daily-bar adapter's batch-save operation,
    which [collect_all_realtime_data] calls under the attribute name
    [save_daily_data_batch]; [DailyDataStorage] binds no such name. It is
    the Save operation of the adapter with its default sub-batch size. *)
Definition save_daily_data_batch (self : DailyStorage.DailyDataStorage) (c : Cluster)
    (data : list DailyBar) : Cluster * bool :=
  DailyStorage.save_daily_data self c data 1000.

(** One market inside the [try]: fetch, process, extend, count. *)
Definition collect_market (self : RealtimeDataCollector) (c : Cluster)
    (fetched : option (list spot_row)) (market_type today now : string)
  : Cluster * list DailyBar :=
  match fetched with
  | Some data => process_realtime_data self c data market_type today now
  | None => (c, [])
  end.

Definition len (l : list DailyBar) : Z := Z.of_nat (List.length l).

Definition collect_all_realtime_data (self : RealtimeDataCollector)
    (p : Provider) (c : Cluster) (b : Kafka.Broker) (today now : string)
  : Provider * Cluster * Kafka.Broker * Result :=
  let (p1, sz_data) := get_sz_realtime_data p in
  let (c1, sz_processed) := collect_market self c sz_data "SZ" today now in
  (* time.sleep(1) *)
  let (p2, sh_data) := get_sh_realtime_data p1 in
  let (c2, sh_processed) := collect_market self c1 sh_data "SH" today now in
  let all_data := (sz_processed ++ sh_processed)%list in
  let counted (success failed : Z) :=
    {| total := len all_data; success := success; failed := failed;
       sz_count := len sz_processed; sh_count := len sh_processed |} in
  match all_data with
  | [] => (p2, c2, b, counted 0 0)
  | _ :: _ =>
      match getattr "DailyDataStorage" DailyStorage.members "save_daily_data_batch" with
      | Raise _ =>
          (* except Exception: result['failed'] = result['total'] *)
          (p2, c2, b, counted 0 (len all_data))
      | Ok _ =>
          let (c3, save_success) := save_daily_data_batch (daily_storage self) c2 all_data in
          if save_success
          then (p2, c3, _send_to_kafka self b all_data, counted (len all_data) 0)
          else (p2, c3, b, counted 0 (len all_data))
      end
  end.

(** What the class defines and what [__init__] sets. *)
Definition methods : list string :=
  ["__init__"; "get_sz_realtime_data"; "get_sh_realtime_data";
   "process_realtime_data"; "_get_previous_close_price";
   "collect_all_realtime_data"; "_send_to_kafka"; "close"].
Definition instance_attributes : list string :=
  ["logger"; "daily_storage"; "kafka_producer"].
Definition members : list string := methods ++ instance_attributes.

End RealtimeCollector.

(* ===================================================================== *)
(** * scheduler/task_scheduler.py: construction                           *)
(* ===================================================================== *)

Module TaskScheduler.
Import Es.

Record StockDataScheduler : Type := {
  history_collector : HistoryCollector.HistoryDataCollector;
  realtime_collector : RealtimeCollector.RealtimeDataCollector;
  storage : EsStorage.ElasticsearchStorage;
  is_running : bool
}.

(** [__init__] builds the collectors and the storage in turn; the
    realtime collector's producer raises when the broker is away. *)
Definition init (c : Cluster) (b : Kafka.Broker) : Cluster * res StockDataScheduler :=
  let (c1, history) := HistoryCollector.init c in
  let (c2, realtime) := RealtimeCollector.init c1 b in
  match realtime with
  | Raise e => (c2, Raise e)
  | Ok realtime =>
      let (c3, storage) := EsStorage.init c2 in
      (c3, Ok {| history_collector := history; realtime_collector := realtime;
                 storage := storage; is_running := false |})
  end.

(** The text under the key [error] of a result dict: a fixed message or
    the [str] of an exception. *)
Inductive error_text : Type :=
| Message (text : string)
| StrOf (e : exn).

(** The dicts the history entry points return: the tally of a run, with
    an [error] when the run failed; or the note that the run was queued. *)
Record HistoryResult : Type := {
  r_total : option Z;
  r_success : option Z;
  r_failed : option Z;
  r_error : option error_text;
  r_status : option string;
  r_stock_count : option Z
}.

Definition result_of_tally (t : Tally) : HistoryResult :=
  {| r_total := Some (total t); r_success := Some (success t);
     r_failed := Some (failed t); r_error := None;
     r_status := None; r_stock_count := None |}.

Definition zero_with_error (err : error_text) : HistoryResult :=
  {| r_total := Some 0; r_success := Some 0; r_failed := Some 0;
     r_error := Some err; r_status := None; r_stock_count := None |}.

(** [collect_history_data_by_api(self, start_date, end_date, stock_codes,
    adjust_flag="qfq")]: the collector is called with batches of 50 and a
    pause of 1 second; an exception gives the zero tally with its text. *)
Definition collect_history_data_by_api (self : StockDataScheduler)
    (p : Akshare.Provider) (c : Cluster) (start_date end_date : string)
    (stock_codes : list string) (adjust_flag : string) (now : string)
  : Akshare.Provider * Cluster * HistoryResult :=
  let '(p', c', outcome) :=
    HistoryCollector.collect_history_data_by_codes (history_collector self) p c
      start_date end_date stock_codes adjust_flag 50 1 now in
  match outcome with
  | Ok result => (p', c', result_of_tally result)
  | Raise e => (p', c', zero_with_error (StrOf e))
  end.

(** A job in the registry of the [schedule] module: the queued history
    run, due every minute and tagged. *)
Record Job : Type := {
  tag : string;
  job_start_date : string;
  job_end_date : string;
  job_stock_codes : list string;
  job_adjust_flag : string
}.

(** [setup_history_schedule_once(self, start_date, end_date,
    stock_codes=None, adjust_flag="qfq", execute_immediately=True)]:
    without codes the universe is the storage's code listing, and an
    empty listing ends the call with an error dict; then the run is made
    at once or queued. *)
Definition setup_history_schedule_once (self : StockDataScheduler)
    (p : Akshare.Provider) (c : Cluster) (jobs : list Job)
    (start_date end_date : string) (stock_codes : option (list string))
    (adjust_flag : string) (execute_immediately : bool) (now : string)
  : Akshare.Provider * Cluster * list Job * HistoryResult :=
  let run (c : Cluster) (stock_codes : list string) :=
    if execute_immediately
    then
      let '(p', c', result) :=
        collect_history_data_by_api self p c start_date end_date stock_codes
                                    adjust_flag now in
      (p', c', jobs, result)
    else
      (p, c,
       (jobs ++ [{| tag := "history_once"; job_start_date := start_date;
                    job_end_date := end_date; job_stock_codes := stock_codes;
                    job_adjust_flag := adjust_flag |}])%list,
       {| r_total := None; r_success := None; r_failed := None; r_error := None;
          r_status := Some "scheduled";
          r_stock_count := Some (Z.of_nat (List.length stock_codes)) |}) in
  match stock_codes with
  | Some (code :: rest) => run c (code :: rest)
  | _ =>
      let (c1, listed) := EsStorage.get_all_stock_codes (storage self) c [] in
      match listed with
      | Raise e =>
          (p, c1, jobs,
           {| r_total := None; r_success := None; r_failed := None;
              r_error := Some (StrOf e); r_status := None; r_stock_count := None |})
      | Ok [] => (p, c1, jobs, zero_with_error (Message "no stock codes from ES"))
      | Ok (code :: rest) => run c1 (code :: rest)
      end
  end.

(** [collect_realtime_data_once]: the realtime collector is asked for
    [collect_and_process_data]; the lookup of a name the class does not
    bind raises, and the handler logs it. Nothing is returned. *)
Definition collect_realtime_data_once (self : StockDataScheduler)
    (p : Akshare.Provider) (c : Cluster) (b : Kafka.Broker) (today now : string)
  : Akshare.Provider * Cluster * Kafka.Broker :=
  match getattr "RealtimeDataCollector" RealtimeCollector.members
                "collect_and_process_data" with
  | Raise _ => (p, c, b)
  | Ok _ =>
      let '(p', c', b', _) :=
        RealtimeCollector.collect_all_realtime_data (realtime_collector self) p c b
                                                    today now in
      (p', c', b')
  end.

End TaskScheduler.

(* ===================================================================== *)
(** * app/services/stock_service.py                                       *)
(* ===================================================================== *)

Module StockServiceM.
Import Es.

Record StockService : Type := {
  scheduler : option TaskScheduler.StockDataScheduler;
  es_storage : option EsStorage.ElasticsearchStorage
}.

Definition new : StockService := {| scheduler := None; es_storage := None |}.

(** [_get_scheduler]: built on first use and kept. *)
Definition _get_scheduler (self : StockService) (c : Cluster) (b : Kafka.Broker)
  : StockService * Cluster * res TaskScheduler.StockDataScheduler :=
  match scheduler self with
  | Some s => (self, c, Ok s)
  | None =>
      let (c', built) := TaskScheduler.init c b in
      match built with
      | Ok s => ({| scheduler := Some s; es_storage := es_storage self |}, c', Ok s)
      | Raise e => (self, c', Raise e)
      end
  end.

(** [_get_es_storage]: built on first use and kept. *)
Definition _get_es_storage (self : StockService) (c : Cluster)
  : StockService * Cluster * EsStorage.ElasticsearchStorage :=
  match es_storage self with
  | Some s => (self, c, s)
  | None =>
      let (c', s) := EsStorage.init c in
      ({| scheduler := scheduler self; es_storage := Some s |}, c', s)
  end.

(** The keyword call [get_stock_codes] makes on the storage. *)
Definition code_listing_call (request : RequestModels.StockCodesRequest) : kwargs :=
  [("limit", RequestModels.limit request)].

(** [get_stock_codes]: whatever the [try] raises is logged and raised
    again inside a plain [Exception]. *)
Definition get_stock_codes (self : StockService) (c : Cluster)
    (request : RequestModels.StockCodesRequest)
  : StockService * Cluster * res (list string) :=
  let '(self1, c1, storage) := _get_es_storage self c in
  let (c2, codes) := EsStorage.get_all_stock_codes storage c1 (code_listing_call request) in
  (self1, c2,
   try_except codes (fun e => Raise (Wrapped "get_stock_codes" e))).

(** The dict [health_check] returns. *)
Record Health : Type := {
  status : string;
  timestamp : string;
  components : option (string * string);  (* elasticsearch, scheduler *)
  error : option exn
}.

Definition label (healthy : bool) : string :=
  if healthy then "healthy" else "unhealthy".

(** Modelled from the spec: the storage adapter's connection ping, which
    [health_check] calls under the attribute name [check_connection];
    [ElasticsearchStorage] binds no such name. *)
Definition check_connection (self : EsStorage.ElasticsearchStorage) (c : Cluster) : bool :=
  match EsStorage.es_client self with
  | Some _ => answers_ping c
  | None => false
  end.

Definition health_check (self : StockService) (c : Cluster) (b : Kafka.Broker)
    (now : string) : StockService * Cluster * res Health :=
  let '(self1, c1, storage) := _get_es_storage self c in
  match getattr "ElasticsearchStorage" EsStorage.members "check_connection" with
  | Raise e =>
      (* except Exception as e *)
      (self1, c1, Ok {| status := "unhealthy"; timestamp := now;
                        components := None; error := Some e |})
  | Ok _ =>
      let es_healthy := check_connection storage c1 in
      let '(self2, c2, probe) := _get_scheduler self1 c1 b in
      let scheduler_healthy := is_ok probe in
      (self2, c2, Ok {| status := label (es_healthy && scheduler_healthy);
                        timestamp := now;
                        components := Some (label es_healthy, label scheduler_healthy);
                        error := None |})
  end.

(** Status of the routes that answer from the service (stock_controller):
    200 with the list and its length, or what [handle_exceptions] makes
    of an exception. *)
Definition codes_route_status (answer : res (list string)) : Z :=
  match answer with
  | Ok _ => 200
  | Raise (ValueError _) => 400
  | Raise _ => 500
  end.

(** The dict [collect_history_data] returns: the scheduler's result with
    the request echoed and the time taken; [stock_codes_count] is set
    when codes were given. *)
Record CollectResult : Type := {
  scheduled : TaskScheduler.HistoryResult;
  cr_start_date : string;
  cr_end_date : string;
  cr_adjust_flag : string;
  cr_execution_time : float;
  cr_stock_codes_count : option Z
}.

(** [collect_history_data(self, request)]: the scheduler is built on
    first use and asked for an immediate run; [elapsed] is the difference
    of the two clock readings. Whatever the [try] raises is logged and
    raised again inside a plain [Exception]. *)
Definition collect_history_data (self : StockService) (p : Akshare.Provider)
    (c : Cluster) (b : Kafka.Broker) (jobs : list TaskScheduler.Job)
    (request : RequestModels.HistoryCollectRequest) (now : string) (elapsed : float)
  : StockService * Akshare.Provider * Cluster * list TaskScheduler.Job * res CollectResult :=
  let stock_codes := RequestModels.stock_codes request in
  let '(self1, c1, built) := _get_scheduler self c b in
  match built with
  | Raise e => (self1, p, c1, jobs, Raise (Wrapped "collect_history_data" e))
  | Ok scheduler =>
      let '(p', c2, jobs', result) :=
        TaskScheduler.setup_history_schedule_once scheduler p c1 jobs
          (RequestModels.start_date request) (RequestModels.end_date request)
          stock_codes (RequestModels.adjust_flag request) true now in
      (self1, p', c2, jobs',
       Ok {| scheduled := result;
             cr_start_date := RequestModels.start_date request;
             cr_end_date := RequestModels.end_date request;
             cr_adjust_flag := RequestModels.adjust_flag request;
             cr_execution_time := round2 elapsed;
             cr_stock_codes_count :=
               match stock_codes with
               | Some (code :: rest) => Some (Z.of_nat (List.length (code :: rest)))
               | _ => None
               end |})
  end.

End StockServiceM.

(* ===================================================================== *)
(** * core/flink/nine_turn_strategy.py                                    *)
(* ===================================================================== *)

Module NineTurnStrategy.
Import Es Datetime.

(** Modelled from the spec: the strategy-signal storage adapter. The
    module [core.data_storage.strategy_storage] that the job imports is
    not under src/. Construction raises when the ping fails; saving one
    signal indexes it under the id date_code_market and answers whether
    the engine took it. *)
Record StrategyStorage : Type := { ss_client : client }.

Definition strategy_storage_init (c : Cluster) : res StrategyStorage :=
  if answers_ping c then Ok {| ss_client := Client "http://localhost:9200" |}
  else Raise TransportError.

Definition signal_id (d : StrategyData) : string :=
  sd_date d ++ "_" ++ sd_stock_code d ++ "_"
  ++ match sd_market_type d with Some m => m | None => "None" end.

Definition save_strategy_data (self : StrategyStorage) (c : Cluster) (d : StrategyData)
  : Cluster * res bool :=
  let (c', r) := request c in
  match r with
  | Raise e => (c', Raise e)
  | Ok _ => (with_strategy c' (upsert (signal_id d) d (nine_turn_strategy c)), Ok true)
  end.

(** [StockDataProcessor]: both adapters are [None] until [open]. *)
Record StockDataProcessor : Type := {
  daily_storage : option DailyStorage.DailyDataStorage;
  strategy_storage : option StrategyStorage
}.

Definition open (c : Cluster) : Cluster * res StockDataProcessor :=
  let (c1, daily) := DailyStorage.init c in
  (c1, strategy <- strategy_storage_init c1 ;;
       Ok {| daily_storage := Some daily; strategy_storage := Some strategy |}).

(** The quote document, as [json.loads] hands it over. *)
Record quote : Type := {
  q_stock_code : option string;
  q_date : option string;
  q_close_price : option Z;
  q_market_type : option string
}.

(** The keyword call [_get_historical_data] makes on the daily adapter. *)
Definition historical_call (stock_code : string) (days : Z) (end_date : string) : kwargs :=
  [("stock_code", PStr stock_code); ("size", PInt days);
   ("sort_by_date", PBool true); ("ascending", PBool true);
   ("end_date", PStr end_date)].

(** [_get_historical_data]: whatever raises inside gives []. *)
Definition _get_historical_data (self : StockDataProcessor) (c : Cluster)
    (stock_code current_date : string) (days : Z) : Cluster * list DailyStorage.hit :=
  match (current_dt <- strptime current_date ;; minus_one_day current_dt) with
  | Raise _ => (c, [])
  | Ok day_before =>
      let end_date := strftime day_before in
      match daily_storage self with
      | None => (c, [])
      | Some storage =>
          let (c', historical_data) :=
            DailyStorage.search_daily_data storage c
              (historical_call stock_code days end_date) in
          match historical_data with
          | Ok hits => (c', hits)
          | Raise _ => (c', [])
          end
      end
  end.

(** [_save_strategy_result]: a failure is logged only. *)
Definition _save_strategy_result (self : StockDataProcessor) (c : Cluster)
    (strategy_data : StrategyData) : Cluster :=
  match strategy_storage self with
  | None => c
  | Some storage => fst (save_strategy_data storage c strategy_data)
  end.

(** [round((current_price - first_close_price) / first_close_price * 10000, 2)] *)
Definition price_diff_percent (current_price first_close_price : Z) : res float :=
  ratio <- true_div (current_price - first_close_price) first_close_price ;;
  Ok (round2 (ratio * 10000)%float).

Definition nonempty_string (s : option string) : option string :=
  match s with
  | Some EmptyString => None
  | other => other
  end.

Definition _execute_nine_turn_strategy (self : StockDataProcessor) (c : Cluster)
    (current_data : quote) (now : string) : Cluster * option StrategyData :=
  let current_price := match q_close_price current_data with Some p => p | None => 0 end in
  match nonempty_string (q_stock_code current_data),
        nonempty_string (q_date current_data) with
  | Some stock_code, Some current_date =>
      if current_price <=? 0 then (c, None)
      else
        let (c1, historical_data) := _get_historical_data self c stock_code current_date 4 in
        match historical_data with
        | [] => (c1, None)
        | first :: _ =>
            let first_close_price := close_price (snd first) in
            if first_close_price <=? 0 then (c1, None)
            else if first_close_price <? current_price
            then
              match price_diff_percent current_price first_close_price with
              | Raise _ => (c1, None)
              | Ok percent =>
                  let strategy_data :=
                    {| sd_date := current_date;
                       sd_stock_code := stock_code;
                       sd_market_type := q_market_type current_data;
                       sd_current_price := current_price;
                       sd_compare_price := first_close_price;
                       sd_price_diff := current_price - first_close_price;
                       sd_price_diff_percent := percent;
                       sd_created_at := now |} in
                  (_save_strategy_result self c1 strategy_data, Some strategy_data)
              end
            else (c1, None)
        end
  | _, _ => (c, None)
  end.

(** [process_element] after [json.loads]: what [out.collect] receives. *)
Definition process_element (self : StockDataProcessor) (c : Cluster)
    (stock_data : quote) (now : string) : Cluster * list StrategyData :=
  let (c', strategy_result) := _execute_nine_turn_strategy self c stock_data now in
  match strategy_result with
  | Some strategy_data => (c', [strategy_data])
  | None => (c', [])
  end.

(** ** The rule as the specification words it *)

(** The lookback of the specification: up to [days] records of the symbol
    strictly before the quote's date, oldest first. *)
Definition lookback_spec (c : Cluster) (stock_code current_date : string) (days : Z)
  : list DailyBar :=
  map snd
    (firstn (Z.to_nat days)
       (sort_hits [("date", Asc); ("stock_code", Asc)]
          (filter (fun h => (Model.stock_code (snd h) =? stock_code)%string
                            && String.ltb (date (snd h)) current_date)
                  (stock_daily_data c)))).

(** The signal of the specification: price_diff and price_diff_percent
    when a lookback exists, its earliest close is positive and the quote's
    close exceeds it. *)
Definition signal_spec (lookback : list DailyBar) (p : Z) : option (Z * float) :=
  match lookback with
  | [] => None
  | earliest :: _ =>
      let compare := close_price earliest in
      if (0 <? compare) && (compare <? p)
      then match price_diff_percent p compare with
           | Ok percent => Some (p - compare, percent)
           | Raise _ => None
           end
      else None
  end.

End NineTurnStrategy.

(* ===================================================================== *)
(** * core/data_collector/stock_collector.py: the retry helper           *)
(* ===================================================================== *)

Module StockCollector.
Import Akshare.

(** [__init__] reads [retry_times] and [retry_delay] from the settings,
    3 and 5. *)
Record StockDataCollector : Type := {
  retry_times : Z;
  retry_delay : Z
}.

Definition init : StockDataCollector := {| retry_times := 3; retry_delay := 5 |}.

(** A provider function called without arguments, such as
    [ak.stock_sz_a_spot_em]. *)
Definition request_fn : Type := Provider -> Provider * res (option (list spot_row)).

(** The loop [for attempt in range(self.retry_times)] of [_retry_request]:
    a frame with rows is returned; an empty answer is logged and the next
    attempt follows at once; an exception is followed by
    [time.sleep(self.retry_delay)] unless the attempt was the last. An
    exception of the sleep itself leaves the function. *)
Fixpoint retry_loop (remaining : nat) (attempt : Z) (self : StockDataCollector)
    (func : request_fn) (p : Provider) : Provider * res (option (list spot_row)) :=
  match remaining with
  | O => (p, Ok None)
  | S remaining' =>
      let (p', answer) := func p in
      match answer with
      | Ok (Some (row :: rows)) => (p', Ok (Some (row :: rows)))
      | Ok _ => retry_loop remaining' (attempt + 1) self func p'
      | Raise _ =>
          if attempt <? retry_times self - 1
          then match time_sleep (retry_delay self) with
               | Raise e => (p', Raise e)
               | Ok _ => retry_loop remaining' (attempt + 1) self func p'
               end
          else retry_loop remaining' (attempt + 1) self func p'
      end
  end.

Definition _retry_request (self : StockDataCollector) (func : request_fn) (p : Provider)
  : Provider * res (option (list spot_row)) :=
  retry_loop (Z.to_nat (retry_times self)) 0 self func p.

End StockCollector.

(* ===================================================================== *)
(** * app/models/response_models.py: the history-collection response     *)
(* ===================================================================== *)

Module ResponseModels.

(** [HistoryCollectResult]; [to_dict] leaves out the fields that are
    [None]. *)
Record HistoryCollectResult : Type := {
  total : Z;
  success : Z;
  failed : Z;
  start_date : string;
  end_date : string;
  adjust_flag : string;
  stock_codes_count : option Z;
  execution_time : option float
}.

(** [ApiResponse] as the history route fills it. *)
Record ApiResponse : Type := {
  api_success : bool;
  data : option HistoryCollectResult;
  message : string;
  error : option string;
  details : option exn;
  timestamp : string
}.

(** [result.get(key, default)] on the three counts. *)
Definition get_or_zero (v : option Z) : Z :=
  match v with Some n => n | None => 0 end.

(** [ResponseBuilder.history_collect_response(result)]: eight keys are
    read from the result, each with its default, and wrapped in a success
    response; no other key of the result is looked at. *)
Definition history_collect_response (result : StockServiceM.CollectResult) (now : string)
  : ApiResponse :=
  let collect_result :=
    {| total := get_or_zero (TaskScheduler.r_total (StockServiceM.scheduled result));
       success := get_or_zero (TaskScheduler.r_success (StockServiceM.scheduled result));
       failed := get_or_zero (TaskScheduler.r_failed (StockServiceM.scheduled result));
       start_date := StockServiceM.cr_start_date result;
       end_date := StockServiceM.cr_end_date result;
       adjust_flag := StockServiceM.cr_adjust_flag result;
       stock_codes_count := StockServiceM.cr_stock_codes_count result;
       execution_time := Some (StockServiceM.cr_execution_time result) |} in
  {| api_success := true; data := Some collect_result;
     message := "history collection completed";
     error := None; details := None; timestamp := now |}.

(** [ResponseBuilder.validation_error] and [ResponseBuilder.server_error]. *)
Definition validation_error (e : exn) (now : string) : ApiResponse :=
  {| api_success := false; data := None; message := "";
     error := Some "validation failed"; details := Some e; timestamp := now |}.

Definition server_error (e : exn) (now : string) : ApiResponse :=
  {| api_success := false; data := None; message := "";
     error := Some "server error"; details := Some e; timestamp := now |}.

(** The end of the route [/history/collect] (stock_controller): the
    service's result is wrapped and answered with 200; what the service
    raised is answered by [handle_exceptions], 400 for a [ValueError] and
    500 otherwise. *)
Definition history_route_answer (outcome : res StockServiceM.CollectResult) (now : string)
  : Z * ApiResponse :=
  match outcome with
  | Ok result => (200, history_collect_response result now)
  | Raise (ValueError msg) => (400, validation_error (ValueError msg) now)
  | Raise e => (500, server_error e now)
  end.

End ResponseModels.

(* ===================================================================== *)
(** * Notions the statements use, and sample data                         *)
(* ===================================================================== *)

(** Dates in ascending order. *)
Definition ascending (dates : list string) : Prop :=
  Sorted (fun x y => String.leb x y = true) dates.

(** The previous close of each record is the close of the record before
    it, the first one's being [prev]. *)
Fixpoint chained (prev : Z) (records : list DailyBar) : Prop :=
  match records with
  | [] => True
  | r :: rest => prev_close_price r = prev /\ chained (close_price r) rest
  end.

(** The provider after the fetches of [stock_codes], in list order. *)
Fixpoint provider_after (p : Akshare.Provider) (start_date end_date adjust : string)
    (stock_codes : list string) : Akshare.Provider :=
  match stock_codes with
  | [] => p
  | stock_code :: rest =>
      provider_after
        (fst (HistoryCollector.get_stock_history_data p stock_code start_date end_date
                "daily" adjust 3))
        start_date end_date adjust rest
  end.

(** A string of decimal digits. *)
Fixpoint all_digits (s : string) : bool :=
  match s with
  | EmptyString => true
  | String a rest => Datetime.is_digit a && all_digits rest
  end.

Definition line_feed : string := String RequestModels.newline EmptyString.

(** A daily bar of the given day, symbol and close. *)
Definition sample_bar (day code : string) (close : Z) : DailyBar :=
  {| date := day; stock_code := code; market_type := "SZ";
     open_price := close; close_price := close; high_price := close;
     low_price := close; prev_close_price := 0; volume := 0; amount := 0;
     change_percent := 0; change_amount := 0; turnover_rate := 0;
     stamp := "2025-09-18 16:00:00"; data_source := "akshare_history" |}.

(** A cluster that serves every request, with one bar on file for each of
    two symbols. *)
Definition sample_cluster : Es.Cluster :=
  {| Es.answers_ping := true; Es.served := 0; Es.faulty := fun _ => false;
     Es.stock_daily_data :=
       [("000001_2025-09-17", sample_bar "2025-09-17" "000001" 1000);
        ("600000_2025-09-17", sample_bar "2025-09-17" "600000" 800)];
     Es.stock_basic_data :=
       [{| basic_stock_code := Some "000001"; basic_market_type := Some "SZ" |};
        {| basic_stock_code := Some "600000"; basic_market_type := Some "SH" |}];
     Es.nine_turn_strategy := [] |}.

Definition live_daily_storage : DailyStorage.DailyDataStorage :=
  snd (DailyStorage.init sample_cluster).

(** A row whose prices all equal [close]; the change percent is missing. *)
Definition row_of (day : string) (close : float) : Akshare.hist_row :=
  {| Akshare.h_date := day; Akshare.h_open := close; Akshare.h_close := close;
     Akshare.h_high := close; Akshare.h_low := close;
     Akshare.h_volume := 1200%float; Akshare.h_amount := 12000%float;
     Akshare.h_change_percent := PrimFloat.nan; Akshare.h_change_amount := 0%float;
     Akshare.h_turnover := 0.5%float |}.

(** The rows of the specification's example, closes 10.00, 10.50 and 9.80,
    handed over out of date order. *)
Definition spec_rows : list Akshare.hist_row :=
  [row_of "2025-08-19" 10.5%float; row_of "2025-08-18" 10%float;
   row_of "2025-08-20" 9.8%float].

(** A provider that has two days on file for every symbol but 300750, for
    which it answers an empty frame. *)
Definition sample_provider : Akshare.Provider :=
  {| Akshare.calls := 0;
     Akshare.stock_zh_a_hist := fun _ rq =>
       if (Akshare.symbol rq =? "300750")%string then Ok (Some [])
       else Ok (Some [row_of "2025-08-18" 10%float; row_of "2025-08-19" 10.5%float]);
     Akshare.stock_sz_a_spot_em := fun _ => Ok None;
     Akshare.stock_sh_a_spot_em := fun _ => Ok None |}.

(** A provider that raises on its first call and on every call for
    600000, answers an empty frame for 300750 and has two days on file for
    every other symbol. *)
Definition flaky_provider : Akshare.Provider :=
  {| Akshare.calls := 0;
     Akshare.stock_zh_a_hist := fun n rq =>
       if (n =? 0)%nat then Raise TransportError
       else if (Akshare.symbol rq =? "600000")%string then Raise TransportError
       else if (Akshare.symbol rq =? "300750")%string then Ok (Some [])
       else Ok (Some [row_of "2025-08-18" 10%float; row_of "2025-08-19" 10.5%float]);
     Akshare.stock_sz_a_spot_em := fun n =>
       if (n =? 0)%nat then Raise TransportError else Ok None;
     Akshare.stock_sh_a_spot_em := fun _ => Ok None |}.

(** What the upstream fetch of one symbol comes to, in the words of the
    specification and read off the provider's answers alone: a non-empty
    result, nothing, or an exception. *)
Inductive upstream : Type := NonEmpty | Nothing | Raised.

Definition upstream_eqb (a b : upstream) : bool :=
  match a, b with
  | NonEmpty, NonEmpty | Nothing, Nothing | Raised, Raised => true
  | _, _ => false
  end.

(** One answer of the provider: a frame with rows is a non-empty result,
    no frame or a frame without rows is nothing; an exception decides
    nothing yet. *)
Definition read_answer (answer : res (option (list Akshare.hist_row)))
  : option upstream :=
  match answer with
  | Ok (Some (_ :: _)) => Some NonEmpty
  | Ok _ => Some Nothing
  | Raise _ => None
  end.

(** The fetch of one symbol, the provider's next call being its [n]-th:
    it is asked up to three times, the first answer that is not an
    exception decides, and three exceptions in a row are a fetch that
    raised. The second component is the number of the call that follows. *)
Definition upstream_fetch_spec (answers : nat -> res (option (list Akshare.hist_row)))
    (n : nat) : upstream * nat :=
  match read_answer (answers n) with
  | Some outcome => (outcome, S n)
  | None =>
      match read_answer (answers (S n)) with
      | Some outcome => (outcome, S (S n))
      | None =>
          match read_answer (answers (S (S n))) with
          | Some outcome => (outcome, S (S (S n)))
          | None => (Raised, S (S (S n)))
          end
      end
  end.

(** The request for one symbol's daily bars, the dates in the provider's
    compact form. *)
Definition history_request (stock_code start_date end_date adjust : string)
  : Akshare.hist_request :=
  {| Akshare.symbol := stock_code; Akshare.period := "daily";
     Akshare.start_date := remove_char "-" start_date;
     Akshare.end_date := remove_char "-" end_date;
     Akshare.adjust := adjust |}.

(** The fetches of a list of codes, one after the other. *)
Fixpoint upstream_outcomes_spec
    (answers : nat -> Akshare.hist_request -> res (option (list Akshare.hist_row)))
    (n : nat) (start_date end_date adjust : string) (stock_codes : list string)
  : list upstream :=
  match stock_codes with
  | [] => []
  | stock_code :: rest =>
      let (outcome, n') :=
        upstream_fetch_spec
          (fun k => answers k (history_request stock_code start_date end_date adjust)) n in
      outcome :: upstream_outcomes_spec answers n' start_date end_date adjust rest
  end.

Definition count_upstream (o : upstream) (l : list upstream) : Z :=
  Z.of_nat (List.length (filter (upstream_eqb o) l)).

(** A cluster that answers the ping and fails every request, so every save
    of a batch fails. *)
Definition failing_cluster : Es.Cluster :=
  {| Es.answers_ping := true; Es.served := 0; Es.faulty := fun _ => true;
     Es.stock_daily_data := []; Es.stock_basic_data := [];
     Es.nine_turn_strategy := [] |}.

Definition sample_collector : HistoryCollector.HistoryDataCollector :=
  snd (HistoryCollector.init sample_cluster).


(** The document an index holds under an id. *)
Fixpoint doc_of {D : Type} (id : string) (docs : list (string * D)) : option D :=
  match docs with
  | [] => None
  | (id', d) :: rest => if (id' =? id)%string then Some d else doc_of id rest
  end.

(** The id under which [save_daily_data] files a record. *)
Definition doc_id (d : DailyBar) : string := stock_code d ++ "_" ++ date d.

(** The bulk actions of a list of records, as [save_daily_data] builds them. *)
Definition actions_of (data_list : list DailyBar) : list (string * DailyBar) :=
  map (fun data => (doc_id data, data)) data_list.

(** Applying bulk actions to an index, one after the other. *)
Definition apply_actions {D : Type} (actions : list (string * D))
    (docs : list (string * D)) : list (string * D) :=
  fold_left (fun docs a => Es.upsert (fst a) (snd a) docs) actions docs.

(** A cluster that serves every request it gets. *)
Definition serves_all (c : Es.Cluster) : Prop := forall n, Es.faulty c n = false.

(** The records a backfill processes for a list of (code, market) pairs,
    in list order, the provider threaded from one fetch to the next. *)
Fixpoint backfill_records (p : Akshare.Provider) (start_date end_date adjust now : string)
    (stocks : list (string * string)) : list DailyBar :=
  match stocks with
  | [] => []
  | (stock_code, market_type) :: rest =>
      let (p', df) :=
        HistoryCollector.get_stock_history_data p stock_code start_date end_date
                                                "daily" adjust 3 in
      (HistoryCollector.process_history_data df stock_code market_type now
       ++ backfill_records p' start_date end_date adjust now rest)%list
  end.

(** The leading rows that satisfy [keep]. *)
Fixpoint take_while {A : Type} (keep : A -> bool) (l : list A) : list A :=
  match l with
  | [] => []
  | x :: rest => if keep x then x :: take_while keep rest else []
  end.

(** The records of a list that the broker acknowledges, the first send
    being the broker's [n]-th. *)
Fixpoint acknowledged (acknowledges : nat -> bool) (n : nat) (data : list DailyBar)
  : list DailyBar :=
  match data with
  | [] => []
  | d :: rest =>
      if acknowledges n then d :: acknowledged acknowledges (S n) rest
      else acknowledged acknowledges (S n) rest
  end.

(** A broker that is reachable and acknowledges every send. *)
Definition sample_broker : Kafka.Broker :=
  {| Kafka.reachable := true; Kafka.sent := 0; Kafka.acknowledges := fun _ => true;
     Kafka.stock_realtime_data := [] |}.

(** An answer of the provider that carries no row. *)
Definition no_frame (answer : res (option (list Akshare.spot_row))) : bool :=
  match answer with
  | Ok (Some (_ :: _)) => false
  | _ => true
  end.

(* ===================================================================== *)
(** * Theorems                                                            *)
(* ===================================================================== *)

(** ** Keyword calls *)

Lemma check_keywords_unknown :
  forall fname params (before : kwargs) k v (after : kwargs),
    existsb (String.eqb k) params = false ->
    exists msg,
      check_keywords fname params (before ++ (k, v) :: after)%list = Raise (TypeError msg).
Proof.
  intros fname params before k v after Hk.
  induction before as [| [k' v'] before IH]; simpl.
  - rewrite Hk. unfold unexpected_keyword. eauto.
  - destruct (existsb (String.eqb k') params).
    + exact IH.
    + unfold unexpected_keyword. eauto.
Qed.

(** ** The daily-bar adapter: search *)

(** C2. The search operation of the daily-bar adapter has no [ascending]
    parameter: every call that passes the keyword, whatever its value and
    its other keywords, raises [TypeError] before any request is made. Both
    callers of the repository pass it, so both calls raise, with the
    cluster untouched. *)
Theorem search_daily_data_rejects_ascending :
  forall (self : DailyStorage.DailyDataStorage) (c : Es.Cluster),
    (forall (before : kwargs) flag (after : kwargs),
        exists msg,
          DailyStorage.search_daily_data self c
            (before ++ ("ascending", flag) :: after)%list
          = (c, Raise (TypeError msg)))
    /\ (forall stock_code days end_date,
           DailyStorage.search_daily_data self c
             (NineTurnStrategy.historical_call stock_code days end_date)
           = (c, Raise (unexpected_keyword "search_daily_data" "ascending")))
    /\ (forall stock_code,
           DailyStorage.search_daily_data self c
             (RealtimeCollector.previous_close_call stock_code)
           = (c, Raise (unexpected_keyword "search_daily_data" "ascending"))).
Proof.
  intros self c. split; [| split].
  - intros before flag after.
    destruct (check_keywords_unknown "search_daily_data"
                DailyStorage.search_daily_data_params before "ascending" flag after
                eq_refl) as [msg Hmsg].
    exists msg. unfold DailyStorage.search_daily_data. now rewrite Hmsg.
  - reflexivity.
  - reflexivity.
Qed.

(** Whatever keywords a call that is accepted carries, the sort it asks of
    the engine is by date descending, then symbol ascending. *)
Lemma search_daily_data_sorts_descending :
  forall kw,
    truthy (kwarg kw "sort_by_date" (PBool true)) = true ->
    Es.sb_sort (DailyStorage.search_body_of kw)
    = [("date", Es.Desc); ("stock_code", Es.Asc)].
Proof.
  intros kw H. unfold DailyStorage.search_body_of. simpl. now rewrite H.
Qed.

(** ** The engine's sort *)

Lemma compare_bars_antisym :
  forall sort a b,
    Es.compare_bars sort a b = CompOpp (Es.compare_bars sort b a).
Proof.
  induction sort as [| [f o] rest IH]; intros a b; simpl.
  - reflexivity.
  - destruct (Es.bar_field a f) as [x |], (Es.bar_field b f) as [y |];
      try (destruct o; simpl; apply IH).
    rewrite (String.compare_antisym x y).
    destruct o, (String.compare y x); simpl; auto.
Qed.

Lemma sorted_weaken :
  forall (A : Type) (R R' : A -> A -> Prop) (l : list A),
    (forall x y, R x y -> R' x y) -> Sorted R l -> Sorted R' l.
Proof.
  intros A R R' l Hsub Hs. induction Hs as [| x l Hs IH Hhd].
  - constructor.
  - constructor; [exact IH |]. destruct Hhd; constructor; auto.
Qed.

Lemma sorted_firstn :
  forall (A : Type) (R : A -> A -> Prop) (n : nat) (l : list A),
    Sorted R l -> Sorted R (firstn n l).
Proof.
  intros A R n. induction n as [| n IH]; intros l Hs; simpl.
  - constructor.
  - destruct l as [| x l]; [constructor |].
    apply Sorted_inv in Hs. destruct Hs as [Hs Hhd].
    constructor; [now apply IH |].
    destruct n; simpl; [constructor |].
    destruct l; [constructor |]. constructor. now inversion Hhd.
Qed.

Lemma insert_hit_sorted :
  forall sort h l,
    Sorted (fun x y => Es.compare_bars sort (snd x) (snd y) <> Gt) l ->
    Sorted (fun x y => Es.compare_bars sort (snd x) (snd y) <> Gt) (Es.insert_hit sort h l).
Proof.
  intros sort h l. induction l as [| h' l IH]; intros Hs; simpl.
  - repeat constructor.
  - destruct (Es.compare_bars sort (snd h) (snd h')) eqn:Hc.
    + constructor; [exact Hs |]. constructor. congruence.
    + constructor; [exact Hs |]. constructor. congruence.
    + apply Sorted_inv in Hs. destruct Hs as [Hs Hhd].
      constructor; [now apply IH |].
      assert (Hback : Es.compare_bars sort (snd h') (snd h) <> Gt).
      { rewrite compare_bars_antisym, Hc. discriminate. }
      destruct l as [| h'' l]; simpl; [now constructor |].
      destruct (Es.compare_bars sort (snd h) (snd h'')); constructor;
        try exact Hback; now inversion Hhd.
Qed.

Lemma sort_hits_sorted :
  forall sort l,
    Sorted (fun x y => Es.compare_bars sort (snd x) (snd y) <> Gt) (Es.sort_hits sort l).
Proof.
  intros sort l. induction l as [| h l IH]; simpl.
  - constructor.
  - now apply insert_hit_sorted.
Qed.

Lemma date_descending_of_compare :
  forall a b,
    Es.compare_bars [("date", Es.Desc); ("stock_code", Es.Asc)] a b <> Gt ->
    String.leb (date b) (date a) = true.
Proof.
  intros a b. simpl. change (Es.bar_field a "date") with (Some (date a)).
  change (Es.bar_field b "date") with (Some (date b)).
  unfold String.leb. rewrite (String.compare_antisym (date a) (date b)).
  destruct (String.compare (date b) (date a)); simpl; congruence.
Qed.

(** What an accepted search returns is in descending date order whenever
    sorting is asked for: the most recent record comes first, whatever the
    caller wished. *)
Lemma search_daily_data_results_descending :
  forall self c kw c' hits,
    truthy (kwarg kw "sort_by_date" (PBool true)) = true ->
    DailyStorage.search_daily_data self c kw = (c', Ok hits) ->
    Sorted (fun x y => String.leb (date (snd y)) (date (snd x)) = true) hits.
Proof.
  intros self c kw c' hits Hsort.
  unfold DailyStorage.search_daily_data.
  destruct (check_keywords _ _ kw); [| discriminate].
  destruct (DailyStorage.es_client self).
  2:{ intros H. injection H as _ <-. constructor. }
  unfold Es.search_daily, Es.request.
  rewrite (search_daily_data_sorts_descending kw Hsort).
  destruct (Es.faulty c (Es.served c)); simpl.
  { intros H. injection H as _ <-. constructor. }
  destruct (kwarg kw "size" (PInt 100)) as [| flag | n | text];
    simpl; try (intros H; injection H as _ <-; constructor).
  destruct ((0 <=? n) && (n <=? 10000)); simpl;
    intros H; injection H as _ <-; [| constructor].
  apply sorted_firstn.
  eapply sorted_weaken; [| apply sort_hits_sorted].
  intros x y. apply date_descending_of_compare.
Qed.

(** ** The daily-bar adapter: delete *)

Lemma delete_conditions_nil :
  forall stock_code start_date end_date,
    DailyStorage.delete_conditions stock_code start_date end_date = []
    <-> truthy stock_code || truthy start_date || truthy end_date = false.
Proof.
  intros sc sd ed. unfold DailyStorage.delete_conditions.
  destruct (truthy sc), (truthy sd), (truthy ed); simpl; split; congruence.
Qed.

(** C9. [delete_daily_data] without a symbol and without date bounds
    refuses: it answers false and the cluster is as before (no request was
    counted, no document went). With at least one condition and a live
    client it issues exactly one delete-by-query; it answers true exactly
    when that request succeeds, whatever the number of matching documents,
    and then the index holds the documents that do not match. *)
Theorem delete_daily_data_spec :
  forall (self : DailyStorage.DailyDataStorage) (c : Es.Cluster),
    DailyStorage.delete_daily_data self c PNone PNone PNone = (c, false)
    /\ (forall stock_code start_date end_date,
           truthy stock_code || truthy start_date || truthy end_date = false ->
           DailyStorage.delete_daily_data self c stock_code start_date end_date = (c, false))
    /\ (forall stock_code start_date end_date,
           truthy stock_code || truthy start_date || truthy end_date = true ->
           DailyStorage.es_client self <> None ->
           let q := Es.BoolMust
                      (DailyStorage.delete_conditions stock_code start_date end_date) in
           let out := DailyStorage.delete_daily_data self c stock_code start_date end_date in
           Es.served (fst out) = S (Es.served c)
           /\ snd out = negb (Es.faulty c (Es.served c))
           /\ (Es.faulty c (Es.served c) = false ->
               snd out = true
               /\ Es.stock_daily_data (fst out)
                  = filter (fun h => negb (Es.matches q (snd h))) (Es.stock_daily_data c))
           /\ (Es.faulty c (Es.served c) = true ->
               Es.stock_daily_data (fst out) = Es.stock_daily_data c)).
Proof.
  intros self c. split; [| split].
  - unfold DailyStorage.delete_daily_data. now destruct (DailyStorage.es_client self).
  - intros sc sd ed Hnone. apply delete_conditions_nil in Hnone.
    unfold DailyStorage.delete_daily_data. rewrite Hnone.
    now destruct (DailyStorage.es_client self).
  - intros sc sd ed Hsome Hclient q out. subst q out.
    unfold DailyStorage.delete_daily_data.
    destruct (DailyStorage.es_client self) as [cl |]; [| congruence].
    destruct (DailyStorage.delete_conditions sc sd ed) as [| cl0 cls] eqn:Hconds.
    + apply delete_conditions_nil in Hconds. congruence.
    + unfold Es.delete_by_query_daily, Es.request.
      destruct (Es.faulty c (Es.served c)); simpl; repeat split; congruence.
Qed.

Lemma delete_daily_data_spec_witness :
  DailyStorage.delete_daily_data live_daily_storage sample_cluster PNone PNone PNone
  = (sample_cluster, false)
  /\ snd (DailyStorage.delete_daily_data live_daily_storage sample_cluster
            (PStr "000001") PNone PNone) = true
  /\ snd (DailyStorage.delete_daily_data live_daily_storage sample_cluster
            (PStr "300750") PNone PNone) = true.
Proof.
  destruct (delete_daily_data_spec live_daily_storage sample_cluster) as [H0 [_ H1]].
  split; [exact H0 |].
  split.
  - apply (H1 (PStr "000001") PNone PNone); [reflexivity | discriminate | reflexivity].
  - apply (H1 (PStr "300750") PNone PNone); [reflexivity | discriminate | reflexivity].
Defined.

(** ** The stock-codes request *)

(** The bounds of the limit: 1000 and 10000 are accepted; 10001, 0, a
    negative value and a value that is no integer are refused. *)
Lemma stock_codes_request_examples :
  is_ok (RequestModels.new_codes_request (PInt 1000)) = true
  /\ is_ok (RequestModels.new_codes_request (PInt 10000)) = true
  /\ is_ok (RequestModels.new_codes_request (PInt 10001)) = false
  /\ is_ok (RequestModels.new_codes_request (PInt 0)) = false
  /\ is_ok (RequestModels.new_codes_request (PInt (-5))) = false
  /\ is_ok (RequestModels.new_codes_request (PStr "ten")) = false.
Proof. repeat split. Qed.

(** ** The stock service *)

(** C5. [StockService.get_stock_codes] passes the keyword [limit] to the
    storage's code listing, whose only parameter is [market_type]: for
    every request, valid or not, and every state of the service and of the
    cluster, the listing raises [TypeError], the service raises it again
    wrapped in an [Exception], no code list is returned and the route
    answers 500. *)
Theorem get_stock_codes_always_raises :
  forall (self : StockServiceM.StockService) (c : Es.Cluster)
         (request : RequestModels.StockCodesRequest),
    snd (StockServiceM.get_stock_codes self c request)
    = Raise (Wrapped "get_stock_codes"
               (unexpected_keyword "get_all_stock_codes" "limit"))
    /\ StockServiceM.codes_route_status (snd (StockServiceM.get_stock_codes self c request))
       = 500.
Proof.
  intros self c request.
  assert (H : snd (StockServiceM.get_stock_codes self c request)
              = Raise (Wrapped "get_stock_codes"
                         (unexpected_keyword "get_all_stock_codes" "limit"))).
  { unfold StockServiceM.get_stock_codes, StockServiceM._get_es_storage.
    destruct (StockServiceM.es_storage self); reflexivity. }
  split; [exact H | now rewrite H].
Qed.

(** The listing itself works when called as the schedulers call it, without
    keywords: on a cluster that serves its requests it makes three requests
    and returns the codes on file, without repeats and in some order. *)
Lemma get_all_stock_codes_plain_call :
  exists codes,
    EsStorage.get_all_stock_codes (snd (EsStorage.init sample_cluster)) sample_cluster []
    = (Es.request_n sample_cluster 3, Ok codes)
    /\ Permutation codes ["000001"; "600000"].
Proof. eexists. split; [reflexivity | apply Permutation_refl]. Qed.

(** C6. [StockService.health_check] calls [check_connection] on the storage,
    an attribute [ElasticsearchStorage] does not have: the lookup raises
    [AttributeError] inside the [try], so for every state of the service,
    the cluster and the broker the answer is "unhealthy", carries the error
    and no component labels, and nothing is raised; "healthy" is never
    reported. *)
Theorem health_check_always_unhealthy :
  forall (self : StockServiceM.StockService) (c : Es.Cluster) (b : Kafka.Broker)
         (now : string),
    snd (StockServiceM.health_check self c b now)
    = Ok {| StockServiceM.status := "unhealthy";
            StockServiceM.timestamp := now;
            StockServiceM.components := None;
            StockServiceM.error :=
              Some (AttributeError "ElasticsearchStorage" "check_connection") |}.
Proof.
  intros self c b now.
  unfold StockServiceM.health_check, StockServiceM._get_es_storage.
  destruct (StockServiceM.es_storage self); reflexivity.
Qed.

(** ** The realtime collector *)

Lemma previous_close_is_zero :
  forall self c stock_code current_date,
    RealtimeCollector._get_previous_close_price self c stock_code current_date = (c, 0).
Proof. reflexivity. Qed.

Lemma process_realtime_data_cluster :
  forall self data c market_type current_date now,
    fst (RealtimeCollector.process_realtime_data self c data market_type current_date now) = c.
Proof.
  intros self data. induction data as [| row rest IH]; intros c m d now; simpl.
  - reflexivity.
  - destruct (RealtimeCollector.convert_row row m d 0 now); [| reflexivity].
    specialize (IH c m d now).
    destruct (RealtimeCollector.process_realtime_data self c rest m d now).
    exact IH.
Qed.

(** C3. One cycle of [collect_all_realtime_data] calls
    [save_daily_data_batch] on the daily-bar adapter, a name
    [DailyDataStorage] does not bind: the lookup raises [AttributeError],
    which the cycle's handler turns into failed = total. So for every
    provider, cluster and broker the cluster and the quote topic are left as
    they were (nothing is saved, nothing is republished), success is 0 and
    failed equals total, the number of processed records. *)
Theorem collect_all_realtime_data_never_saves :
  forall (self : RealtimeCollector.RealtimeDataCollector) (p : Akshare.Provider)
         (c : Es.Cluster) (b : Kafka.Broker) (today now : string),
    let '(_, c', b', result) :=
      RealtimeCollector.collect_all_realtime_data self p c b today now in
    c' = c /\ b' = b
    /\ RealtimeCollector.success result = 0
    /\ RealtimeCollector.failed result = RealtimeCollector.total result
    /\ RealtimeCollector.total result
       = RealtimeCollector.sz_count result + RealtimeCollector.sh_count result.
Proof.
  intros self p c b today now.
  unfold RealtimeCollector.collect_all_realtime_data.
  destruct (RealtimeCollector.get_sz_realtime_data p) as [p1 sz_data].
  destruct (RealtimeCollector.collect_market self c sz_data "SZ" today now)
    as [c1 sz] eqn:Hsz.
  destruct (RealtimeCollector.get_sh_realtime_data p1) as [p2 sh_data].
  destruct (RealtimeCollector.collect_market self c1 sh_data "SH" today now)
    as [c2 sh] eqn:Hsh.
  assert (Hc1 : c1 = c).
  { unfold RealtimeCollector.collect_market in Hsz. destruct sz_data.
    - rewrite <- (process_realtime_data_cluster self l c "SZ" today now).
      now rewrite Hsz.
    - congruence. }
  assert (Hc2 : c2 = c1).
  { unfold RealtimeCollector.collect_market in Hsh. destruct sh_data.
    - rewrite <- (process_realtime_data_cluster self l c1 "SH" today now).
      now rewrite Hsh.
    - congruence. }
  subst c1 c2.
  assert (Hlen : RealtimeCollector.len (sz ++ sh)
                 = RealtimeCollector.len sz + RealtimeCollector.len sh).
  { unfold RealtimeCollector.len. rewrite length_app. lia. }
  destruct (sz ++ sh)%list as [| x l] eqn:Hall.
  - simpl. repeat split; try reflexivity. rewrite <- Hlen. reflexivity.
  - change (getattr "DailyDataStorage" DailyStorage.members "save_daily_data_batch")
      with (@Raise unit (AttributeError "DailyDataStorage" "save_daily_data_batch")).
    cbv beta iota. simpl RealtimeCollector.success. simpl RealtimeCollector.failed.
    simpl RealtimeCollector.total. simpl RealtimeCollector.sz_count.
    simpl RealtimeCollector.sh_count.
    repeat split; try reflexivity. exact Hlen.
Qed.

(** ** The nine-turn strategy job *)

Lemma get_historical_data_empty :
  forall self c stock_code current_date days,
    NineTurnStrategy._get_historical_data self c stock_code current_date days = (c, []).
Proof.
  intros self c s d days. unfold NineTurnStrategy._get_historical_data.
  destruct (current_dt <- Datetime.strptime d ;; Datetime.minus_one_day current_dt);
    [| reflexivity].
  destruct (NineTurnStrategy.daily_storage self); reflexivity.
Qed.

Lemma execute_nine_turn_strategy_none :
  forall self c current_data now,
    NineTurnStrategy._execute_nine_turn_strategy self c current_data now = (c, None).
Proof.
  intros self c q now. unfold NineTurnStrategy._execute_nine_turn_strategy.
  destruct (NineTurnStrategy.nonempty_string (NineTurnStrategy.q_stock_code q));
    [| reflexivity].
  destruct (NineTurnStrategy.nonempty_string (NineTurnStrategy.q_date q));
    [| reflexivity].
  destruct (_ <=? 0); [reflexivity |].
  now rewrite get_historical_data_empty.
Qed.

(** C1. The lookback of the strategy job calls the daily-bar search with
    the keyword [ascending], which the search does not take: the call
    raises, [_get_historical_data] answers [], and so for every quote and
    every stored history [_execute_nine_turn_strategy] returns [None],
    [process_element] emits nothing and the cluster is left as it was. *)
Theorem nine_turn_never_emits :
  forall (self : NineTurnStrategy.StockDataProcessor) (c : Es.Cluster)
         (current_data : NineTurnStrategy.quote) (now : string),
    NineTurnStrategy._execute_nine_turn_strategy self c current_data now = (c, None)
    /\ NineTurnStrategy.process_element self c current_data now = (c, []).
Proof.
  intros self c q now. split.
  - apply execute_nine_turn_strategy_none.
  - unfold NineTurnStrategy.process_element.
    now rewrite execute_nine_turn_strategy_none.
Qed.

(** At the quote of the specification's example (a stored close of 1000 the
    day before, quotes closing at 1050, 1000 and 950) the rule as the
    specification words it gives a signal with price_diff 50 and
    price_diff_percent 500.0 for the first and none for the others; the job
    gives none for any of them. *)
Lemma nine_turn_example :
  let lookback := NineTurnStrategy.lookback_spec sample_cluster "000001" "2025-09-18" 4 in
  let quote_at (p : Z) :=
    {| NineTurnStrategy.q_stock_code := Some "000001";
       NineTurnStrategy.q_date := Some "2025-09-18";
       NineTurnStrategy.q_close_price := Some p;
       NineTurnStrategy.q_market_type := Some "SZ" |} in
  NineTurnStrategy.signal_spec lookback 1050 = Some (50, 500%float)
  /\ NineTurnStrategy.signal_spec lookback 1000 = None
  /\ NineTurnStrategy.signal_spec lookback 950 = None
  /\ forall self now,
       snd (NineTurnStrategy._execute_nine_turn_strategy self sample_cluster
              (quote_at 1050) now) = None.
Proof.
  cbv zeta. repeat split; try (vm_compute; reflexivity).
  intros self now.
  now rewrite execute_nine_turn_strategy_none.
Qed.

(** ** The history-collect request *)

Lemma digits_then_end_spec :
  forall n s,
    RequestModels.digits_then_end n s = true
    <-> exists d, String.length d = n /\ all_digits d = true
                  /\ (s = d \/ s = d ++ line_feed).
Proof.
  induction n as [| n IH]; intros s; simpl.
  - split.
    + intros H. exists EmptyString. repeat split.
      destruct s as [| a [| b r]]; try discriminate.
      * now left.
      * right. apply Ascii.eqb_eq in H. now subst a.
    + intros [d [Hlen [_ Hs]]].
      destruct d; [| discriminate]. destruct Hs as [-> | ->]; reflexivity.
  - split.
    + destruct s as [| a r]; [discriminate |].
      intros H. apply andb_true_iff in H. destruct H as [Ha Hr].
      apply IH in Hr. destruct Hr as [d [Hlen [Hd Hs]]].
      exists (String a d). simpl. rewrite Ha, Hd, Hlen. repeat split.
      destruct Hs as [-> | ->]; [now left | now right].
    + intros [d [Hlen [Hd Hs]]].
      destruct d as [| a d]; [discriminate |].
      simpl in Hlen, Hd. apply andb_true_iff in Hd. destruct Hd as [Ha Hd].
      assert (Hn : String.length d = n) by lia.
      destruct Hs as [-> | ->]; simpl; rewrite Ha; simpl; apply IH; exists d; auto.
Qed.

(** What [_is_valid_stock_code] accepts: six digits, or six digits and a
    final line feed. *)
Lemma is_valid_stock_code_spec :
  forall code,
    RequestModels._is_valid_stock_code code = true
    <-> exists d, String.length d = 6%nat /\ all_digits d = true
                  /\ (code = d \/ code = d ++ line_feed).
Proof. intros code. apply digits_then_end_spec. Qed.

Lemma check_codes_raises_iff :
  forall codes,
    is_ok (RequestModels.check_codes codes) = false
    <-> exists code, In code codes /\ RequestModels._is_valid_stock_code code = false.
Proof.
  induction codes as [| code rest IH]; simpl.
  - split; [discriminate | intros [code [[] _]]].
  - destruct (RequestModels._is_valid_stock_code code) eqn:Hv.
    + rewrite IH. split.
      * intros [x [Hin Hx]]. exists x. auto.
      * intros [x [[-> | Hin] Hx]]; [congruence | exists x; auto].
    + simpl. split; [| reflexivity]. intros _. exists code. auto.
Qed.

(** Construction raises exactly when a date does not parse, the start is
    after the end, the flag is not one of the three, or a supplied code is
    refused by [_is_valid_stock_code]; otherwise the object holds the four
    arguments as they were given. This is a statement about the strings
    of the model, whose code points are below 256. *)
Lemma history_collect_request_raises_iff :
  forall start_date end_date stock_codes adjust_flag,
    (is_ok (RequestModels.new start_date end_date stock_codes adjust_flag) = false
     <-> (is_ok (Datetime.strptime start_date) = false
          \/ is_ok (Datetime.strptime end_date) = false
          \/ (exists s e, Datetime.strptime start_date = Ok s
                          /\ Datetime.strptime end_date = Ok e
                          /\ Datetime.gtb s e = true)
          \/ ~ In adjust_flag RequestModels.adjust_flags
          \/ (exists codes code, stock_codes = Some codes /\ In code codes
                                 /\ RequestModels._is_valid_stock_code code = false)))
    /\ (is_ok (RequestModels.new start_date end_date stock_codes adjust_flag) = true ->
        RequestModels.new start_date end_date stock_codes adjust_flag
        = Ok {| RequestModels.start_date := start_date;
                RequestModels.end_date := end_date;
                RequestModels.stock_codes := stock_codes;
                RequestModels.adjust_flag := adjust_flag |}).
Proof.
  intros sd ed codes flag.
  unfold RequestModels.new, RequestModels.validate, RequestModels._is_valid_date.
  cbn [RequestModels.start_date RequestModels.end_date RequestModels.stock_codes
       RequestModels.adjust_flag].
  destruct (Datetime.strptime sd) as [s | es] eqn:Hs; cbn [is_ok negb bind].
  2:{ split; [| discriminate]. split; auto. }
  destruct (Datetime.strptime ed) as [e | ee] eqn:He; cbn [is_ok negb bind].
  2:{ split; [| discriminate]. split; auto. }
  destruct (Datetime.gtb s e) eqn:Hgt; cbn [is_ok bind].
  { split; [| discriminate]. split; auto.
    intros _. right. right. left. exists s, e. auto. }
  destruct (existsb (String.eqb flag) RequestModels.adjust_flags) eqn:Hflag;
    cbn [is_ok negb bind].
  2:{ split; [| discriminate]. split; auto.
      intros _. right. right. right. left. intros Hin.
      assert (existsb (String.eqb flag) RequestModels.adjust_flags = true).
      { apply existsb_exists. exists flag. split; [exact Hin | apply String.eqb_refl]. }
      congruence. }
  assert (Hin : In flag RequestModels.adjust_flags).
  { apply existsb_exists in Hflag. destruct Hflag as [x [Hx Heq]].
    apply String.eqb_eq in Heq. now subst x. }
  destruct codes as [codes |]; cbn [is_ok bind].
  2:{ split; [| reflexivity]. split; [discriminate |].
      intros [H | [H | [[s' [e' [H1 [H2 H3]]]] | [H | [cs [code [H _]]]]]]];
        try discriminate; try contradiction.
      congruence. }
  destruct (RequestModels.check_codes codes) as [[] | err] eqn:Hcodes; cbn [is_ok bind].
  - split; [| reflexivity]. split; [discriminate |].
    intros [H | [H | [[s' [e' [H1 [H2 H3]]]] | [H | [cs [code [H1 [H2 H3]]]]]]]];
      try discriminate; try contradiction; try congruence.
    injection H1 as <-.
    assert (is_ok (RequestModels.check_codes codes) = false)
      by (apply check_codes_raises_iff; eauto).
    rewrite Hcodes in H. discriminate.
  - split; [| discriminate]. split; auto.
    intros _. right. right. right. right.
    assert (Hbad : is_ok (RequestModels.check_codes codes) = false)
      by now rewrite Hcodes.
    apply check_codes_raises_iff in Hbad. destruct Hbad as [code [H1 H2]].
    exists codes, code. auto.
Qed.

Lemma string_length_app :
  forall s1 s2 : string,
    String.length (s1 ++ s2) = (String.length s1 + String.length s2)%nat.
Proof.
  induction s1 as [| a s1 IH]; intros s2; simpl.
  - reflexivity.
  - now rewrite IH.
Qed.

(** C7. A supplied code of six digits followed by a line feed is seven
    characters long, not a 6-digit numeric string, and yet construction
    succeeds with it and echoes it: in [^\d{6}$] the [$] also matches before
    a final line feed. The stated equivalence fails at every such input. *)
Theorem history_collect_request_accepts_line_feed :
  forall digits : string,
    String.length digits = 6%nat ->
    all_digits digits = true ->
    let code := digits ++ line_feed in
    String.length code = 7%nat
    /\ RequestModels.new "2025-01-01" "2025-01-02" (Some [code]) "qfq"
       = Ok {| RequestModels.start_date := "2025-01-01";
               RequestModels.end_date := "2025-01-02";
               RequestModels.stock_codes := Some [code];
               RequestModels.adjust_flag := "qfq" |}.
Proof.
  intros digits Hlen Hdigits code. split.
  - subst code. rewrite string_length_app, Hlen. reflexivity.
  - assert (Hvalid : RequestModels._is_valid_stock_code code = true).
    { apply is_valid_stock_code_spec. exists digits. auto. }
    unfold RequestModels.new, RequestModels.validate.
    cbn -[RequestModels._is_valid_stock_code]. now rewrite Hvalid.
Qed.

Lemma history_collect_request_line_feed_witness :
  RequestModels.new "2025-01-01" "2025-01-02" (Some ["000001" ++ line_feed]) "qfq"
  = Ok {| RequestModels.start_date := "2025-01-01";
          RequestModels.end_date := "2025-01-02";
          RequestModels.stock_codes := Some ["000001" ++ line_feed];
          RequestModels.adjust_flag := "qfq" |}.
Proof.
  apply (history_collect_request_accepts_line_feed "000001"); reflexivity.
Defined.

(** The examples of the specification: a later start, a bad flag and codes
    with a letter, five and seven digits are refused, equal dates and a
    6-digit code are accepted. *)
Lemma history_collect_request_examples :
  is_ok (RequestModels.new "2025-01-02" "2025-01-01" None "qfq") = false
  /\ is_ok (RequestModels.new "2025-01-01" "2025-01-01" (Some ["000001"]) "hfq") = true
  /\ is_ok (RequestModels.new "2025-01-01" "2025-01-02" None "bfq") = false
  /\ is_ok (RequestModels.new "2025-01-01" "2025-01-02" (Some ["A00001"]) "qfq") = false
  /\ is_ok (RequestModels.new "2025-01-01" "2025-01-02" (Some ["00001"]) "qfq") = false
  /\ is_ok (RequestModels.new "2025-01-01" "2025-01-02" (Some ["0000011"]) "qfq") = false
  /\ is_ok (RequestModels.new "2025-02-30" "2025-03-01" None "qfq") = false.
Proof. repeat split. Qed.

(** ** The history collector: one symbol's rows *)

(** Case analysis on every field conversion of a row, first to last. *)
Ltac case_conversions :=
  repeat match goal with
         | |- context [Akshare.scaled_or_zero ?x] =>
             destruct (Akshare.scaled_or_zero x);
             simpl; try discriminate; try reflexivity
         end.

Lemma insert_row_permutation :
  forall row rows,
    Permutation (HistoryCollector.insert_row row rows) (row :: rows).
Proof.
  intros row rows. induction rows as [| row' rest IH]; simpl.
  - apply Permutation_refl.
  - destruct (String.leb (Akshare.h_date row) (Akshare.h_date row')).
    + apply Permutation_refl.
    + eapply perm_trans; [apply perm_skip, IH | apply perm_swap].
Qed.

Lemma sort_values_permutation :
  forall rows, Permutation (HistoryCollector.sort_values rows) rows.
Proof.
  induction rows as [| row rest IH]; simpl.
  - apply perm_nil.
  - eapply perm_trans; [apply insert_row_permutation | now apply perm_skip].
Qed.

Lemma insert_row_ascending :
  forall row rows,
    ascending (map Akshare.h_date rows) ->
    ascending (map Akshare.h_date (HistoryCollector.insert_row row rows)).
Proof.
  unfold ascending. intros row rows. induction rows as [| row' rest IH]; intros Hs; simpl.
  - repeat constructor.
  - destruct (String.leb (Akshare.h_date row) (Akshare.h_date row')) eqn:Hle.
    + simpl. constructor; [exact Hs | now constructor].
    + simpl in Hs. apply Sorted_inv in Hs. destruct Hs as [Hrest Hhd].
      constructor; [now apply IH |].
      destruct rest as [| row'' rest']; simpl.
      * constructor.
        destruct (String.leb_total (Akshare.h_date row) (Akshare.h_date row')); congruence.
      * destruct (String.leb (Akshare.h_date row) (Akshare.h_date row'')); simpl.
        -- constructor.
           destruct (String.leb_total (Akshare.h_date row) (Akshare.h_date row')); congruence.
        -- constructor. now inversion Hhd.
Qed.

Lemma sort_values_ascending :
  forall rows, ascending (map Akshare.h_date (HistoryCollector.sort_values rows)).
Proof.
  induction rows as [| row rest IH]; simpl.
  - constructor.
  - now apply insert_row_ascending.
Qed.

(** Whether a row converts does not depend on the symbol, the market, the
    carried close or the clock. *)
Lemma convert_row_ok_independent :
  forall row code market prev now code' market' prev' now',
    is_ok (HistoryCollector.convert_row row code market prev now)
    = is_ok (HistoryCollector.convert_row row code' market' prev' now').
Proof.
  intros. unfold HistoryCollector.convert_row.
  case_conversions.
Qed.

Lemma convert_row_fields :
  forall row code market prev now item,
    HistoryCollector.convert_row row code market prev now = Ok item ->
    prev_close_price item = prev /\ date item = Akshare.h_date row
    /\ stock_code item = code.
Proof.
  intros row code market prev now item. unfold HistoryCollector.convert_row.
  case_conversions.
  intros H. injection H as <-. auto.
Qed.

Lemma convert_row_close :
  forall row code market prev now item,
    HistoryCollector.convert_row row code market prev now = Ok item ->
    Akshare.scaled_or_zero (Akshare.h_close row) = Ok (close_price item).
Proof.
  intros row code market prev now item. unfold HistoryCollector.convert_row.
  destruct (Akshare.scaled_or_zero (Akshare.h_open row)); simpl; [| discriminate].
  destruct (Akshare.scaled_or_zero (Akshare.h_close row)); simpl; [| discriminate].
  case_conversions.
  intros H. injection H as <-. reflexivity.
Qed.

Lemma process_rows_chained :
  forall rows code market prev now,
    chained prev (HistoryCollector.process_rows rows code market prev now).
Proof.
  induction rows as [| row rest IH]; intros code market prev now; simpl.
  - exact I.
  - destruct (HistoryCollector.convert_row row code market prev now) as [item | e] eqn:Hc.
    + simpl. split; [apply (convert_row_fields _ _ _ _ _ _ Hc) | apply IH].
    + apply IH.
Qed.

Lemma process_rows_all_converted :
  forall rows code market prev now,
    Forall (fun row => is_ok (HistoryCollector.convert_row row code market 0 now) = true) rows ->
    map date (HistoryCollector.process_rows rows code market prev now)
    = map Akshare.h_date rows.
Proof.
  induction rows as [| row rest IH]; intros code market prev now Hall; simpl.
  - reflexivity.
  - inversion Hall as [| ? ? Hrow Hrest]; subst.
    rewrite (convert_row_ok_independent row code market 0 now code market prev now) in Hrow.
    destruct (HistoryCollector.convert_row row code market prev now) as [item | e] eqn:Hc;
      [| discriminate].
    simpl. f_equal; [apply (convert_row_fields _ _ _ _ _ _ Hc) | now apply IH].
Qed.

Lemma process_rows_closes :
  forall rows code market prev now,
    Forall (fun row => is_ok (HistoryCollector.convert_row row code market 0 now) = true) rows ->
    Forall2 (fun record row =>
               Akshare.scaled_or_zero (Akshare.h_close row) = Ok (close_price record))
            (HistoryCollector.process_rows rows code market prev now) rows.
Proof.
  induction rows as [| row rest IH]; intros code market prev now Hall; simpl.
  - constructor.
  - inversion Hall as [| ? ? Hrow Hrest]; subst.
    rewrite (convert_row_ok_independent row code market 0 now code market prev now) in Hrow.
    destruct (HistoryCollector.convert_row row code market prev now) as [item | e] eqn:Hc;
      [| discriminate].
    constructor; [apply (convert_row_close _ _ _ _ _ _ Hc) | now apply IH].
Qed.

Lemma chained_nth :
  forall records prev i a b,
    chained prev records ->
    nth_error records i = Some a ->
    nth_error records (S i) = Some b ->
    prev_close_price b = close_price a.
Proof.
  induction records as [| r rest IH]; intros prev i a b Hch Ha Hb.
  - destruct i; discriminate.
  - destruct Hch as [_ Hrest]. destruct i as [| i].
    + simpl in Ha. injection Ha as <-. simpl in Hb.
      destruct rest as [| r' rest']; [discriminate |].
      simpl in Hb. injection Hb as <-. apply Hrest.
    + simpl in Ha, Hb. exact (IH _ _ _ _ Hrest Ha Hb).
Qed.

(** C4. For a frame of one symbol all of whose rows convert,
    [process_history_data] gives one record per row, dated as the rows are
    once sorted, so in ascending date order and with the dates of the input,
    each record's close being its row's close scaled by 100; the first
    record's previous close is 0 and each later record's previous close is
    the close of the record just before it. *)
Theorem process_history_data_chains_prev_close :
  forall (rows : list Akshare.hist_row) (code market now : string),
    Forall (fun row => is_ok (HistoryCollector.convert_row row code market 0 now) = true)
           rows ->
    let records := HistoryCollector.process_history_data (Some rows) code market now in
    List.length records = List.length rows
    /\ map date records = map Akshare.h_date (HistoryCollector.sort_values rows)
    /\ ascending (map date records)
    /\ Permutation (map date records) (map Akshare.h_date rows)
    /\ Forall2 (fun record row =>
                  Akshare.scaled_or_zero (Akshare.h_close row) = Ok (close_price record))
               records (HistoryCollector.sort_values rows)
    /\ (forall first rest, records = first :: rest -> prev_close_price first = 0)
    /\ (forall i a b,
           nth_error records i = Some a ->
           nth_error records (S i) = Some b ->
           prev_close_price b = close_price a).
Proof.
  intros rows code market now Hall records.
  assert (Hrec : records
                 = HistoryCollector.process_rows (HistoryCollector.sort_values rows)
                     code market 0 now).
  { subst records. unfold HistoryCollector.process_history_data.
    destruct rows; reflexivity. }
  assert (Hsorted_all :
            Forall (fun row => is_ok (HistoryCollector.convert_row row code market 0 now) = true)
                   (HistoryCollector.sort_values rows)).
  { rewrite Forall_forall in *. intros row Hin. apply Hall.
    eapply Permutation_in; [apply sort_values_permutation | exact Hin]. }
  assert (Hdates : map date records
                   = map Akshare.h_date (HistoryCollector.sort_values rows)).
  { rewrite Hrec. now apply process_rows_all_converted. }
  assert (Hchain : chained 0 records).
  { rewrite Hrec. apply process_rows_chained. }
  repeat split.
  - rewrite <- (length_map date records), Hdates, length_map.
    apply Permutation_length, sort_values_permutation.
  - exact Hdates.
  - rewrite Hdates. apply sort_values_ascending.
  - rewrite Hdates. apply Permutation_map, sort_values_permutation.
  - rewrite Hrec. now apply process_rows_closes.
  - intros first rest Heq. rewrite Heq in Hchain. apply Hchain.
  - intros i a b. now apply chained_nth with (prev := 0).
Qed.

Lemma process_history_data_witness :
  let records :=
    HistoryCollector.process_history_data (Some spec_rows) "000001" "SZ"
                                          "2025-09-18 16:00:00" in
  List.length records = 3%nat
  /\ map date records = ["2025-08-18"; "2025-08-19"; "2025-08-20"]
  /\ map close_price records = [1000; 1050; 980]
  /\ map prev_close_price records = [0; 1000; 1050]
  /\ (forall i a b,
         nth_error records i = Some a ->
         nth_error records (S i) = Some b ->
         prev_close_price b = close_price a).
Proof.
  assert (Hall : Forall (fun row =>
                           is_ok (HistoryCollector.convert_row row "000001" "SZ" 0
                                    "2025-09-18 16:00:00") = true) spec_rows).
  { repeat constructor. }
  pose proof (process_history_data_chains_prev_close spec_rows "000001" "SZ"
                "2025-09-18 16:00:00" Hall) as H.
  cbv zeta in H. destruct H as [Hlen [_ [_ [_ [_ [_ Hchain]]]]]].
  cbv zeta. split; [exact Hlen |].
  split; [reflexivity |]. split; [reflexivity |]. split; [reflexivity |].
  exact Hchain.
Defined.

(** ** The history collector: the backfill loops *)

Lemma firstn_plus :
  forall (A : Type) (n m : nat) (l : list A),
    firstn (n + m) l = (firstn n l ++ firstn m (skipn n l))%list.
Proof.
  intros A n. induction n as [| n IH]; intros m l; simpl.
  - reflexivity.
  - destruct l as [| x l]; simpl.
    + now rewrite firstn_nil.
    + now rewrite IH.
Qed.

Lemma chunks_concat :
  forall (A : Type) (l : list A) (b k : nat),
    List.concat (map (fun j => firstn b (skipn (j * b) l)) (seq 0 k)) = firstn (k * b) l.
Proof.
  intros A l b k. induction k as [| k IH].
  - reflexivity.
  - rewrite seq_S, map_app, concat_app, IH. simpl.
    rewrite app_nil_r. replace (b + k * b)%nat with (k * b + b)%nat by lia.
    now rewrite firstn_plus.
Qed.

(** For a positive batch size the slices [l[i:i+batch_size]] taken at the
    indices of [range(0, len(l), batch_size)] cover [l] in order. *)
Lemma batches_cover :
  forall (A : Type) (l : list A) (batch_size : Z),
    0 < batch_size ->
    exists starts,
      range 0 (Z.of_nat (List.length l)) batch_size = Ok starts
      /\ List.concat (map (fun i => slice l i (i + batch_size)) starts) = l.
Proof.
  intros A l bs Hbs. unfold range.
  destruct (bs =? 0) eqn:Hz; [apply Z.eqb_eq in Hz; lia |].
  destruct (0 <? bs) eqn:Hp; [| apply Z.ltb_ge in Hp; lia].
  eexists. split; [reflexivity |].
  rewrite map_map.
  set (n := Z.of_nat (List.length l)).
  set (k := Z.to_nat ((n - 0 + bs - 1) / bs)).
  rewrite (map_ext _ (fun j => firstn (Z.to_nat bs) (skipn (j * Z.to_nat bs) l))).
  - rewrite chunks_concat. apply firstn_all2.
    assert (Hq : 0 <= (n - 0 + bs - 1) / bs) by (apply Z.div_pos; lia).
    assert (Hge : n <= (n - 0 + bs - 1) / bs * bs).
    { pose proof (Z.div_mod (n - 0 + bs - 1) bs ltac:(lia)) as Hdm.
      pose proof (Z.mod_pos_bound (n - 0 + bs - 1) bs Hbs) as Hm. nia. }
    subst k n. apply Nat2Z.inj_le. rewrite Nat2Z.inj_mul, !Z2Nat.id by lia. exact Hge.
  - intros j. unfold slice. f_equal.
    + f_equal. lia.
    + f_equal. rewrite Z.add_0_l, Z2Nat.inj_mul by lia. now rewrite Nat2Z.id.
Qed.

Lemma count_of_app :
  forall b l1 l2,
    HistoryCollector.count_of b (l1 ++ l2)
    = HistoryCollector.count_of b l1 + HistoryCollector.count_of b l2.
Proof.
  intros b l1 l2. unfold HistoryCollector.count_of.
  rewrite filter_app, length_app. lia.
Qed.

Lemma count_of_total :
  forall l,
    HistoryCollector.count_of true l + HistoryCollector.count_of false l
    = Z.of_nat (List.length l).
Proof.
  unfold HistoryCollector.count_of.
  induction l as [| [|] l IH]; cbn [filter Bool.eqb List.length] in *; lia.
Qed.

Lemma fetch_outcomes_length :
  forall codes p sd ed adj,
    List.length (HistoryCollector.fetch_outcomes p sd ed adj codes) = List.length codes.
Proof.
  induction codes as [| code rest IH]; intros p sd ed adj; simpl.
  - reflexivity.
  - destruct (HistoryCollector.get_stock_history_data p code sd ed "daily" adj 3).
    simpl. now rewrite IH.
Qed.

Lemma fetch_outcomes_app :
  forall l1 l2 p sd ed adj,
    HistoryCollector.fetch_outcomes p sd ed adj (l1 ++ l2)
    = (HistoryCollector.fetch_outcomes p sd ed adj l1
       ++ HistoryCollector.fetch_outcomes (provider_after p sd ed adj l1) sd ed adj l2)%list.
Proof.
  induction l1 as [| code rest IH]; intros l2 p sd ed adj; simpl.
  - reflexivity.
  - destruct (HistoryCollector.get_stock_history_data p code sd ed "daily" adj 3).
    simpl. now rewrite IH.
Qed.

Lemma provider_after_app :
  forall l1 l2 p sd ed adj,
    provider_after p sd ed adj (l1 ++ l2)
    = provider_after (provider_after p sd ed adj l1) sd ed adj l2.
Proof.
  induction l1 as [| code rest IH]; intros l2 p sd ed adj; simpl.
  - reflexivity.
  - apply IH.
Qed.

(** The fetch of one symbol: the first answer of the provider decides, a
    non-empty frame being kept and anything else dropped; three exceptions
    in a row give nothing. *)
Lemma get_stock_history_data_answered :
  forall p code sd ed adj df,
    Akshare.stock_zh_a_hist p (Akshare.calls p)
      {| Akshare.symbol := code; Akshare.period := "daily";
         Akshare.start_date := remove_char "-" sd;
         Akshare.end_date := remove_char "-" ed;
         Akshare.adjust := adj |} = Ok df ->
    HistoryCollector.get_stock_history_data p code sd ed "daily" adj 3
    = (Akshare.answered p, HistoryCollector.nonempty_frame df).
Proof.
  intros p code sd ed adj df H.
  unfold HistoryCollector.get_stock_history_data. simpl.
  unfold Akshare.call_hist. now rewrite H.
Qed.

Lemma get_stock_history_data_gives_up :
  forall p code sd ed adj,
    (forall n rq, is_ok (Akshare.stock_zh_a_hist p n rq) = false) ->
    HistoryCollector.get_stock_history_data p code sd ed "daily" adj 3
    = (Akshare.answered (Akshare.answered (Akshare.answered p)), None).
Proof.
  intros p code sd ed adj H.
  unfold HistoryCollector.get_stock_history_data. simpl.
  unfold Akshare.call_hist.
  repeat match goal with
         | |- context [Akshare.stock_zh_a_hist ?q ?n ?rq] =>
             let E := fresh "E" in
             pose proof (H n rq) as E; simpl in E;
             destruct (Akshare.stock_zh_a_hist q n rq); [discriminate E |]; clear E; simpl
         end.
  reflexivity.
Qed.

Section Backfill.

Variables (start_date end_date adjust now : string) (delay : Z).
Hypothesis delay_accepted : time_sleep delay = Ok tt.

Let step := HistoryCollector.collect_symbol start_date end_date adjust delay now.
Let outcomes (p : Akshare.Provider) (stocks : list (string * string)) :=
  HistoryCollector.fetch_outcomes p start_date end_date adjust (map fst stocks).
Let after (p : Akshare.Provider) (stocks : list (string * string)) :=
  provider_after p start_date end_date adjust (map fst stocks).

(** One symbol moves exactly one counter, by the outcome of its fetch. *)
Lemma collect_symbol_counts :
  forall r stock,
    HistoryCollector.provider (step r stock) = after (HistoryCollector.provider r) [stock]
    /\ HistoryCollector.success_count (step r stock)
       = HistoryCollector.success_count r
         + HistoryCollector.count_of true (outcomes (HistoryCollector.provider r) [stock])
    /\ HistoryCollector.failed_count (step r stock)
       = HistoryCollector.failed_count r
         + HistoryCollector.count_of false (outcomes (HistoryCollector.provider r) [stock]).
Proof.
  intros r [code market].
  subst step outcomes after. cbv beta.
  unfold HistoryCollector.collect_symbol, HistoryCollector.try_symbol.
  rewrite delay_accepted. simpl.
  destruct (HistoryCollector.get_stock_history_data (HistoryCollector.provider r) code
              start_date end_date "daily" adjust 3) as [p' [rows |]];
    simpl; repeat split; unfold HistoryCollector.count_of; simpl; lia.
Qed.

Lemma collect_symbols_counts :
  forall stocks r,
    let r' := fold_left step stocks r in
    HistoryCollector.provider r' = after (HistoryCollector.provider r) stocks
    /\ HistoryCollector.success_count r'
       = HistoryCollector.success_count r
         + HistoryCollector.count_of true (outcomes (HistoryCollector.provider r) stocks)
    /\ HistoryCollector.failed_count r'
       = HistoryCollector.failed_count r
         + HistoryCollector.count_of false (outcomes (HistoryCollector.provider r) stocks).
Proof.
  induction stocks as [| stock rest IH]; intros r; cbv zeta.
  - subst outcomes after. simpl. unfold HistoryCollector.count_of. simpl.
    repeat split; lia.
  - simpl fold_left.
    destruct (collect_symbol_counts r stock) as [Hp [Hs Hf]].
    destruct (IH (step r stock)) as [Hp' [Hs' Hf']].
    rewrite Hp', Hs', Hf', Hp, Hs, Hf.
    subst outcomes after. cbv beta.
    change (stock :: rest) with ([stock] ++ rest)%list.
    rewrite !map_app, fetch_outcomes_app, provider_after_app, !count_of_app.
    repeat split; lia.
Qed.

(** The turns of the batch loop count as one pass over the symbols of the
    batches, whatever the saves in between do to the cluster. *)
Lemma collect_batches_counts :
  forall stock_list batch_size starts p c s f,
    let stocks := List.concat (map (fun i => slice stock_list i (i + batch_size)) starts) in
    exists c',
      fold_left (HistoryCollector.collect_batch start_date end_date adjust stock_list
                   batch_size delay now) starts (p, c, s, f)
      = (after p stocks, c',
         s + HistoryCollector.count_of true (outcomes p stocks),
         f + HistoryCollector.count_of false (outcomes p stocks)).
Proof.
  intros stock_list batch_size starts.
  induction starts as [| i rest IH]; intros p c s f; cbv zeta.
  - exists c. subst outcomes after. simpl. unfold HistoryCollector.count_of. simpl.
    repeat f_equal; lia.
  - simpl fold_left.
    set (batch := slice stock_list i (i + batch_size)).
    set (r0 := {| HistoryCollector.provider := p;
                  HistoryCollector.success_count := s;
                  HistoryCollector.failed_count := f;
                  HistoryCollector.batch_data := [] |}).
    destruct (collect_symbols_counts batch r0) as [Hp [Hs Hf]].
    fold step. rewrite Hp, Hs, Hf.
    destruct (IH (after (HistoryCollector.provider r0) batch)
                 (HistoryCollector.save_batch_data c
                    (HistoryCollector.batch_data (fold_left step batch r0)))
                 (HistoryCollector.success_count r0
                  + HistoryCollector.count_of true
                      (outcomes (HistoryCollector.provider r0) batch))
                 (HistoryCollector.failed_count r0
                  + HistoryCollector.count_of false
                      (outcomes (HistoryCollector.provider r0) batch)))
      as [c' Hrest].
    exists c'. rewrite Hrest. subst r0. simpl.
    subst outcomes after. cbv beta.
    rewrite !map_app, fetch_outcomes_app, provider_after_app, !count_of_app.
    subst batch. rewrite !Z.add_assoc. reflexivity.
Qed.

(** With a positive batch size the loop returns, and its tally is that of
    the fetch outcomes of the whole list. *)
Lemma collect_loop_tally :
  forall stock_list batch_size p c,
    0 < batch_size ->
    exists p' c',
      HistoryCollector.collect_loop start_date end_date adjust stock_list batch_size
        delay now p c
      = (p', c',
         Ok {| total := Z.of_nat (List.length stock_list);
               success := HistoryCollector.count_of true (outcomes p stock_list);
               failed := HistoryCollector.count_of false (outcomes p stock_list) |}).
Proof.
  intros stock_list batch_size p c Hbs.
  destruct (batches_cover _ stock_list batch_size Hbs) as [starts [Hrange Hcover]].
  unfold HistoryCollector.collect_loop. rewrite Hrange.
  destruct (collect_batches_counts stock_list batch_size starts p c 0 0) as [c' Hfold].
  cbv zeta in Hfold. rewrite Hcover in Hfold. rewrite Hfold.
  eexists. eexists. reflexivity.
Qed.

End Backfill.

(** The fetch of the code and the fetch of the specification agree: as
    many calls, the same provider afterwards, and a frame exactly for a
    non-empty result. *)
Lemma get_stock_history_data_upstream :
  forall p code sd ed adj,
    let out := HistoryCollector.get_stock_history_data p code sd ed "daily" adj 3 in
    let spec := upstream_fetch_spec
                  (fun k => Akshare.stock_zh_a_hist p k (history_request code sd ed adj))
                  (Akshare.calls p) in
    Akshare.calls (fst out) = snd spec
    /\ Akshare.stock_zh_a_hist (fst out) = Akshare.stock_zh_a_hist p
    /\ match snd out with Some _ => true | None => false end
       = upstream_eqb NonEmpty (fst spec).
Proof.
  intros p code sd ed adj out spec. subst out spec.
  unfold HistoryCollector.get_stock_history_data, upstream_fetch_spec, history_request.
  simpl. unfold Akshare.call_hist. cbn [Akshare.answered Akshare.calls Akshare.stock_zh_a_hist].
  repeat match goal with
         | |- context [Akshare.stock_zh_a_hist p ?n ?rq] =>
             destruct (Akshare.stock_zh_a_hist p n rq) as [[[| ? ?] |] | ?];
             cbn [fst snd read_answer HistoryCollector.nonempty_frame upstream_eqb
                  Akshare.answered Akshare.calls Akshare.stock_zh_a_hist]
         end;
    auto.
Qed.

Lemma fetch_outcomes_upstream :
  forall codes p sd ed adj,
    HistoryCollector.fetch_outcomes p sd ed adj codes
    = map (upstream_eqb NonEmpty)
          (upstream_outcomes_spec (Akshare.stock_zh_a_hist p) (Akshare.calls p)
                                  sd ed adj codes).
Proof.
  induction codes as [| code rest IH]; intros p sd ed adj.
  - reflexivity.
  - cbn [HistoryCollector.fetch_outcomes upstream_outcomes_spec].
    destruct (get_stock_history_data_upstream p code sd ed adj) as [Hcalls [Hsame Hframe]].
    destruct (HistoryCollector.get_stock_history_data p code sd ed "daily" adj 3)
      as [p' df].
    destruct (upstream_fetch_spec _ (Akshare.calls p)) as [outcome n'].
    cbn [fst snd] in Hcalls, Hsame, Hframe.
    cbn [map]. rewrite Hframe, IH, Hcalls, Hsame. reflexivity.
Qed.

Lemma count_of_upstream :
  forall l,
    HistoryCollector.count_of true (map (upstream_eqb NonEmpty) l)
    = count_upstream NonEmpty l
    /\ HistoryCollector.count_of false (map (upstream_eqb NonEmpty) l)
       = count_upstream Nothing l + count_upstream Raised l.
Proof.
  unfold HistoryCollector.count_of, count_upstream.
  induction l as [| [| |] l [IHt IHf]];
    cbn [map filter upstream_eqb Bool.eqb List.length] in *; split; lia.
Qed.

Lemma upstream_outcomes_length :
  forall codes answers n sd ed adj,
    List.length (upstream_outcomes_spec answers n sd ed adj codes) = List.length codes.
Proof.
  induction codes as [| code rest IH]; intros answers n sd ed adj.
  - reflexivity.
  - cbn [upstream_outcomes_spec].
    destruct (upstream_fetch_spec _ n) as [outcome n']. cbn [List.length].
    now rewrite IH.
Qed.

(** C8. For a non-empty code list, a positive batch size and a pause that
    [time.sleep] accepts (the defaults are 50 and 1),
    [collect_history_data_by_codes] returns a tally whose total is the
    number of codes, whose success is the number of symbols for which the
    provider gave a non-empty result and whose failed is the number of
    symbols for which it gave nothing plus the number for which it kept
    raising, the outcomes being read off the provider's answers as the
    specification words them. The cluster, and so every outcome of the
    saves, has no part in the tally: any two clusters give the same one.
    In particular three codes of which two are fetched and one comes back
    empty give total 3, success 2, failed 1. *)
Theorem collect_history_data_by_codes_tally :
  forall (self : HistoryCollector.HistoryDataCollector) (p : Akshare.Provider)
         (c : Es.Cluster) (start_date end_date : string) (stock_codes : list string)
         (adjust_flag : string) (batch_size delay : Z) (now : string),
    stock_codes <> [] ->
    0 < batch_size ->
    time_sleep delay = Ok tt ->
    let outcomes :=
      upstream_outcomes_spec (Akshare.stock_zh_a_hist p) (Akshare.calls p)
                             start_date end_date adjust_flag stock_codes in
    let tally (c : Es.Cluster) :=
      snd (HistoryCollector.collect_history_data_by_codes self p c start_date end_date
             stock_codes adjust_flag batch_size delay now) in
    List.length outcomes = List.length stock_codes
    /\ tally c = Ok {| total := Z.of_nat (List.length stock_codes);
                       success := count_upstream NonEmpty outcomes;
                       failed := count_upstream Nothing outcomes
                                 + count_upstream Raised outcomes |}
    /\ (forall c', tally c' = tally c)
    /\ (List.length stock_codes = 3%nat ->
        count_upstream NonEmpty outcomes = 2 ->
        count_upstream Nothing outcomes = 1 ->
        tally c = Ok {| total := 3; success := 2; failed := 1 |}).
Proof.
  intros self p c sd ed codes flag bs delay now Hne Hbs Hdelay outcomes tally.
  assert (Htally : forall c0,
             tally c0 = Ok {| total := Z.of_nat (List.length codes);
                              success := count_upstream NonEmpty outcomes;
                              failed := count_upstream Nothing outcomes
                                        + count_upstream Raised outcomes |}).
  { intros c0. subst tally outcomes. cbv beta.
    unfold HistoryCollector.collect_history_data_by_codes.
    destruct codes as [| code rest]; [congruence |].
    destruct (collect_loop_tally sd ed flag now delay Hdelay
                (map (fun stock_code => (stock_code, HistoryCollector.market_of stock_code))
                     (code :: rest)) bs p c0 Hbs) as [p' [c' Hloop]].
    rewrite Hloop. cbn [snd].
    rewrite length_map, map_map. cbn [fst]. rewrite map_id.
    rewrite fetch_outcomes_upstream.
    destruct (count_of_upstream
                (upstream_outcomes_spec (Akshare.stock_zh_a_hist p) (Akshare.calls p)
                                        sd ed flag (code :: rest))) as [Ht Hf].
    now rewrite Ht, Hf. }
  split; [apply upstream_outcomes_length |].
  split; [apply Htally |].
  split; [intros c'; now rewrite !Htally |].
  intros Hlen Htwo Hone. rewrite Htally.
  assert (Hsum : count_upstream NonEmpty outcomes
                 + (count_upstream Nothing outcomes + count_upstream Raised outcomes)
                 = Z.of_nat (List.length codes)).
  { destruct (count_of_upstream outcomes) as [Ht Hf]. rewrite <- Ht, <- Hf.
    rewrite count_of_total, length_map. subst outcomes.
    now rewrite upstream_outcomes_length. }
  rewrite Hlen, Htwo, Hone in Hsum.
  rewrite Hlen, Htwo, Hone. repeat f_equal. lia.
Qed.

Lemma collect_history_data_by_codes_witness :
  snd (HistoryCollector.collect_history_data_by_codes sample_collector sample_provider
         failing_cluster "2025-08-17" "2025-09-17" ["000001"; "300750"; "600000"]
         "qfq" 50 1 "2025-09-18 16:00:00")
  = Ok {| total := 3; success := 2; failed := 1 |}
  /\ snd (HistoryCollector.collect_history_data_by_codes sample_collector flaky_provider
            failing_cluster "2025-08-17" "2025-09-17" ["000002"; "600000"; "300750"]
            "hfq" 2 1 "2025-09-18 16:00:00")
     = Ok {| total := 3; success := 1; failed := 2 |}.
Proof.
  split.
  - apply (collect_history_data_by_codes_tally sample_collector sample_provider
             failing_cluster "2025-08-17" "2025-09-17" ["000001"; "300750"; "600000"]
             "qfq" 50 1 "2025-09-18 16:00:00");
      [discriminate | lia | reflexivity | reflexivity | reflexivity | reflexivity].
  - exact (proj1 (proj2
             (collect_history_data_by_codes_tally sample_collector flaky_provider
                failing_cluster "2025-08-17" "2025-09-17" ["000002"; "600000"; "300750"]
                "hfq" 2 1 "2025-09-18 16:00:00"
                ltac:(discriminate) ltac:(lia) eq_refl))).
Defined.

(** What [time.sleep] accepts in the model: the lengths from 0 to
    8223372035 seconds. *)
Lemma time_sleep_accepts :
  forall secs, time_sleep secs = Ok tt <-> 0 <= secs < sleep_limit - uptime_bound.
Proof.
  intros secs. unfold time_sleep, sleep_limit, uptime_bound.
  destruct (secs <? 0) eqn:Hneg.
  { apply Z.ltb_lt in Hneg. split; [discriminate | lia]. }
  apply Z.ltb_ge in Hneg.
  destruct (9223372036 <? secs) eqn:Hbig.
  { apply Z.ltb_lt in Hbig. split; [discriminate | lia]. }
  apply Z.ltb_ge in Hbig.
  destruct (9223372036 - 1000000000 <=? secs) eqn:Hnear.
  { apply Z.leb_le in Hnear. split; [discriminate | lia]. }
  apply Z.leb_gt in Hnear. split; [lia | reflexivity].
Qed.




(** A negative pause is refused by [time.sleep] as well, after the symbol
    has been counted, and the handler counts it once more. A zero batch
    size makes [range] raise, and no tally is returned. *)
Lemma backfill_refused_pause_and_zero_batch :
  snd (HistoryCollector.collect_history_data_by_codes sample_collector sample_provider
         sample_cluster "2025-08-17" "2025-09-17" ["000001"] "qfq" 50 (-1)
         "2025-09-18 16:00:00")
  = Ok {| total := 1; success := 1; failed := 1 |}
  /\ snd (HistoryCollector.collect_history_data_by_codes sample_collector sample_provider
            sample_cluster "2025-08-17" "2025-09-17" ["000001"] "qfq" 0 1
            "2025-09-18 16:00:00")
     = Raise (ValueError "range() arg 3 must not be zero").
Proof. split; reflexivity. Qed.

(* ===================================================================== *)
(** * Further properties of the code                                      *)
(* ===================================================================== *)

(** ** Order on strings *)

Lemma string_leb_refl : forall s, String.leb s s = true.
Proof.
  intros s. unfold String.leb.
  pose proof (String.compare_antisym s s) as H.
  destruct (String.compare s s); simpl in H; congruence.
Qed.

Lemma ascii_compare_lt_trans :
  forall x y z,
    Ascii.compare x y = Lt -> Ascii.compare y z = Lt -> Ascii.compare x z = Lt.
Proof.
  unfold Ascii.compare. intros x y z Hxy Hyz.
  rewrite N.compare_lt_iff in *. now apply N.lt_trans with (N_of_ascii y).
Qed.

Lemma string_leb_trans :
  forall a b c,
    String.leb a b = true -> String.leb b c = true -> String.leb a c = true.
Proof.
  unfold String.leb.
  induction a as [| x a IH]; intros [| y b] [| z c]; simpl; try easy.
  destruct (Ascii.compare x y) eqn:Exy; try easy.
  - apply Ascii.compare_eq_iff in Exy. subst y.
    destruct (Ascii.compare x z) eqn:Exz; try easy. apply IH.
  - destruct (Ascii.compare y z) eqn:Eyz; try easy.
    + apply Ascii.compare_eq_iff in Eyz. subst z. now rewrite Exy.
    + now rewrite (ascii_compare_lt_trans x y z Exy Eyz).
Qed.

(** ** Documents under their ids *)

Lemma doc_of_upsert_same :
  forall (D : Type) id (d : D) docs, doc_of id (Es.upsert id d docs) = Some d.
Proof.
  intros D id d docs. induction docs as [| [id' d'] rest IH]; simpl.
  - now rewrite String.eqb_refl.
  - destruct (id' =? id)%string eqn:E; simpl.
    + now rewrite String.eqb_refl.
    + now rewrite E.
Qed.

Lemma doc_of_upsert_other :
  forall (D : Type) id id' (d : D) docs,
    id' <> id -> doc_of id' (Es.upsert id d docs) = doc_of id' docs.
Proof.
  intros D id id' d docs Hne. induction docs as [| [id0 d0] rest IH]; simpl.
  - destruct (id =? id')%string eqn:E; [| reflexivity].
    apply String.eqb_eq in E. congruence.
  - destruct (id0 =? id)%string eqn:E; simpl.
    + apply String.eqb_eq in E. subst id0.
      destruct (id =? id')%string eqn:E'; [| reflexivity].
      apply String.eqb_eq in E'. congruence.
    + now rewrite IH.
Qed.

Lemma doc_of_app :
  forall (D : Type) id (l1 l2 : list (string * D)),
    doc_of id (l1 ++ l2)
    = match doc_of id l1 with Some d => Some d | None => doc_of id l2 end.
Proof.
  intros D id l1 l2. induction l1 as [| [id' d'] rest IH]; simpl.
  - reflexivity.
  - now destruct (id' =? id)%string.
Qed.

Lemma doc_of_in :
  forall (D : Type) id (d : D) docs, doc_of id docs = Some d -> In (id, d) docs.
Proof.
  intros D id d docs. induction docs as [| [id' d'] rest IH]; simpl.
  - discriminate.
  - destruct (id' =? id)%string eqn:E.
    + intros H. injection H as ->. apply String.eqb_eq in E. subst. now left.
    + intros H. right. now apply IH.
Qed.

Lemma doc_of_none :
  forall (D : Type) id (docs : list (string * D)),
    doc_of id docs = None <-> ~ In id (map fst docs).
Proof.
  intros D id docs. induction docs as [| [id' d'] rest IH]; simpl.
  - tauto.
  - destruct (id' =? id)%string eqn:E.
    + apply String.eqb_eq in E. split; [discriminate | intros H; exfalso; auto].
    + apply String.eqb_neq in E. rewrite IH. tauto.
Qed.

Lemma doc_of_unique :
  forall (D : Type) id (d : D) docs,
    NoDup (map fst docs) -> In (id, d) docs -> doc_of id docs = Some d.
Proof.
  intros D id d docs. induction docs as [| [id' d'] rest IH]; simpl; intros Hnd Hin.
  - contradiction.
  - apply NoDup_cons_iff in Hnd. destruct Hnd as [Hfresh Hnd].
    destruct Hin as [Heq | Hin].
    + injection Heq as -> ->. now rewrite String.eqb_refl.
    + destruct (id' =? id)%string eqn:E.
      * apply String.eqb_eq in E. subst id'. exfalso. apply Hfresh.
        apply in_map_iff. exists (id, d). auto.
      * now apply IH.
Qed.

(** After a run of bulk actions an id holds the document of its last action,
    or what it held before when no action names it. *)
Lemma doc_of_apply_actions :
  forall (D : Type) (actions : list (string * D)) id docs,
    doc_of id (apply_actions actions docs)
    = match doc_of id (rev actions) with
      | Some d => Some d
      | None => doc_of id docs
      end.
Proof.
  intros D actions id. unfold apply_actions.
  induction actions as [| [k v] rest IH]; intros docs; simpl.
  - reflexivity.
  - rewrite IH, doc_of_app. destruct (doc_of id (rev rest)); [reflexivity |].
    simpl. destruct (k =? id)%string eqn:E.
    + apply String.eqb_eq in E. subst k. apply doc_of_upsert_same.
    + apply String.eqb_neq in E. apply doc_of_upsert_other. congruence.
Qed.

Lemma upsert_length_present :
  forall (D : Type) id (d : D) docs,
    doc_of id docs <> None -> List.length (Es.upsert id d docs) = List.length docs.
Proof.
  intros D id d docs. induction docs as [| [id' d'] rest IH]; simpl; intros H.
  - congruence.
  - destruct (id' =? id)%string; simpl; [reflexivity |]. now rewrite IH.
Qed.

Lemma apply_actions_length_present :
  forall (D : Type) (actions : list (string * D)) docs,
    (forall a, In a actions -> doc_of (fst a) docs <> None) ->
    List.length (apply_actions actions docs) = List.length docs.
Proof.
  intros D actions. unfold apply_actions.
  induction actions as [| [k v] rest IH]; intros docs Hall; simpl.
  - reflexivity.
  - rewrite IH.
    + apply upsert_length_present. apply (Hall (k, v)). now left.
    + intros a Hin. destruct (String.eqb_spec (fst a) k) as [-> | Hne].
      * rewrite doc_of_upsert_same. discriminate.
      * rewrite doc_of_upsert_other by exact Hne. apply Hall. now right.
Qed.

(** ** The daily-bar adapter: save *)

(** On a cluster that serves every request the batches are applied one
    after the other and no error is counted. *)
Lemma save_batches_served :
  forall (actions : list DailyStorage.hit) batch_size starts c success_count error_count,
    serves_all c ->
    exists c' success_count',
      fold_left (DailyStorage.save_batch actions batch_size) starts
                (c, success_count, error_count)
      = (c', success_count', error_count)
      /\ serves_all c'
      /\ Es.stock_daily_data c'
         = apply_actions
             (List.concat (map (fun i => slice actions i (i + batch_size)) starts))
             (Es.stock_daily_data c).
Proof.
  intros actions bs starts.
  induction starts as [| i rest IH]; intros c s e Hserves; cbn [fold_left map List.concat].
  - exists c, s. repeat split. exact Hserves.
  - assert (Hstep : DailyStorage.save_batch actions bs (c, s, e) i
                    = (Es.with_daily (fst (Es.request c))
                         (apply_actions (slice actions i (i + bs)) (Es.stock_daily_data c)),
                       s + Z.of_nat (List.length (slice actions i (i + bs))), e)).
    { unfold DailyStorage.save_batch, Es.bulk_daily, Es.request.
      rewrite (Hserves (Es.served c)). simpl. now rewrite Z.add_0_r. }
    rewrite Hstep.
    match goal with
    | |- context [fold_left _ rest (?c1, ?s1, e)] =>
        destruct (IH c1 s1 e) as [c' [s' [Hfold [Hserves' Hdocs]]]];
        [exact Hserves |]
    end.
    exists c', s'. split; [exact Hfold |]. split; [exact Hserves' |].
    rewrite Hdocs. simpl. unfold apply_actions. now rewrite fold_left_app.
Qed.

(** What a save leaves behind on a serving cluster, for any positive batch
    size: the answer is true and the index is the old one with every
    record filed under its id, in the order of the list. *)
Lemma save_daily_data_served :
  forall self c data_list batch_size,
    DailyStorage.es_client self <> None ->
    0 < batch_size ->
    serves_all c ->
    let out := DailyStorage.save_daily_data self c data_list batch_size in
    snd out = true
    /\ serves_all (fst out)
    /\ Es.stock_daily_data (fst out)
       = apply_actions (actions_of data_list) (Es.stock_daily_data c).
Proof.
  intros self c data bs Hclient Hbs Hserves out. subst out.
  unfold DailyStorage.save_daily_data.
  destruct (DailyStorage.es_client self) as [cl |]; [| congruence].
  destruct data as [| d0 data']; [repeat split; exact Hserves |].
  set (data := d0 :: data').
  change (map (fun data0 => (stock_code data0 ++ "_" ++ date data0, data0)) data)
    with (actions_of data).
  destruct (batches_cover _ (actions_of data) bs Hbs) as [starts [Hrange Hcover]].
  rewrite Hrange.
  destruct (save_batches_served (actions_of data) bs starts c 0 0 Hserves)
    as [c1 [s1 [Hfold [Hserves1 Hdocs]]]].
  rewrite Hfold. unfold Es.request. rewrite (Hserves1 (Es.served c1)). simpl.
  split; [reflexivity |]. split; [exact Hserves1 |].
  cbn [fst Es.stock_daily_data]. rewrite Hdocs.
  exact (f_equal (fun l => apply_actions l (Es.stock_daily_data c)) Hcover).
Qed.

Lemma actions_of_ids :
  forall data_list, map fst (actions_of data_list) = map doc_id data_list.
Proof.
  intros data. unfold actions_of. rewrite map_map. reflexivity.
Qed.

Lemma doc_of_rev_actions :
  forall data_list d,
    In d data_list ->
    exists d',
      doc_of (doc_id d) (rev (actions_of data_list)) = Some d'
      /\ In d' data_list /\ doc_id d' = doc_id d.
Proof.
  intros data d Hin.
  destruct (doc_of (doc_id d) (rev (actions_of data))) as [d' |] eqn:Hdoc.
  - exists d'. split; [reflexivity |].
    apply doc_of_in in Hdoc. rewrite <- in_rev in Hdoc. unfold actions_of in Hdoc.
    apply in_map_iff in Hdoc. destruct Hdoc as [x [Heq Hx]].
    injection Heq as Hid ->. auto.
  - exfalso. apply doc_of_none in Hdoc. apply Hdoc.
    rewrite map_rev, <- in_rev, actions_of_ids. now apply in_map.
Qed.

(** Looking up an index after a list of records was filed in it: every
    record's id holds a record of the list with that id, exactly the
    record when the ids are distinct, and every other id holds what it
    held. *)
Lemma apply_actions_lookup :
  forall data_list docs,
    let docs' := apply_actions (actions_of data_list) docs in
    (forall d, In d data_list ->
       exists d', doc_of (doc_id d) docs' = Some d'
                  /\ In d' data_list /\ doc_id d' = doc_id d)
    /\ (NoDup (map doc_id data_list) ->
        forall d, In d data_list -> doc_of (doc_id d) docs' = Some d)
    /\ (forall id, ~ In id (map doc_id data_list) -> doc_of id docs' = doc_of id docs).
Proof.
  intros data docs docs'. subst docs'. split; [| split].
  - intros d Hin. rewrite doc_of_apply_actions.
    destruct (doc_of_rev_actions data d Hin) as [d' [Hd' [Hin' Hid]]].
    exists d'. now rewrite Hd'.
  - intros Hnd d Hin. rewrite doc_of_apply_actions.
    rewrite (doc_of_unique _ (doc_id d) d).
    + reflexivity.
    + rewrite map_rev, actions_of_ids. now apply NoDup_rev.
    + rewrite <- in_rev. unfold actions_of.
      apply in_map_iff. exists d. auto.
  - intros id Hfresh. rewrite doc_of_apply_actions.
    assert (Hnone : doc_of id (rev (actions_of data)) = None).
    { apply doc_of_none. rewrite map_rev, <- in_rev, actions_of_ids. exact Hfresh. }
    now rewrite Hnone.
Qed.

(** X1. Saving and reading back. With a live client, a positive batch
    size and a cluster that serves its requests, [save_daily_data] answers
    true and, whatever the batch size and however the list is cut into
    batches: every record of the list is on file under its id
    [stock_code_date] (when two records share an id, a record of the list
    with that id); when the ids of the list are distinct each id holds
    exactly its record; and every other id holds what it held before. *)
Theorem save_daily_data_round_trip :
  forall self c data_list batch_size,
    DailyStorage.es_client self <> None ->
    0 < batch_size ->
    serves_all c ->
    let out := DailyStorage.save_daily_data self c data_list batch_size in
    let docs := Es.stock_daily_data (fst out) in
    snd out = true
    /\ (forall d, In d data_list ->
          exists d', doc_of (doc_id d) docs = Some d'
                     /\ In d' data_list /\ doc_id d' = doc_id d)
    /\ (NoDup (map doc_id data_list) ->
        forall d, In d data_list -> doc_of (doc_id d) docs = Some d)
    /\ (forall id, ~ In id (map doc_id data_list) ->
          doc_of id docs = doc_of id (Es.stock_daily_data c)).
Proof.
  intros self c data bs Hclient Hbs Hserves out docs.
  destruct (save_daily_data_served self c data bs Hclient Hbs Hserves)
    as [Hout [_ Hdocs]].
  fold out in Hout, Hdocs. fold docs in Hdocs.
  split; [exact Hout |]. rewrite Hdocs. apply apply_actions_lookup.
Qed.

Lemma save_daily_data_round_trip_witness :
  let data := [sample_bar "2025-09-18" "000001" 1050;
               sample_bar "2025-09-19" "000001" 1100;
               sample_bar "2025-09-18" "600000" 810] in
  let out := DailyStorage.save_daily_data live_daily_storage sample_cluster data 2 in
  snd out = true
  /\ doc_of "000001_2025-09-19" (Es.stock_daily_data (fst out))
     = Some (sample_bar "2025-09-19" "000001" 1100)
  /\ doc_of "000001_2025-09-17" (Es.stock_daily_data (fst out))
     = doc_of "000001_2025-09-17" (Es.stock_daily_data sample_cluster).
Proof.
  intros data out.
  destruct (save_daily_data_round_trip live_daily_storage sample_cluster data 2)
    as [Hout [_ [Hexact Hother]]].
  - discriminate.
  - lia.
  - intros n. reflexivity.
  - split; [exact Hout |]. split.
    + apply (Hexact ltac:(vm_compute; repeat constructor; simpl; intuition discriminate)
                    (sample_bar "2025-09-19" "000001" 1100)).
      simpl. auto.
    + apply Hother. vm_compute. intuition discriminate.
Defined.

(** X2. Saving is idempotent. Saving the same list a second time, under
    the conditions of X1 and with any positive batch sizes, answers true
    again and changes nothing: every id holds the document it held after
    the first save and the index has as many documents as before. *)
Theorem save_daily_data_idempotent :
  forall self c data_list batch_size batch_size',
    DailyStorage.es_client self <> None ->
    0 < batch_size ->
    0 < batch_size' ->
    serves_all c ->
    let once := DailyStorage.save_daily_data self c data_list batch_size in
    let twice := DailyStorage.save_daily_data self (fst once) data_list batch_size' in
    snd twice = true
    /\ (forall id, doc_of id (Es.stock_daily_data (fst twice))
                   = doc_of id (Es.stock_daily_data (fst once)))
    /\ List.length (Es.stock_daily_data (fst twice))
       = List.length (Es.stock_daily_data (fst once)).
Proof.
  intros self c data bs bs' Hclient Hbs Hbs' Hserves once twice.
  destruct (save_daily_data_served self c data bs Hclient Hbs Hserves)
    as [_ [Hserves1 Hdocs1]].
  fold once in Hserves1, Hdocs1.
  destruct (save_daily_data_served self (fst once) data bs' Hclient Hbs' Hserves1)
    as [Hout2 [_ Hdocs2]].
  fold twice in Hout2, Hdocs2.
  split; [exact Hout2 |]. rewrite Hdocs2. split.
  - intros id. rewrite doc_of_apply_actions.
    destruct (doc_of id (rev (actions_of data))) as [d |] eqn:Hd; [| reflexivity].
    now rewrite Hdocs1, doc_of_apply_actions, Hd.
  - apply apply_actions_length_present.
    intros a Hin. rewrite Hdocs1, doc_of_apply_actions.
    destruct (doc_of (fst a) (rev (actions_of data))) eqn:Hd; [discriminate |].
    exfalso. apply doc_of_none in Hd. apply Hd.
    rewrite map_rev, <- in_rev. now apply in_map.
Qed.

Lemma save_daily_data_idempotent_witness :
  let data := [sample_bar "2025-09-18" "000001" 1050;
               sample_bar "2025-09-18" "000001" 1060;
               sample_bar "2025-09-17" "600000" 810] in
  let once := DailyStorage.save_daily_data live_daily_storage sample_cluster data 2 in
  let twice := DailyStorage.save_daily_data live_daily_storage (fst once) data 1 in
  snd twice = true
  /\ List.length (Es.stock_daily_data (fst twice)) = 3%nat.
Proof.
  intros data once twice.
  destruct (save_daily_data_idempotent live_daily_storage sample_cluster data 2 1)
    as [Hout [_ Hlen]].
  - discriminate.
  - lia.
  - lia.
  - intros n. reflexivity.
  - split; [exact Hout |]. fold once twice in Hlen. rewrite Hlen. reflexivity.
Defined.

(** X3. The edges of [save_daily_data]. Without a client it answers false
    and makes no request, whatever the list. With a client an empty list
    is a success without a request. A batch size of zero makes [range]
    raise: the answer is false and nothing was sent. A negative batch
    size gives an empty loop: only the refresh is requested, the answer is
    true when the refresh succeeds, and not one record has been written. *)
Theorem save_daily_data_edges :
  forall self c data_list batch_size,
    (DailyStorage.es_client self = None ->
     DailyStorage.save_daily_data self c data_list batch_size = (c, false))
    /\ (DailyStorage.es_client self <> None ->
        DailyStorage.save_daily_data self c [] batch_size = (c, true))
    /\ (DailyStorage.es_client self <> None -> data_list <> [] ->
        DailyStorage.save_daily_data self c data_list 0 = (c, false))
    /\ (DailyStorage.es_client self <> None -> data_list <> [] -> batch_size < 0 ->
        let out := DailyStorage.save_daily_data self c data_list batch_size in
        snd out = negb (Es.faulty c (Es.served c))
        /\ Es.served (fst out) = S (Es.served c)
        /\ Es.stock_daily_data (fst out) = Es.stock_daily_data c).
Proof.
  intros self c data bs. unfold DailyStorage.save_daily_data.
  destruct (DailyStorage.es_client self) as [cl |].
  2:{ repeat split; congruence. }
  split; [congruence |]. split; [reflexivity |].
  destruct data as [| d0 data']; [repeat split; congruence |].
  split; [reflexivity |]. intros _ _ Hneg.
  set (actions := map _ (d0 :: data')).
  assert (Hrange : range 0 (Z.of_nat (List.length actions)) bs = Ok []).
  { unfold range. destruct (bs =? 0) eqn:Hz; [apply Z.eqb_eq in Hz; lia |].
    destruct (0 <? bs) eqn:Hp; [apply Z.ltb_lt in Hp; lia |].
    assert (Hq : (0 - Z.of_nat (List.length actions) - bs - 1) / - bs < 1).
    { apply Z.div_lt_upper_bound; [lia |]. subst actions. simpl List.length. lia. }
    replace (Z.to_nat _) with 0%nat by lia. reflexivity. }
  rewrite Hrange. unfold Es.request. simpl.
  now destruct (Es.faulty c (Es.served c)).
Qed.

Lemma save_daily_data_edges_witness :
  let data := [sample_bar "2025-09-18" "000001" 1050] in
  DailyStorage.save_daily_data live_daily_storage sample_cluster data 0
  = (sample_cluster, false)
  /\ snd (DailyStorage.save_daily_data live_daily_storage sample_cluster data (-1)) = true
  /\ Es.stock_daily_data
       (fst (DailyStorage.save_daily_data live_daily_storage sample_cluster data (-1)))
     = Es.stock_daily_data sample_cluster.
Proof.
  intros data.
  destruct (save_daily_data_edges live_daily_storage sample_cluster data (-1))
    as [_ [_ [Hzero Hneg]]].
  split; [apply Hzero; discriminate |].
  destruct Hneg as [Hout [_ Hdocs]]; [discriminate | discriminate | lia |].
  split; [exact Hout | exact Hdocs].
Defined.

(** ** The daily-bar adapter: search, count and date range *)

Lemma in_firstn :
  forall (A : Type) (n : nat) (l : list A) (x : A), In x (firstn n l) -> In x l.
Proof.
  intros A n l x Hin. rewrite <- (firstn_skipn n l). apply in_or_app. now left.
Qed.

Lemma in_insert_hit :
  forall sort h l x, In x (Es.insert_hit sort h l) -> x = h \/ In x l.
Proof.
  intros sort h l x. induction l as [| h' l IH]; simpl.
  - intros [H | []]. now left.
  - destruct (Es.compare_bars sort (snd h) (snd h')); simpl.
    + intros [H | H]; auto.
    + intros [H | H]; auto.
    + intros [H | H]; [auto |]. destruct (IH H); auto.
Qed.

Lemma in_sort_hits :
  forall sort l x, In x (Es.sort_hits sort l) -> In x l.
Proof.
  intros sort l x. induction l as [| h l IH]; simpl.
  - auto.
  - intros H. apply in_insert_hit in H. destruct H; auto.
Qed.

(** Every hit of a search is a document on file that matches the query
    the function built. *)
Lemma search_daily_data_hits_match :
  forall self c kw c' hits h,
    DailyStorage.search_daily_data self c kw = (c', Ok hits) ->
    In h hits ->
    In h (Es.stock_daily_data c)
    /\ Es.matches (Es.sb_query (DailyStorage.search_body_of kw)) (snd h) = true.
Proof.
  intros self c kw c' hits h. unfold DailyStorage.search_daily_data.
  destruct (check_keywords _ _ kw); [| discriminate].
  destruct (DailyStorage.es_client self).
  2:{ intros H. injection H as _ <-. contradiction. }
  unfold Es.search_daily, Es.request.
  destruct (Es.faulty c (Es.served c)); simpl.
  { intros H. injection H as _ <-. contradiction. }
  destruct (kwarg kw "size" (PInt 100)) as [| flag | n | text];
    simpl; try (intros H; injection H as _ <-; contradiction).
  destruct ((0 <=? n) && (n <=? 10000)); simpl;
    intros H; injection H as _ <-; [| contradiction].
  intros Hin. apply in_firstn, in_sort_hits, filter_In in Hin. exact Hin.
Qed.

Lemma search_daily_data_hits_bounded :
  forall self c kw c' hits n,
    DailyStorage.search_daily_data self c kw = (c', Ok hits) ->
    kwarg kw "size" (PInt 100) = PInt n ->
    (List.length hits <= Z.to_nat n)%nat.
Proof.
  intros self c kw c' hits n. unfold DailyStorage.search_daily_data.
  destruct (check_keywords _ _ kw); [| discriminate].
  destruct (DailyStorage.es_client self).
  2:{ intros H. injection H as _ <-. simpl. lia. }
  unfold Es.search_daily, Es.request.
  destruct (Es.faulty c (Es.served c)); simpl.
  { intros H. injection H as _ <-. simpl. lia. }
  intros H Hsize. rewrite Hsize in H.
  destruct ((0 <=? n) && (n <=? 10000)); simpl in H;
    injection H as _ <-; [| simpl; lia].
  apply firstn_le_length.
Qed.

Lemma truthy_str : forall s, s <> "" -> truthy (PStr s) = true.
Proof.
  intros s Hs. simpl. destruct (String.eqb_spec s ""); [contradiction | reflexivity].
Qed.

Lemma matches_query_of :
  forall conditions b cl,
    Es.matches (DailyStorage.query_of conditions) b = true ->
    In cl conditions ->
    Es.matches_clause b cl = true.
Proof.
  intros conditions b cl. destruct conditions as [| c0 rest]; [contradiction |].
  unfold DailyStorage.query_of, Es.matches. intros H Hin.
  rewrite forallb_forall in H. now apply H.
Qed.

(** X4. What a search returns. Whenever [search_daily_data] returns, with
    any accepted keywords, every hit is a document on file; there are at
    most [size] hits; with a [stock_code] every hit is of that symbol;
    with a [market_type] every hit is of that market; with a [start_date]
    no hit is dated before it and with an [end_date] none after it; and
    with sorting on (the default) the dates never increase along the list. *)
Theorem search_daily_data_hits :
  forall self c kw c' hits,
    DailyStorage.search_daily_data self c kw = (c', Ok hits) ->
    (forall h, In h hits -> In h (Es.stock_daily_data c))
    /\ (forall n, kwarg kw "size" (PInt 100) = PInt n ->
          (List.length hits <= Z.to_nat n)%nat)
    /\ (forall code, kwarg kw "stock_code" PNone = PStr code -> code <> "" ->
          forall h, In h hits -> stock_code (snd h) = code)
    /\ (forall market, kwarg kw "market_type" PNone = PStr market -> market <> "" ->
          forall h, In h hits -> market_type (snd h) = market)
    /\ (forall first, kwarg kw "start_date" PNone = PStr first -> first <> "" ->
          forall h, In h hits -> String.leb first (date (snd h)) = true)
    /\ (forall last, kwarg kw "end_date" PNone = PStr last -> last <> "" ->
          forall h, In h hits -> String.leb (date (snd h)) last = true)
    /\ (truthy (kwarg kw "sort_by_date" (PBool true)) = true ->
        Sorted (fun x y => String.leb (date (snd y)) (date (snd x)) = true) hits).
Proof.
  intros self c kw c' hits Hcall.
  assert (Hmatch : forall h cl,
             In h hits ->
             In cl (DailyStorage.search_conditions
                      (kwarg kw "stock_code" PNone) (kwarg kw "start_date" PNone)
                      (kwarg kw "end_date" PNone) (kwarg kw "market_type" PNone)) ->
             Es.matches_clause (snd h) cl = true).
  { intros h cl Hin Hcl.
    destruct (search_daily_data_hits_match self c kw c' hits h Hcall Hin) as [_ Hm].
    eapply matches_query_of; [exact Hm | exact Hcl]. }
  split; [| split; [| split; [| split; [| split; [| split]]]]].
  - intros h Hin. now destruct (search_daily_data_hits_match self c kw c' hits h Hcall Hin).
  - intros n. now apply (search_daily_data_hits_bounded self c kw c' hits n).
  - intros code Hcode Hne h Hin.
    specialize (Hmatch h (Es.Term "stock_code" (PStr code)) Hin).
    unfold DailyStorage.search_conditions in Hmatch.
    rewrite Hcode, (truthy_str code Hne) in Hmatch.
    simpl in Hmatch. apply String.eqb_eq. apply Hmatch. now left.
  - intros market Hmarket Hne h Hin.
    specialize (Hmatch h (Es.Term "market_type" (PStr market)) Hin).
    unfold DailyStorage.search_conditions in Hmatch.
    rewrite Hmarket, (truthy_str market Hne) in Hmatch.
    simpl in Hmatch. apply String.eqb_eq. apply Hmatch.
    apply in_or_app. right. now left.
  - intros first Hfirst Hne h Hin.
    specialize (Hmatch h (DailyStorage.date_range (kwarg kw "start_date" PNone)
                                                  (kwarg kw "end_date" PNone)) Hin).
    unfold DailyStorage.search_conditions in Hmatch.
    rewrite Hfirst, (truthy_str first Hne) in Hmatch.
    assert (Hm : Es.matches_clause (snd h)
                   (DailyStorage.date_range (PStr first) (kwarg kw "end_date" PNone)) = true).
    { apply Hmatch. apply in_or_app. right. apply in_or_app. right. now left. }
    unfold DailyStorage.date_range in Hm. rewrite (truthy_str first Hne) in Hm.
    simpl in Hm. apply andb_prop in Hm. tauto.
  - intros last Hlast Hne h Hin.
    specialize (Hmatch h (DailyStorage.date_range (kwarg kw "start_date" PNone)
                                                  (kwarg kw "end_date" PNone)) Hin).
    unfold DailyStorage.search_conditions in Hmatch.
    rewrite Hlast, (truthy_str last Hne), orb_true_r in Hmatch.
    assert (Hm : Es.matches_clause (snd h)
                   (DailyStorage.date_range (kwarg kw "start_date" PNone) (PStr last)) = true).
    { apply Hmatch. apply in_or_app. right. apply in_or_app. right. now left. }
    unfold DailyStorage.date_range in Hm. rewrite (truthy_str last Hne) in Hm.
    simpl in Hm. apply andb_prop in Hm. tauto.
  - intros Hsort. now apply (search_daily_data_results_descending self c kw c' hits).
Qed.

Lemma search_daily_data_hits_witness :
  let kw := [("stock_code", PStr "000001"); ("size", PInt 4);
             ("end_date", PStr "2025-09-17")] in
  let out := DailyStorage.search_daily_data live_daily_storage sample_cluster kw in
  Forall (fun h => stock_code (snd h) = "000001")
         (match snd out with Ok hits => hits | Raise _ => [] end).
Proof.
  intros kw out. apply Forall_forall.
  destruct (search_daily_data_hits live_daily_storage sample_cluster kw (fst out)
              (match snd out with Ok hits => hits | Raise _ => [] end))
    as [_ [_ [Hcode _]]].
  - reflexivity.
  - apply (Hcode "000001"); [reflexivity | discriminate].
Defined.

Lemma least_spec :
  forall rest d,
    let m := fold_left (fun m x => if String.leb x m then x else m) rest d in
    In m (d :: rest) /\ forall x, In x (d :: rest) -> String.leb m x = true.
Proof.
  induction rest as [| y rest IH]; intros d; simpl.
  - split; [now left |]. intros x [<- | []]. apply string_leb_refl.
  - destruct (IH (if String.leb y d then y else d)) as [Hin Hle]. simpl in Hin, Hle.
    split.
    + destruct Hin as [Hin | Hin]; [| auto].
      rewrite <- Hin. destruct (String.leb y d); auto.
    + intros x [<- | [<- | Hx]].
      * destruct (String.leb y d) eqn:E.
        -- eapply string_leb_trans; [apply Hle; now left | exact E].
        -- apply Hle. now left.
      * destruct (String.leb y d) eqn:E.
        -- apply Hle. now left.
        -- eapply string_leb_trans; [apply Hle; now left |].
           destruct (String.leb_total y d) as [H | H]; congruence.
      * apply Hle. now right.
Qed.

Lemma greatest_spec :
  forall rest d,
    let m := fold_left (fun m x => if String.leb m x then x else m) rest d in
    In m (d :: rest) /\ forall x, In x (d :: rest) -> String.leb x m = true.
Proof.
  induction rest as [| y rest IH]; intros d; simpl.
  - split; [now left |]. intros x [<- | []]. apply string_leb_refl.
  - destruct (IH (if String.leb d y then y else d)) as [Hin Hle]. simpl in Hin, Hle.
    split.
    + destruct Hin as [Hin | Hin]; [| auto].
      rewrite <- Hin. destruct (String.leb d y); auto.
    + intros x [<- | [<- | Hx]].
      * destruct (String.leb d y) eqn:E.
        -- eapply string_leb_trans; [exact E | apply Hle; now left].
        -- apply Hle. now left.
      * destruct (String.leb d y) eqn:E.
        -- apply Hle. now left.
        -- eapply string_leb_trans; [| apply Hle; now left].
           destruct (String.leb_total d y) as [H | H]; congruence.
      * apply Hle. now right.
Qed.

(** The bars of one symbol among the documents of the daily index. *)
Lemma term_stock_code_filter :
  forall code (docs : list (string * DailyBar)),
    filter (fun h => Es.matches (Es.BoolMust [Es.Term "stock_code" (PStr code)]) (snd h)) docs
    = filter (fun h => (stock_code (snd h) =? code)%string) docs.
Proof.
  intros code docs. apply filter_ext. intros h. simpl. apply andb_true_r.
Qed.

(** X6. The date range of a symbol. With a live client and a served
    request [get_stock_date_range] returns the three figures: the total
    is the number of documents of the symbol, capped at 10000; when the
    symbol has no document both dates are absent; otherwise [min_date] and
    [max_date] are dates of documents of the symbol and every document of
    the symbol is dated between them. *)
Theorem get_stock_date_range_bounds :
  forall self c code,
    DailyStorage.es_client self <> None ->
    Es.faulty c (Es.served c) = false ->
    let bars := filter (fun b => (stock_code b =? code)%string)
                       (map snd (Es.stock_daily_data c)) in
    exists stats,
      snd (DailyStorage.get_stock_date_range self c (PStr code)) = Some stats
      /\ Es.total_count stats = Z.min (Z.of_nat (List.length bars)) 10000
      /\ (bars = [] -> Es.min_date stats = None /\ Es.max_date stats = None)
      /\ (bars <> [] ->
          exists first last,
            Es.min_date stats = Some first /\ Es.max_date stats = Some last
            /\ In first (map date bars) /\ In last (map date bars)
            /\ forall b, In b bars ->
                 String.leb first (date b) = true /\ String.leb (date b) last = true).
Proof.
  intros self c code Hclient Hserved bars.
  unfold DailyStorage.get_stock_date_range.
  destruct (DailyStorage.es_client self) as [cl |]; [| congruence].
  unfold Es.date_stats_daily, Es.request. rewrite Hserved. cbn [bind snd].
  eexists. split; [reflexivity |].
  rewrite term_stock_code_filter.
  assert (Hdates :
            map (fun h : string * DailyBar => date (snd h))
                (filter (fun h => (stock_code (snd h) =? code)%string) (Es.stock_daily_data c))
            = map date bars).
  { subst bars. clear. induction (Es.stock_daily_data c) as [| h l IH]; simpl.
    - reflexivity.
    - destruct (stock_code (snd h) =? code)%string; simpl; now rewrite IH. }
  cbn [Es.total_count Es.min_date Es.max_date]. rewrite Hdates.
  split; [now rewrite length_map |]. split.
  - intros Hnil. rewrite Hnil. split; reflexivity.
  - intros Hne. destruct bars as [| b0 rest]; [congruence |].
    cbn [map Es.least Es.greatest].
    destruct (least_spec (map date rest) (date b0)) as [Hin1 Hle1].
    destruct (greatest_spec (map date rest) (date b0)) as [Hin2 Hle2].
    do 2 eexists. split; [reflexivity |]. split; [reflexivity |].
    split; [exact Hin1 |]. split; [exact Hin2 |].
    intros b Hb. split.
    + apply Hle1. change (In (date b) (map date (b0 :: rest))). now apply in_map.
    + apply Hle2. change (In (date b) (map date (b0 :: rest))). now apply in_map.
Qed.

Lemma get_stock_date_range_bounds_witness :
  exists stats,
    snd (DailyStorage.get_stock_date_range live_daily_storage sample_cluster (PStr "000001"))
    = Some stats
    /\ Es.total_count stats = 1
    /\ Es.min_date stats = Some "2025-09-17".
Proof.
  destruct (get_stock_date_range_bounds live_daily_storage sample_cluster "000001")
    as [stats [Hout [Htotal _]]].
  - discriminate.
  - reflexivity.
  - exists stats. split; [exact Hout |]. split; [exact Htotal |].
    vm_compute in Hout. injection Hout as <-. reflexivity.
Defined.

(** ** The daily-bar adapter: counting and searching agree *)

Lemma insert_hit_length :
  forall sort h l, List.length (Es.insert_hit sort h l) = S (List.length l).
Proof.
  intros sort h l. induction l as [| h' l IH]; simpl.
  - reflexivity.
  - destruct (Es.compare_bars sort (snd h) (snd h')); simpl; auto.
Qed.

Lemma sort_hits_length :
  forall sort l, List.length (Es.sort_hits sort l) = List.length l.
Proof.
  intros sort l. induction l as [| h l IH]; simpl.
  - reflexivity.
  - now rewrite insert_hit_length, IH.
Qed.

(** X7. Counting and searching agree. For the same symbol and date
    bounds, on a live client and a cluster that serves the request, a
    search with a size between 0 and 10000 returns as many hits as
    [get_daily_data_count] counts, or [size] of them when more are
    counted. *)
Theorem count_agrees_with_search :
  forall (self : DailyStorage.DailyDataStorage) (c : Es.Cluster)
         (stock_code start_date end_date : pyval) (size : Z) (hits : list DailyStorage.hit),
    DailyStorage.es_client self <> None ->
    Es.faulty c (Es.served c) = false ->
    0 <= size <= 10000 ->
    snd (DailyStorage.search_daily_data self c
           [("stock_code", stock_code); ("start_date", start_date);
            ("end_date", end_date); ("size", PInt size)]) = Ok hits ->
    Z.of_nat (List.length hits)
    = Z.min (snd (DailyStorage.get_daily_data_count self c stock_code start_date end_date))
            size.
Proof.
  intros self c code sd ed size hits Hclient Hserved Hsize.
  unfold DailyStorage.search_daily_data, DailyStorage.get_daily_data_count.
  cbn [check_keywords DailyStorage.search_daily_data_params existsb String.eqb
       Ascii.eqb Bool.eqb orb].
  destruct (DailyStorage.es_client self) as [cl |]; [| congruence].
  unfold Es.search_daily, Es.count_daily, Es.request. rewrite Hserved.
  assert (Hquery : Es.sb_query
                     (DailyStorage.search_body_of
                        [("stock_code", code); ("start_date", sd);
                         ("end_date", ed); ("size", PInt size)])
                   = DailyStorage.query_of (DailyStorage.count_conditions code sd ed))
    by reflexivity.
  assert (Hbody : Es.sb_size
                    (DailyStorage.search_body_of
                       [("stock_code", code); ("start_date", sd);
                        ("end_date", ed); ("size", PInt size)])
                  = PInt size) by reflexivity.
  rewrite Hquery, Hbody.
  replace ((0 <=? size) && (size <=? 10000)) with true
    by (symmetry; apply andb_true_iff; split; apply Z.leb_le; lia).
  cbn [bind try_except snd]. intros H. injection H as <-.
  rewrite length_firstn, sort_hits_length. lia.
Qed.

Lemma count_agrees_with_search_witness :
  Z.of_nat
    (List.length
       (match snd (DailyStorage.search_daily_data live_daily_storage sample_cluster
                     [("stock_code", PNone); ("start_date", PStr "2025-01-01");
                      ("end_date", PNone); ("size", PInt 1)]) with
        | Ok hits => hits
        | Raise _ => []
        end))
  = 1.
Proof.
  rewrite (count_agrees_with_search live_daily_storage sample_cluster
             PNone (PStr "2025-01-01") PNone 1).
  - reflexivity.
  - discriminate.
  - reflexivity.
  - lia.
  - reflexivity.
Defined.

(** ** The basic-data storage: the code listing *)

Lemma codes_of_app :
  forall l1 l2,
    EsStorage.codes_of (l1 ++ l2) = (EsStorage.codes_of l1 ++ EsStorage.codes_of l2)%list.
Proof. intros l1 l2. unfold EsStorage.codes_of. apply flat_map_app. Qed.

Lemma in_codes_of :
  forall hits code,
    In code (EsStorage.codes_of hits)
    <-> exists d, In d hits /\ basic_stock_code d = Some code.
Proof.
  intros hits code. unfold EsStorage.codes_of. rewrite in_flat_map. split.
  - intros [d [Hin Hcode]]. exists d. split; [exact Hin |].
    destruct (basic_stock_code d); simpl in Hcode; [| contradiction].
    destruct Hcode as [-> | []]. reflexivity.
  - intros [d [Hin Hcode]]. exists d. split; [exact Hin |].
    rewrite Hcode. now left.
Qed.

(** A scroll cursor of a positive page size serves no empty page before
    it is exhausted, and its pages put together are the hits. *)
Lemma pages_of_spec :
  forall n (hits : list BasicDoc),
    0 < n ->
    List.concat (EsStorage.pages_of n hits) = hits
    /\ Forall (fun page => page <> []) (EsStorage.pages_of n hits).
Proof.
  intros n hits Hn. split.
  - unfold EsStorage.pages_of.
    destruct (batches_cover _ hits n Hn) as [starts [Hrange Hcover]].
    now rewrite Hrange.
  - unfold EsStorage.pages_of, range.
    destruct (n =? 0) eqn:Hz; [apply Z.eqb_eq in Hz; lia |].
    destruct (0 <? n) eqn:Hp; [| apply Z.ltb_ge in Hp; lia].
    rewrite map_map. apply Forall_forall. intros page Hin.
    apply in_map_iff in Hin. destruct Hin as [k [<- Hk]].
    apply in_seq in Hk.
    set (len := Z.of_nat (List.length hits)) in *.
    assert (Hq : 0 <= (len - 0 + n - 1) / n) by (apply Z.div_pos; lia).
    assert (Hlt : Z.of_nat k * n < len).
    { pose proof (Z.mul_div_le (len - 0 + n - 1) n Hn) as Hmd.
      assert (Z.of_nat k + 1 <= (len - 0 + n - 1) / n) by lia. nia. }
    intros Hnil. apply (f_equal (@List.length BasicDoc)) in Hnil.
    unfold slice in Hnil. rewrite length_firstn, length_skipn in Hnil.
    simpl in Hnil. subst len. lia.
Qed.

(** On a serving cluster the scroll loop walks through every page. *)
Lemma scroll_loop_served :
  forall pending c last_hits stock_codes,
    serves_all c ->
    Forall (fun page => page <> []) pending ->
    last_hits <> [] \/ pending = [] ->
    exists c',
      EsStorage.scroll_loop pending c last_hits stock_codes
      = (c', Ok (stock_codes ++ EsStorage.codes_of (List.concat pending))%list)
      /\ serves_all c'.
Proof.
  induction pending as [| page rest IH]; intros c last codes Hserves Hpages Hlast.
  - simpl. rewrite app_nil_r. destruct last as [| h last].
    + exists c. auto.
    + unfold Es.request. rewrite (Hserves (Es.served c)). eexists. split; [reflexivity |].
      exact Hserves.
  - destruct last as [| h last]; [destruct Hlast; congruence |].
    cbn [EsStorage.scroll_loop]. unfold Es.request. rewrite (Hserves (Es.served c)).
    inversion Hpages as [| ? ? Hpage Hrest]; subst.
    match goal with
    | |- context [EsStorage.scroll_loop rest ?c1 page ?codes1] =>
        destruct (IH c1 page codes1) as [c' [Hloop Hserves']];
        [exact Hserves | exact Hrest | now left |]
    end.
    exists c'. split; [| exact Hserves'].
    rewrite Hloop. cbn [List.concat]. now rewrite codes_of_app, app_assoc.
Qed.

(** X8. The code listing is complete and free of repeats. Called with
    accepted keywords on a client and a cluster that serves its requests,
    [get_all_stock_codes] returns a list without repeats that holds
    exactly the codes of the documents on file (of the given market, when
    one is given), however many scroll pages they fill; documents without
    a code contribute nothing. *)
Theorem get_all_stock_codes_complete :
  forall self c kw,
    is_ok (check_keywords "get_all_stock_codes" EsStorage.get_all_stock_codes_params kw)
    = true ->
    EsStorage.es_client self <> None ->
    serves_all c ->
    exists codes,
      snd (EsStorage.get_all_stock_codes self c kw) = Ok codes
      /\ NoDup codes
      /\ forall code,
           In code codes
           <-> exists d,
                 In d (Es.stock_basic_data c)
                 /\ EsStorage.basic_matches (kwarg kw "market_type" PNone) d = true
                 /\ basic_stock_code d = Some code.
Proof.
  intros self c kw Hkw Hclient Hserves.
  unfold EsStorage.get_all_stock_codes.
  destruct (check_keywords _ _ kw); [| discriminate].
  destruct (EsStorage.es_client self) as [cl |]; [| congruence].
  assert (Hreq : Es.request c = (fst (Es.request c), Ok tt)).
  { unfold Es.request. now rewrite (Hserves (Es.served c)). }
  rewrite Hreq.
  set (hits := filter (EsStorage.basic_matches (kwarg kw "market_type" PNone))
                      (Es.stock_basic_data c)).
  destruct (pages_of_spec EsStorage.scroll_size hits ltac:(reflexivity))
    as [Hcover Hpages].
  set (c1 := fst (Es.request c)).
  assert (Hserves1 : serves_all c1) by exact Hserves.
  assert (Hloop : exists c2,
             EsStorage.scroll_loop (tl (EsStorage.pages_of EsStorage.scroll_size hits)) c1
               (match EsStorage.pages_of EsStorage.scroll_size hits with
                | [] => []
                | page :: _ => page
                end)
               (EsStorage.codes_of
                  (match EsStorage.pages_of EsStorage.scroll_size hits with
                   | [] => []
                   | page :: _ => page
                   end))
             = (c2, Ok (EsStorage.codes_of
                          (List.concat (EsStorage.pages_of EsStorage.scroll_size hits))))).
  { destruct (EsStorage.pages_of EsStorage.scroll_size hits) as [| first rest].
    - exists c1. reflexivity.
    - inversion Hpages as [| ? ? Hfirst Hrest]; subst.
      destruct (scroll_loop_served rest c1 first (EsStorage.codes_of first)
                  Hserves1 Hrest (or_introl Hfirst)) as [c2 [H _]].
      exists c2. cbn [tl List.concat]. now rewrite H, codes_of_app. }
  destruct Hloop as [c2 Hloop]. rewrite Hcover in Hloop.
  cbv zeta. rewrite Hloop. cbn [snd].
  eexists. split; [reflexivity |]. split.
  - apply NoDup_nodup.
  - intros code. unfold list_set. rewrite nodup_In, in_codes_of. subst hits. split.
    + intros [d [Hin Hcode]]. apply filter_In in Hin. exists d. tauto.
    + intros [d [Hin [Hm Hcode]]]. exists d. split; [| exact Hcode].
      apply filter_In. auto.
Qed.

Lemma get_all_stock_codes_complete_witness :
  exists codes,
    snd (EsStorage.get_all_stock_codes (snd (EsStorage.init sample_cluster)) sample_cluster
           [("market_type", PStr "SH")]) = Ok codes
    /\ NoDup codes
    /\ (In "600000" codes /\ ~ In "000001" codes).
Proof.
  destruct (get_all_stock_codes_complete (snd (EsStorage.init sample_cluster))
              sample_cluster [("market_type", PStr "SH")])
    as [codes [Hout [Hnd Hin]]].
  - reflexivity.
  - discriminate.
  - intros n. reflexivity.
  - exists codes. split; [exact Hout |]. split; [exact Hnd |]. split.
    + apply Hin. eexists. split; [right; left; reflexivity |]. split; reflexivity.
    + intros H. apply Hin in H. destruct H as [d [Hd [Hm Hcode]]].
      simpl in Hd. destruct Hd as [<- | [<- | []]];
        vm_compute in Hm, Hcode; congruence.
Defined.

(** ** The history collector: the fetch and its retries *)



(** ** The history collector: rows that do not convert *)

Lemma strongly_sorted_map_filter :
  forall (A B : Type) (R : B -> B -> Prop) (f : A -> B) (keep : A -> bool) (l : list A),
    StronglySorted R (map f l) -> StronglySorted R (map f (filter keep l)).
Proof.
  intros A B R f keep l. induction l as [| x l IH]; simpl; intros Hs.
  - constructor.
  - apply StronglySorted_inv in Hs. destruct Hs as [Hrest Hall].
    destruct (keep x); simpl; [| now apply IH].
    constructor; [now apply IH |].
    rewrite Forall_forall in *. intros y Hy. apply Hall.
    apply in_map_iff in Hy. destruct Hy as [z [<- Hz]].
    apply in_map. apply filter_In in Hz. tauto.
Qed.

Lemma ascending_map_filter :
  forall (A : Type) (f : A -> string) (keep : A -> bool) (l : list A),
    ascending (map f l) -> ascending (map f (filter keep l)).
Proof.
  unfold ascending. intros A f keep l Hs.
  apply StronglySorted_Sorted, strongly_sorted_map_filter.
  apply Sorted_StronglySorted; [| exact Hs].
  intros x y z. apply string_leb_trans.
Qed.

(** The records of a run of rows are those of the rows that convert. *)
Lemma process_rows_dates :
  forall rows code market prev now,
    map date (HistoryCollector.process_rows rows code market prev now)
    = map Akshare.h_date
        (filter (fun row => is_ok (HistoryCollector.convert_row row code market 0 now)) rows).
Proof.
  induction rows as [| row rest IH]; intros code market prev now; simpl.
  - reflexivity.
  - rewrite (convert_row_ok_independent row code market 0 now code market prev now).
    destruct (HistoryCollector.convert_row row code market prev now) as [item | e] eqn:Hc;
      simpl.
    + f_equal; [apply (convert_row_fields _ _ _ _ _ _ Hc) | apply IH].
    + apply IH.
Qed.

Lemma convert_row_labels :
  forall row code market prev now item,
    HistoryCollector.convert_row row code market prev now = Ok item ->
    stock_code item = code /\ market_type item = market
    /\ data_source item = "akshare_history" /\ stamp item = now.
Proof.
  intros row code market prev now item. unfold HistoryCollector.convert_row.
  case_conversions.
  intros H. injection H as <-. auto.
Qed.

Lemma process_rows_labels :
  forall rows code market prev now,
    Forall (fun record =>
              stock_code record = code /\ market_type record = market
              /\ data_source record = "akshare_history" /\ stamp record = now)
           (HistoryCollector.process_rows rows code market prev now).
Proof.
  induction rows as [| row rest IH]; intros code market prev now; simpl.
  - constructor.
  - destruct (HistoryCollector.convert_row row code market prev now) as [item | e] eqn:Hc.
    + constructor; [apply (convert_row_labels _ _ _ _ _ _ Hc) | apply IH].
    + apply IH.
Qed.

(** X10. Rows that do not convert are skipped without a trace. For any
    frame, [process_history_data] returns the records of exactly the rows
    whose nine conversions succeed, in ascending date order; every record
    carries the symbol, the market, the source label and the clock it was
    given; the first record's previous close is 0 and each later record's
    previous close is the close of the record before it in the result, so
    a skipped row is bridged, not left as a gap; and no frame makes the
    function raise or return more records than rows. *)
Theorem process_history_data_skips_unconvertible_rows :
  forall (df : option (list Akshare.hist_row)) (code market now : string),
    let rows := match df with Some rows => rows | None => [] end in
    let records := HistoryCollector.process_history_data df code market now in
    map date records
    = map Akshare.h_date
        (filter (fun row => is_ok (HistoryCollector.convert_row row code market 0 now))
                (HistoryCollector.sort_values rows))
    /\ ascending (map date records)
    /\ chained 0 records
    /\ Forall (fun record =>
                 stock_code record = code /\ market_type record = market
                 /\ data_source record = "akshare_history" /\ stamp record = now)
              records
    /\ (List.length records <= List.length rows)%nat.
Proof.
  intros df code market now rows records.
  assert (Hrec : records
                 = HistoryCollector.process_rows (HistoryCollector.sort_values rows)
                     code market 0 now).
  { subst records rows. unfold HistoryCollector.process_history_data.
    destruct df as [[| row rest] |]; reflexivity. }
  assert (Hdates : map date records
                   = map Akshare.h_date
                       (filter (fun row =>
                                  is_ok (HistoryCollector.convert_row row code market 0 now))
                               (HistoryCollector.sort_values rows))).
  { rewrite Hrec. apply process_rows_dates. }
  split; [exact Hdates |]. split; [| split; [| split]].
  - rewrite Hdates. apply ascending_map_filter, sort_values_ascending.
  - rewrite Hrec. apply process_rows_chained.
  - rewrite Hrec. apply process_rows_labels.
  - rewrite <- (length_map date records), Hdates, length_map.
    rewrite <- (Permutation_length (sort_values_permutation rows)).
    apply filter_length_le.
Qed.

(** ** The history collector: what a backfill leaves on file *)

Lemma apply_actions_app :
  forall (D : Type) (a1 a2 : list (string * D)) docs,
    apply_actions (a1 ++ a2) docs = apply_actions a2 (apply_actions a1 docs).
Proof. intros D a1 a2 docs. unfold apply_actions. apply fold_left_app. Qed.

Lemma actions_of_app :
  forall l1 l2, actions_of (l1 ++ l2) = (actions_of l1 ++ actions_of l2)%list.
Proof. intros l1 l2. unfold actions_of. apply map_app. Qed.

(** No call of the daily-bar adapter changes what the cluster answers to
    a ping. *)
Lemma save_batches_ping :
  forall (actions : list DailyStorage.hit) batch_size starts acc,
    Es.answers_ping
      (fst (fst (fold_left (DailyStorage.save_batch actions batch_size) starts acc)))
    = Es.answers_ping (fst (fst acc)).
Proof.
  intros actions bs starts. induction starts as [| i rest IH]; intros [[c s] e].
  - reflexivity.
  - cbn [fold_left]. rewrite IH.
    unfold DailyStorage.save_batch, Es.bulk_daily, Es.request.
    destruct (Es.faulty c (Es.served c)); reflexivity.
Qed.

Lemma save_daily_data_ping :
  forall self c data_list batch_size,
    Es.answers_ping (fst (DailyStorage.save_daily_data self c data_list batch_size))
    = Es.answers_ping c.
Proof.
  intros self c data bs. unfold DailyStorage.save_daily_data.
  destruct (DailyStorage.es_client self); [| reflexivity].
  destruct data as [| d0 data']; [reflexivity |].
  destruct (range 0 _ bs) as [starts | e]; [| reflexivity].
  pose proof (save_batches_ping
                (map (fun data => (stock_code data ++ "_" ++ date data, data)) (d0 :: data'))
                bs starts (c, 0, 0)) as Hping.
  destruct (fold_left _ starts (c, 0, 0)) as [[c1 s1] e1].
  cbn [fst] in Hping. unfold Es.request.
  destruct (Es.faulty c1 (Es.served c1)); exact Hping.
Qed.

(** The save at the end of a batch, on a cluster that answers the ping
    and serves every request: the batch is filed. *)
Lemma save_batch_data_served :
  forall c batch_data,
    Es.answers_ping c = true ->
    serves_all c ->
    let c' := HistoryCollector.save_batch_data c batch_data in
    Es.answers_ping c' = true
    /\ serves_all c'
    /\ Es.stock_daily_data c'
       = apply_actions (actions_of batch_data) (Es.stock_daily_data c).
Proof.
  intros c data Hping Hserves c'. subst c'.
  unfold HistoryCollector.save_batch_data.
  destruct data as [| d0 data']; [auto |].
  unfold DailyStorage.init, DailyStorage._ensure_index_exists. rewrite Hping.
  set (c1 := fst (Es.request c)).
  set (storage := {| DailyStorage.es_client := Some (Es.Client "http://localhost:9200") |}).
  assert (Hserves1 : serves_all c1) by exact Hserves.
  destruct (save_daily_data_served storage c1 (d0 :: data') 1000
              ltac:(discriminate) ltac:(lia) Hserves1) as [_ [Hserves2 Hdocs]].
  split; [| split].
  - rewrite save_daily_data_ping. exact Hping.
  - exact Hserves2.
  - exact Hdocs.
Qed.

Section BackfillRecords.

Variables (start_date end_date adjust now : string) (delay : Z).

Let step := HistoryCollector.collect_symbol start_date end_date adjust delay now.
Let records (p : Akshare.Provider) (stocks : list (string * string)) :=
  backfill_records p start_date end_date adjust now stocks.
Let after (p : Akshare.Provider) (stocks : list (string * string)) :=
  provider_after p start_date end_date adjust (map fst stocks).

Lemma backfill_records_app :
  forall l1 l2 p,
    records p (l1 ++ l2) = (records p l1 ++ records (after p l1) l2)%list.
Proof.
  subst records after. cbv beta.
  induction l1 as [| [code market] rest IH]; intros l2 p; simpl.
  - reflexivity.
  - destruct (HistoryCollector.get_stock_history_data p code start_date end_date
                "daily" adjust 3) as [p' df].
    simpl. now rewrite IH, app_assoc.
Qed.

(** One symbol adds its processed records to the batch, whatever the
    pause does. *)
Lemma collect_symbol_data :
  forall r stock,
    HistoryCollector.provider (step r stock) = after (HistoryCollector.provider r) [stock]
    /\ HistoryCollector.batch_data (step r stock)
       = (HistoryCollector.batch_data r ++ records (HistoryCollector.provider r) [stock])%list.
Proof.
  intros r [code market]. subst step records after. cbv beta.
  unfold HistoryCollector.collect_symbol, HistoryCollector.try_symbol.
  simpl.
  destruct (HistoryCollector.get_stock_history_data (HistoryCollector.provider r) code
              start_date end_date "daily" adjust 3) as [p' [rows |]];
    destruct (time_sleep delay); simpl; rewrite ?app_nil_r; auto.
Qed.

Lemma collect_symbols_data :
  forall stocks r,
    HistoryCollector.provider (fold_left step stocks r)
    = after (HistoryCollector.provider r) stocks
    /\ HistoryCollector.batch_data (fold_left step stocks r)
       = (HistoryCollector.batch_data r ++ records (HistoryCollector.provider r) stocks)%list.
Proof.
  induction stocks as [| stock rest IH]; intros r.
  - subst records after. simpl. now rewrite app_nil_r.
  - cbn [fold_left].
    destruct (collect_symbol_data r stock) as [Hp Hd].
    destruct (IH (step r stock)) as [Hp' Hd'].
    rewrite Hp', Hd', Hp, Hd.
    change (stock :: rest) with ([stock] ++ rest)%list.
    rewrite backfill_records_app. subst after. cbv beta.
    rewrite map_app, provider_after_app, app_assoc. auto.
Qed.

(** The turns of the batch loop file, batch after batch, the records of
    one pass over the symbols of the batches. *)
Lemma collect_batches_data :
  forall stock_list batch_size starts p c s f,
    Es.answers_ping c = true ->
    serves_all c ->
    let stocks := List.concat (map (fun i => slice stock_list i (i + batch_size)) starts) in
    let out := fold_left (HistoryCollector.collect_batch start_date end_date adjust
                            stock_list batch_size delay now) starts (p, c, s, f) in
    fst (fst (fst out)) = after p stocks
    /\ Es.answers_ping (snd (fst (fst out))) = true
    /\ serves_all (snd (fst (fst out)))
    /\ Es.stock_daily_data (snd (fst (fst out)))
       = apply_actions (actions_of (records p stocks)) (Es.stock_daily_data c).
Proof.
  intros stock_list batch_size starts.
  induction starts as [| i rest IH]; intros p c s f Hping Hserves; cbv zeta.
  - subst records after. simpl. auto.
  - cbn [fold_left map List.concat].
    set (batch := slice stock_list i (i + batch_size)).
    set (r0 := {| HistoryCollector.provider := p;
                  HistoryCollector.success_count := s;
                  HistoryCollector.failed_count := f;
                  HistoryCollector.batch_data := [] |}).
    assert (Hturn : HistoryCollector.collect_batch start_date end_date adjust stock_list
                      batch_size delay now (p, c, s, f) i
                    = (HistoryCollector.provider (fold_left step batch r0),
                       HistoryCollector.save_batch_data c
                         (HistoryCollector.batch_data (fold_left step batch r0)),
                       HistoryCollector.success_count (fold_left step batch r0),
                       HistoryCollector.failed_count (fold_left step batch r0)))
      by reflexivity.
    rewrite Hturn.
    destruct (collect_symbols_data batch r0) as [Hp Hd].
    cbn [HistoryCollector.provider HistoryCollector.batch_data r0 app] in Hp, Hd.
    destruct (save_batch_data_served c
                (HistoryCollector.batch_data (fold_left step batch r0)) Hping Hserves)
      as [Hping1 [Hserves1 Hdocs1]].
    match goal with
    | |- context [fold_left _ rest (?p1, ?c1, ?s1, ?f1)] =>
        destruct (IH p1 c1 s1 f1 Hping1 Hserves1) as [Hp2 [Hping2 [Hserves2 Hdocs2]]]
    end.
    split; [| split; [| split]].
    + rewrite Hp2, Hp. subst after. cbv beta. now rewrite map_app, provider_after_app.
    + exact Hping2.
    + exact Hserves2.
    + rewrite Hdocs2, Hdocs1, Hd, Hp.
      rewrite backfill_records_app, actions_of_app, apply_actions_app. reflexivity.
Qed.

Lemma collect_loop_data :
  forall stock_list batch_size p c,
    0 < batch_size ->
    Es.answers_ping c = true ->
    serves_all c ->
    let out := HistoryCollector.collect_loop start_date end_date adjust stock_list
                 batch_size delay now p c in
    Es.stock_daily_data (snd (fst out))
    = apply_actions (actions_of (records p stock_list)) (Es.stock_daily_data c).
Proof.
  intros stock_list batch_size p c Hbs Hping Hserves out. subst out.
  destruct (batches_cover _ stock_list batch_size Hbs) as [starts [Hrange Hcover]].
  unfold HistoryCollector.collect_loop. rewrite Hrange.
  destruct (collect_batches_data stock_list batch_size starts p c 0 0 Hping Hserves)
    as [_ [_ [_ Hdocs]]].
  rewrite Hcover in Hdocs.
  destruct (fold_left _ starts (p, c, 0, 0)) as [[[p' c'] s'] f'].
  exact Hdocs.
Qed.

End BackfillRecords.

(** X11. A backfill files what it processed. On a cluster that answers
    the ping and serves its requests, with a positive batch size and any
    pause (a refused pause included), after
    [collect_history_data_by_codes] every record processed from the
    fetched frames is on file under its id [stock_code_date] (when two
    processed records share an id, one of them); when the ids are
    distinct each holds exactly its record; and no other id of the index
    has changed. The records are those of one pass over the codes in list
    order, however the codes are cut into batches. *)
Theorem backfill_files_its_records :
  forall (self : HistoryCollector.HistoryDataCollector) (p : Akshare.Provider)
         (c : Es.Cluster) (start_date end_date : string) (stock_codes : list string)
         (adjust_flag : string) (batch_size delay : Z) (now : string),
    0 < batch_size ->
    Es.answers_ping c = true ->
    serves_all c ->
    let out := HistoryCollector.collect_history_data_by_codes self p c start_date end_date
                 stock_codes adjust_flag batch_size delay now in
    let records :=
      backfill_records p start_date end_date adjust_flag now
        (map (fun stock_code => (stock_code, HistoryCollector.market_of stock_code))
             stock_codes) in
    let docs := Es.stock_daily_data (snd (fst out)) in
    (forall d, In d records ->
       exists d', doc_of (doc_id d) docs = Some d'
                  /\ In d' records /\ doc_id d' = doc_id d)
    /\ (NoDup (map doc_id records) ->
        forall d, In d records -> doc_of (doc_id d) docs = Some d)
    /\ (forall id, ~ In id (map doc_id records) ->
          doc_of id docs = doc_of id (Es.stock_daily_data c)).
Proof.
  intros self p c sd ed codes flag bs delay now Hbs Hping Hserves out records docs.
  assert (Hdocs : docs = apply_actions (actions_of records) (Es.stock_daily_data c)).
  { subst docs out records. unfold HistoryCollector.collect_history_data_by_codes.
    destruct codes as [| code rest]; [reflexivity |].
    apply collect_loop_data; assumption. }
  rewrite Hdocs. apply apply_actions_lookup.
Qed.

Lemma backfill_files_its_records_witness :
  let out := HistoryCollector.collect_history_data_by_codes sample_collector
               sample_provider sample_cluster "2025-08-17" "2025-09-17"
               ["000001"; "300750"; "600000"] "qfq" 2 1 "2025-09-18 16:00:00" in
  let docs := Es.stock_daily_data (snd (fst out)) in
  (exists d, doc_of "600000_2025-08-19" docs = Some d
             /\ close_price d = 1050 /\ prev_close_price d = 1000)
  /\ doc_of "000001_2025-09-17" docs
     = doc_of "000001_2025-09-17" (Es.stock_daily_data sample_cluster).
Proof.
  intros out docs.
  destruct (backfill_files_its_records sample_collector sample_provider sample_cluster
              "2025-08-17" "2025-09-17" ["000001"; "300750"; "600000"] "qfq" 2 1
              "2025-09-18 16:00:00") as [_ [_ Hother]];
    [lia | reflexivity | intros n; reflexivity |].
  split.
  - vm_compute. eexists. repeat split.
  - apply Hother. vm_compute. intuition discriminate.
Defined.

(** ** The Kafka producer: sending a batch *)

Lemma acknowledged_length :
  forall acknowledges data n,
    (List.length (acknowledged acknowledges n data) <= List.length data)%nat.
Proof.
  intros acknowledges data. induction data as [| d rest IH]; intros n; simpl.
  - lia.
  - destruct (acknowledges n); simpl; specialize (IH (S n)); lia.
Qed.

Lemma send_counted_fold :
  forall self data b success_count failed_count,
    Kafka.producer self <> None ->
    exists b',
      fold_left (Kafka.send_counted self) data (b, success_count, failed_count)
      = (b',
         success_count
         + Z.of_nat (List.length (acknowledged (Kafka.acknowledges b) (Kafka.sent b) data)),
         failed_count
         + (Z.of_nat (List.length data)
            - Z.of_nat (List.length (acknowledged (Kafka.acknowledges b) (Kafka.sent b) data))))
      /\ Kafka.sent b' = (Kafka.sent b + List.length data)%nat.
Proof.
  intros self data. induction data as [| d rest IH]; intros b s f Hlive.
  - exists b. simpl. rewrite Nat.add_0_r, !Z.add_0_r. auto.
  - cbn [fold_left]. unfold Kafka.send_counted at 2. unfold Kafka.send_stock_data.
    destruct (Kafka.producer self) as [live |] eqn:Hp; [| congruence].
    cbn [acknowledged].
    destruct (Kafka.acknowledges b (Kafka.sent b)) eqn:Hack;
      match goal with
      | |- context [fold_left _ rest (?b1, ?s1, ?f1)] =>
          destruct (IH b1 s1 f1) as [b' [Hfold Hsent]]; [congruence |]
      end;
      cbn [Kafka.acknowledges Kafka.sent] in Hfold, Hsent;
      exists b'; rewrite Hfold;
      (split;
       [ apply f_equal2; [apply f_equal2; [reflexivity |] |]; cbn [List.length]; lia
       | cbn [List.length]; lia ]).
Qed.

(** X12. The tally of a batch send. For every producer, broker, list of
    records and outcome of the closing flush, an exception included,
    [send_stock_data_batch] reports total = the number of records and
    success + failed = total, success being the number of records whose
    send was acknowledged in time. With a producer every record is sent
    once, whatever the answers to the records before it: the broker has
    seen as many more sends as there are records. Without a producer
    nothing is sent and every record is counted as failed. *)
Theorem send_stock_data_batch_tally :
  forall (self : Kafka.KafkaProducer) (b : Kafka.Broker) (data : list DailyBar)
         (flush : res unit),
    let out := Kafka.send_stock_data_batch self b data flush in
    let answered :=
      match Kafka.producer self with
      | Some _ => acknowledged (Kafka.acknowledges b) (Kafka.sent b) data
      | None => []
      end in
    total (snd out) = Z.of_nat (List.length data)
    /\ success (snd out) + failed (snd out) = total (snd out)
    /\ success (snd out) = Z.of_nat (List.length answered)
    /\ (Kafka.producer self <> None ->
        Kafka.sent (fst out) = (Kafka.sent b + List.length data)%nat)
    /\ (Kafka.producer self = None ->
        fst out = b /\ failed (snd out) = total (snd out)).
Proof.
  intros self b data flush out answered. subst out answered.
  unfold Kafka.send_stock_data_batch.
  destruct (Kafka.producer self) as [live |] eqn:Hp.
  - destruct (send_counted_fold self data b 0 0) as [b' [Hfold Hsent]];
      [congruence |].
    rewrite Hfold.
    destruct flush; cbn [fst snd total success failed];
      repeat split; try lia; try exact Hsent; discriminate.
  - cbn [fst snd total success failed List.length].
    repeat split; try lia; congruence.
Qed.

(** ** The realtime collector: one market's frame *)

Lemma realtime_convert_row_fields :
  forall row market today prev now record,
    RealtimeCollector.convert_row row market today prev now = Ok record ->
    prev_close_price record = prev /\ date record = today
    /\ market_type record = market /\ stock_code record = Akshare.s_code row.
Proof.
  intros row market today prev now record. unfold RealtimeCollector.convert_row.
  repeat match goal with
         | |- context [Akshare.scaled ?x] =>
             destruct (Akshare.scaled x); simpl; try discriminate
         end.
  intros H. injection H as <-. auto.
Qed.

(** X13. One row that does not convert cuts a market's frame short.
    [process_realtime_data] returns the records of the leading rows of
    the frame that convert and nothing of the rows from the first failing
    one on, convertible or not; every record is dated today, carries the
    market and its row's symbol, and has previous close 0, the lookup of
    the previous close never succeeding; and the cluster is left as it
    was. *)
Theorem process_realtime_data_stops_at_first_failure :
  forall (self : RealtimeCollector.RealtimeDataCollector) (c : Es.Cluster)
         (data : list Akshare.spot_row) (market today now : string),
    let out := RealtimeCollector.process_realtime_data self c data market today now in
    let leading :=
      take_while (fun row =>
                    is_ok (RealtimeCollector.convert_row row market today 0 now)) data in
    fst out = c
    /\ map Ok (snd out)
       = map (fun row => RealtimeCollector.convert_row row market today 0 now) leading
    /\ List.length (snd out) = List.length leading
    /\ Forall (fun record =>
                 prev_close_price record = 0 /\ date record = today
                 /\ market_type record = market)
              (snd out).
Proof.
  intros self c data market today now out leading.
  assert (Hcluster : fst out = c) by apply process_realtime_data_cluster.
  assert (Hmap : map Ok (snd out)
                 = map (fun row => RealtimeCollector.convert_row row market today 0 now)
                       leading).
  { clear Hcluster. subst out leading. induction data as [| row rest IH]; simpl.
    - reflexivity.
    - destruct (RealtimeCollector.convert_row row market today 0 now) as [record | e] eqn:Hc;
        simpl; [| reflexivity].
      destruct (RealtimeCollector.process_realtime_data self c rest market today now)
        as [c' processed].
      simpl in *. now rewrite IH, Hc. }
  split; [exact Hcluster |]. split; [exact Hmap |]. split.
  - rewrite <- (length_map Ok (snd out)), Hmap. apply length_map.
  - apply Forall_forall. intros record Hin.
    assert (Hin' : In (Ok record) (map Ok (snd out))) by now apply in_map.
    rewrite Hmap in Hin'. apply in_map_iff in Hin'. destruct Hin' as [row [Hrow _]].
    destruct (realtime_convert_row_fields _ _ _ _ _ _ Hrow) as [H1 [H2 [H3 _]]]. auto.
Qed.

(** ** The basic-data collector: the retry helper *)

Lemma retry_loop_spec :
  forall remaining attempt self func p,
    time_sleep (StockCollector.retry_delay self) = Ok tt ->
    let step := fun q => fst (func q) in
    let answer := fun k => snd (func (Nat.iter k step p)) in
    let out := StockCollector.retry_loop remaining attempt self func p in
    exists n,
      (n <= remaining)%nat
      /\ fst out = Nat.iter n step p
      /\ (forall k, (k + 1 < n)%nat -> no_frame (answer k) = true)
      /\ match snd out with
         | Ok (Some rows) =>
             rows <> [] /\ exists k, n = S k /\ answer k = Ok (Some rows)
         | Ok None =>
             n = remaining /\ forall k, (k < n)%nat -> no_frame (answer k) = true
         | Raise _ => False
         end.
Proof.
  induction remaining as [| remaining IH]; intros attempt self func p Hsleep step answer out.
  - exists 0%nat. subst out. simpl. repeat split; try lia.
  - pose proof Hsleep as Hdelay.
    assert (Hnext :
              no_frame (snd (func p)) = true ->
              StockCollector.retry_loop (S remaining) attempt self func p
              = StockCollector.retry_loop remaining (attempt + 1) self func (fst (func p))).
    { cbn [StockCollector.retry_loop]. rewrite Hsleep.
      destruct (func p) as [p' [[[| row rows] |] | e]]; simpl; try reflexivity;
        try discriminate.
      now destruct (attempt <? StockCollector.retry_times self - 1). }
    destruct (no_frame (snd (func p))) eqn:Hfirst.
    + subst out. rewrite (Hnext eq_refl).
      destruct (IH (attempt + 1) self func (fst (func p)) Hdelay)
        as [n [Hn [Hout [Hbefore Hresult]]]].
      assert (Hshift : forall k,
                 snd (func (Nat.iter k (fun q => fst (func q)) (fst (func p))))
                 = answer (S k)).
      { intros k. subst answer step. cbv beta. now rewrite Nat.iter_succ_r. }
      exists (S n). split; [lia |]. split.
      { rewrite Hout. subst step. now rewrite Nat.iter_succ_r. }
      split.
      { intros [| k] Hk; [exact Hfirst |]. rewrite <- Hshift. apply Hbefore. lia. }
      destruct (snd (StockCollector.retry_loop remaining (attempt + 1) self func
                       (fst (func p)))) as [[rows |] | e].
      * destruct Hresult as [Hne [k [-> Hk]]]. split; [exact Hne |].
        exists (S k). split; [reflexivity |]. now rewrite <- Hshift.
      * destruct Hresult as [-> Hall]. split; [reflexivity |].
        intros [| k] Hk; [exact Hfirst |]. rewrite <- Hshift. apply Hall. lia.
      * contradiction.
    + exists 1%nat. subst out. cbn [StockCollector.retry_loop].
      destruct (func p) as [p' [[[| row rows] |] | e]] eqn:Hcall;
        simpl in Hfirst; try discriminate.
      cbn [fst snd]. split; [lia |]. split.
      { subst step. simpl. now rewrite Hcall. }
      split; [intros k Hk; lia |].
      split; [discriminate |]. exists 0%nat. split; [reflexivity |].
      subst answer. simpl. now rewrite Hcall.
Qed.

(** X14. The retry helper of the basic-data collector. With a pause that
    [time.sleep] accepts, as the configured 5 seconds are,
    [_retry_request] does not raise; it calls the provider function at
    most [retry_times] times, every call but the last having given no
    rows (no frame, an empty frame or an exception, each of which is
    tried again); a frame it returns has rows and is the answer of the
    last call; and it returns nothing only after [retry_times] calls none
    of which gave rows. *)
Theorem retry_request_first_frame :
  forall (self : StockCollector.StockDataCollector) (func : StockCollector.request_fn)
         (p : Akshare.Provider),
    time_sleep (StockCollector.retry_delay self) = Ok tt ->
    let step := fun q => fst (func q) in
    let answer := fun k => snd (func (Nat.iter k step p)) in
    let out := StockCollector._retry_request self func p in
    exists n,
      (n <= Z.to_nat (StockCollector.retry_times self))%nat
      /\ fst out = Nat.iter n step p
      /\ (forall k, (k + 1 < n)%nat -> no_frame (answer k) = true)
      /\ match snd out with
         | Ok (Some rows) =>
             rows <> [] /\ exists k, n = S k /\ answer k = Ok (Some rows)
         | Ok None =>
             n = Z.to_nat (StockCollector.retry_times self)
             /\ forall k, (k < n)%nat -> no_frame (answer k) = true
         | Raise _ => False
         end.
Proof.
  intros self func p Hdelay.
  exact (retry_loop_spec (Z.to_nat (StockCollector.retry_times self)) 0 self func p Hdelay).
Qed.

(** The provider raises on the first call and answers no frame on the two
    that follow: three calls, and nothing is returned. *)
Lemma retry_request_first_frame_witness :
  (exists n,
      (n <= 3)%nat
      /\ fst (StockCollector._retry_request StockCollector.init Akshare.call_sz_spot
                flaky_provider)
         = Nat.iter n (fun q => fst (Akshare.call_sz_spot q)) flaky_provider)
  /\ snd (StockCollector._retry_request StockCollector.init Akshare.call_sz_spot
            flaky_provider) = Ok None
  /\ Akshare.calls
       (fst (StockCollector._retry_request StockCollector.init Akshare.call_sz_spot
               flaky_provider)) = 3%nat.
Proof.
  destruct (retry_request_first_frame StockCollector.init Akshare.call_sz_spot
              flaky_provider) as [n [Hn [Hout _]]].
  - reflexivity.
  - split; [exists n; split; [exact Hn | exact Hout] |]. split; reflexivity.
Defined.

(** A pause that [time.sleep] refuses leaves [_retry_request] with the
    exception of the sleep, raised inside the handler of the failed call:
    so with a pause of 10^10 seconds or of -1 second after a first call
    that raised. *)
Lemma retry_request_refused_pause :
  snd (StockCollector._retry_request
         {| StockCollector.retry_times := 3; StockCollector.retry_delay := 10000000000 |}
         Akshare.call_sz_spot flaky_provider)
  = Raise (OverflowError "timestamp too large to convert to C _PyTime_t")
  /\ snd (StockCollector._retry_request
            {| StockCollector.retry_times := 3; StockCollector.retry_delay := -1 |}
            Akshare.call_sz_spot flaky_provider)
     = Raise (ValueError "sleep length must be non-negative").
Proof. split; reflexivity. Qed.

(** ** The scheduler and the service: a history collection on request *)

(** Whatever the cluster does, the code listing returns codes on file. *)
Lemma scroll_loop_sound :
  forall pending c last_hits stock_codes c' listed,
    EsStorage.scroll_loop pending c last_hits stock_codes = (c', Ok listed) ->
    forall code, In code listed ->
      In code stock_codes \/ In code (EsStorage.codes_of (List.concat pending)).
Proof.
  induction pending as [| page rest IH]; intros c last codes c' listed Hloop code Hin.
  - destruct last as [| h last]; simpl in Hloop.
    + injection Hloop as _ <-. now left.
    + unfold Es.request in Hloop. destruct (Es.faulty c (Es.served c)); [discriminate |].
      injection Hloop as _ <-. now left.
  - destruct last as [| h last]; cbn [EsStorage.scroll_loop] in Hloop.
    + injection Hloop as _ <-. now left.
    + unfold Es.request in Hloop. destruct (Es.faulty c (Es.served c)); [discriminate |].
      destruct (IH _ _ _ _ _ Hloop code Hin) as [H | H].
      * apply in_app_or in H. destruct H as [H | H]; [now left |].
        right. cbn [List.concat]. rewrite codes_of_app. apply in_or_app. now left.
      * right. cbn [List.concat]. rewrite codes_of_app. apply in_or_app. now right.
Qed.

Lemma get_all_stock_codes_sound :
  forall self c c' listed code,
    EsStorage.get_all_stock_codes self c [] = (c', Ok listed) ->
    In code listed ->
    In code (EsStorage.codes_of (Es.stock_basic_data c)).
Proof.
  intros self c c' listed code. unfold EsStorage.get_all_stock_codes.
  cbn [check_keywords kwarg].
  destruct (EsStorage.es_client self); [| intros H; injection H as _ <-; contradiction].
  unfold Es.request at 1.
  destruct (Es.faulty c (Es.served c)); [intros H; injection H as _ <-; contradiction |].
  assert (Hall : filter (EsStorage.basic_matches PNone) (Es.stock_basic_data c)
                 = Es.stock_basic_data c).
  { apply forallb_filter_id. apply forallb_forall. reflexivity. }
  rewrite Hall.
  destruct (pages_of_spec EsStorage.scroll_size (Es.stock_basic_data c) ltac:(reflexivity))
    as [Hcover _].
  set (pages := EsStorage.pages_of EsStorage.scroll_size (Es.stock_basic_data c)) in *.
  destruct (EsStorage.scroll_loop (tl pages) _ _ _) as [c2 [scrolled | e]] eqn:Hloop;
    [| intros H; injection H as _ <-; contradiction].
  intros H. injection H as _ <-. intros Hin.
  unfold list_set in Hin. apply nodup_In in Hin.
  destruct (scroll_loop_sound _ _ _ _ _ _ Hloop code Hin) as [Hfirst | Hrest];
    rewrite <- Hcover; destruct pages as [| first rest]; cbn [tl List.concat] in *;
    try contradiction; rewrite codes_of_app; apply in_or_app; auto.
Qed.

(** Building the scheduler makes requests only: the documents stay. *)
Lemma get_scheduler_built :
  forall self c b,
    StockServiceM.scheduler self <> None \/ Kafka.reachable b = true ->
    exists self1 c1 scheduler,
      StockServiceM._get_scheduler self c b = (self1, c1, Ok scheduler)
      /\ Es.stock_basic_data c1 = Es.stock_basic_data c
      /\ Es.stock_daily_data c1 = Es.stock_daily_data c.
Proof.
  intros self c b Havailable. unfold StockServiceM._get_scheduler.
  destruct (StockServiceM.scheduler self) as [s |].
  - exists self, c, s. auto.
  - destruct Havailable as [H | Hreach]; [congruence |].
    unfold TaskScheduler.init, HistoryCollector.init, EsStorage.init,
      RealtimeCollector.init, DailyStorage.init, DailyStorage._ensure_index_exists,
      Kafka.init.
    rewrite Hreach. destruct (Es.answers_ping c); cbn; eexists; eexists; eexists; auto.
Qed.

(** X15. A history collection for given codes, through the service to
    the response. When the request names at least one code and the
    scheduler exists or can be built (the broker is reachable),
    [StockService.collect_history_data] returns, whatever the provider
    and the cluster do, and the route answers 200 with a success
    response whose data carry: total = the number of codes, success = the
    number of codes whose fetch gave rows, failed = the others, so that
    success + failed = total; the dates and the flag of the request; and
    the number of codes. No job is queued. *)
Theorem history_collection_with_codes :
  forall (self : StockServiceM.StockService) (p : Akshare.Provider) (c : Es.Cluster)
         (b : Kafka.Broker) (jobs : list TaskScheduler.Job)
         (request : RequestModels.HistoryCollectRequest) (now : string) (elapsed : float)
         (code : string) (rest : list string),
    RequestModels.stock_codes request = Some (code :: rest) ->
    StockServiceM.scheduler self <> None \/ Kafka.reachable b = true ->
    let out := StockServiceM.collect_history_data self p c b jobs request now elapsed in
    let answer := ResponseModels.history_route_answer (snd out) now in
    let outcomes :=
      HistoryCollector.fetch_outcomes p (RequestModels.start_date request)
        (RequestModels.end_date request) (RequestModels.adjust_flag request)
        (code :: rest) in
    snd (fst out) = jobs
    /\ fst answer = 200
    /\ ResponseModels.api_success (snd answer) = true
    /\ exists d,
         ResponseModels.data (snd answer) = Some d
         /\ ResponseModels.total d = Z.of_nat (List.length (code :: rest))
         /\ ResponseModels.success d = HistoryCollector.count_of true outcomes
         /\ ResponseModels.failed d = HistoryCollector.count_of false outcomes
         /\ ResponseModels.success d + ResponseModels.failed d = ResponseModels.total d
         /\ ResponseModels.start_date d = RequestModels.start_date request
         /\ ResponseModels.end_date d = RequestModels.end_date request
         /\ ResponseModels.adjust_flag d = RequestModels.adjust_flag request
         /\ ResponseModels.stock_codes_count d
            = Some (Z.of_nat (List.length (code :: rest))).
Proof.
  intros self p c b jobs request now elapsed code rest Hcodes Havailable out answer outcomes.
  destruct (get_scheduler_built self c b Havailable) as [self1 [c1 [s [Hbuilt _]]]].
  destruct (collect_loop_tally (RequestModels.start_date request)
              (RequestModels.end_date request) (RequestModels.adjust_flag request) now 1
              eq_refl
              (map (fun stock_code => (stock_code, HistoryCollector.market_of stock_code))
                   (code :: rest)) 50 p c1 ltac:(lia)) as [p' [c' Hloop]].
  assert (Hout : out
                 = (self1, p', c', jobs,
                    Ok {| StockServiceM.scheduled :=
                            TaskScheduler.result_of_tally
                              {| total := Z.of_nat (List.length (code :: rest));
                                 success := HistoryCollector.count_of true outcomes;
                                 failed := HistoryCollector.count_of false outcomes |};
                          StockServiceM.cr_start_date := RequestModels.start_date request;
                          StockServiceM.cr_end_date := RequestModels.end_date request;
                          StockServiceM.cr_adjust_flag := RequestModels.adjust_flag request;
                          StockServiceM.cr_execution_time := round2 elapsed;
                          StockServiceM.cr_stock_codes_count :=
                            Some (Z.of_nat (List.length (code :: rest))) |})).
  { subst out. unfold StockServiceM.collect_history_data. rewrite Hbuilt, Hcodes.
    unfold TaskScheduler.setup_history_schedule_once,
      TaskScheduler.collect_history_data_by_api,
      HistoryCollector.collect_history_data_by_codes.
    rewrite Hloop. subst outcomes.
    rewrite length_map, map_map. cbn [fst]. rewrite map_id. reflexivity. }
  subst answer. rewrite Hout. cbn [fst snd ResponseModels.history_route_answer].
  split; [reflexivity |]. split; [reflexivity |]. split; [reflexivity |].
  eexists. split; [reflexivity |].
  pose proof (count_of_total outcomes) as Hsum.
  assert (Hlen : List.length outcomes = List.length (code :: rest))
    by apply fetch_outcomes_length.
  rewrite Hlen in Hsum.
  repeat split; try reflexivity. exact Hsum.
Qed.

Lemma history_collection_with_codes_witness :
  let request := {| RequestModels.start_date := "2025-08-17";
                    RequestModels.end_date := "2025-09-17";
                    RequestModels.stock_codes := Some ["000001"; "300750"; "600000"];
                    RequestModels.adjust_flag := "qfq" |} in
  let out := StockServiceM.collect_history_data StockServiceM.new sample_provider
               failing_cluster sample_broker [] request "2025-09-18 16:00:00" 12.5%float in
  let answer := ResponseModels.history_route_answer (snd out) "2025-09-18 16:00:00" in
  fst answer = 200
  /\ exists d, ResponseModels.data (snd answer) = Some d
               /\ ResponseModels.total d = 3
               /\ ResponseModels.success d = 2
               /\ ResponseModels.failed d = 1.
Proof.
  intros request out answer.
  destruct (history_collection_with_codes StockServiceM.new sample_provider
              failing_cluster sample_broker [] request "2025-09-18 16:00:00" 12.5%float
              "000001" ["300750"; "600000"])
    as [_ [Hstatus [_ [d [Hdata [Htotal [Hsuccess [Hfailed _]]]]]]]].
  - reflexivity.
  - right. reflexivity.
  - split; [exact Hstatus |]. exists d. split; [exact Hdata |].
    split; [exact Htotal |]. split; [exact Hsuccess | exact Hfailed].
Defined.

Lemma get_all_stock_codes_returns :
  forall self c,
    exists c' listed, EsStorage.get_all_stock_codes self c [] = (c', Ok listed).
Proof.
  intros self c. unfold EsStorage.get_all_stock_codes. cbn [check_keywords kwarg].
  destruct (EsStorage.es_client self); [| eauto].
  destruct (Es.request c) as [c1 [ok | e]]; [| eauto].
  destruct (EsStorage.scroll_loop _ _ _ _) as [c2 [scrolled | e]]; eauto.
Qed.

(** X16. What the caller is told when nothing can be collected. When
    the request names no code and the basic index yields none (it holds
    no document with a code, whether or not the cluster serves the
    listing), the scheduler answers with an error text and a zero tally,
    no fetch is made and no job is queued; yet the route answers 200 with
    a success response, zero counts and no error: the text is not among
    the keys the response is built from. When the scheduler has to be
    built and the broker is away, the service raises and the route
    answers 500, again without a fetch. *)
Theorem history_collection_without_universe :
  forall (self : StockServiceM.StockService) (p : Akshare.Provider) (c : Es.Cluster)
         (b : Kafka.Broker) (jobs : list TaskScheduler.Job)
         (request : RequestModels.HistoryCollectRequest) (now : string) (elapsed : float),
    let out := StockServiceM.collect_history_data self p c b jobs request now elapsed in
    let answer := ResponseModels.history_route_answer (snd out) now in
    (RequestModels.stock_codes request = None
     \/ RequestModels.stock_codes request = Some [] ->
     StockServiceM.scheduler self <> None \/ Kafka.reachable b = true ->
     EsStorage.codes_of (Es.stock_basic_data c) = [] ->
     (exists result,
         snd out = Ok result
         /\ StockServiceM.scheduled result
            = TaskScheduler.zero_with_error
                (TaskScheduler.Message "no stock codes from ES"))
     /\ snd (fst (fst (fst out))) = p
     /\ snd (fst out) = jobs
     /\ fst answer = 200
     /\ ResponseModels.api_success (snd answer) = true
     /\ ResponseModels.error (snd answer) = None
     /\ exists d,
          ResponseModels.data (snd answer) = Some d
          /\ ResponseModels.total d = 0 /\ ResponseModels.success d = 0
          /\ ResponseModels.failed d = 0
          /\ ResponseModels.stock_codes_count d = None)
    /\ (StockServiceM.scheduler self = None ->
        Kafka.reachable b = false ->
        snd out = Raise (Wrapped "collect_history_data" TransportError)
        /\ snd (fst (fst (fst out))) = p
        /\ snd (fst out) = jobs
        /\ fst answer = 500
        /\ ResponseModels.api_success (snd answer) = false).
Proof.
  intros self p c b jobs request now elapsed out answer. split.
  - intros Hnone Havailable Hempty.
    destruct (get_scheduler_built self c b Havailable) as [self1 [c1 [s [Hbuilt [Hbasic _]]]]].
    destruct (get_all_stock_codes_returns (TaskScheduler.storage s) c1)
      as [c2 [listed Hlisted]].
    assert (Hnil : listed = []).
    { destruct listed as [| code rest]; [reflexivity |]. exfalso.
      pose proof (get_all_stock_codes_sound _ _ _ _ code Hlisted (or_introl eq_refl)) as Hin.
      rewrite Hbasic, Hempty in Hin. exact Hin. }
    subst listed.
    assert (Hout : out
                   = (self1, p, c2, jobs,
                      Ok {| StockServiceM.scheduled :=
                              TaskScheduler.zero_with_error
                                (TaskScheduler.Message "no stock codes from ES");
                            StockServiceM.cr_start_date := RequestModels.start_date request;
                            StockServiceM.cr_end_date := RequestModels.end_date request;
                            StockServiceM.cr_adjust_flag := RequestModels.adjust_flag request;
                            StockServiceM.cr_execution_time := round2 elapsed;
                            StockServiceM.cr_stock_codes_count := None |})).
    { subst out. unfold StockServiceM.collect_history_data. rewrite Hbuilt.
      unfold TaskScheduler.setup_history_schedule_once.
      destruct Hnone as [-> | ->]; rewrite Hlisted; reflexivity. }
    subst answer. rewrite Hout. cbn [fst snd ResponseModels.history_route_answer].
    split; [eexists; split; reflexivity |].
    repeat split. eexists. repeat split.
  - intros Hfresh Haway.
    assert (Hout : out = (self, p, fst (TaskScheduler.init c b), jobs,
                          Raise (Wrapped "collect_history_data" TransportError))).
    { subst out. unfold StockServiceM.collect_history_data, StockServiceM._get_scheduler.
      rewrite Hfresh.
      unfold TaskScheduler.init, HistoryCollector.init, EsStorage.init,
        RealtimeCollector.init, DailyStorage.init, Kafka.init.
      rewrite Haway. destruct (Es.answers_ping c); reflexivity. }
    subst answer. rewrite Hout. repeat split.
Qed.

(** X17. The scheduler's realtime job collects nothing. The job that
    [setup_realtime_schedule] runs every day at 16:00,
    [collect_realtime_data_once], asks the realtime collector for
    [collect_and_process_data], a name the class does not bind: the
    lookup raises and the job's handler logs it. So for every scheduler,
    provider, cluster and broker the job makes no call to the provider
    and leaves the cluster and the quote topic as they were, while a
    direct call of the collector's own cycle does call the provider. *)
Theorem collect_realtime_data_once_collects_nothing :
  forall (self : TaskScheduler.StockDataScheduler) (p : Akshare.Provider)
         (c : Es.Cluster) (b : Kafka.Broker) (today now : string),
    TaskScheduler.collect_realtime_data_once self p c b today now = (p, c, b)
    /\ Akshare.calls
         (fst (fst (fst (RealtimeCollector.collect_all_realtime_data
                           (TaskScheduler.realtime_collector self) p c b today now))))
       = S (S (Akshare.calls p)).
Proof.
  intros self p c b today now. split; [reflexivity |].
  unfold RealtimeCollector.collect_all_realtime_data,
    RealtimeCollector.get_sz_realtime_data, RealtimeCollector.get_sh_realtime_data,
    Akshare.call_sz_spot, Akshare.call_sh_spot.
  destruct (RealtimeCollector.collect_market _ c _ "SZ" today now) as [c1 sz].
  destruct (RealtimeCollector.collect_market _ c1 _ "SH" today now) as [c2 sh].
  destruct (sz ++ sh)%list; reflexivity.
Qed.

Lemma history_collection_without_universe_witness :
  let request := {| RequestModels.start_date := "2025-08-17";
                    RequestModels.end_date := "2025-09-17";
                    RequestModels.stock_codes := None;
                    RequestModels.adjust_flag := "qfq" |} in
  let out := StockServiceM.collect_history_data StockServiceM.new sample_provider
               failing_cluster sample_broker [] request "2025-09-18 16:00:00" 0.5%float in
  let answer := ResponseModels.history_route_answer (snd out) "2025-09-18 16:00:00" in
  fst answer = 200
  /\ ResponseModels.api_success (snd answer) = true
  /\ ResponseModels.error (snd answer) = None.
Proof.
  intros request out answer.
  destruct (history_collection_without_universe StockServiceM.new sample_provider
              failing_cluster sample_broker [] request "2025-09-18 16:00:00" 0.5%float)
    as [Hnone _].
  destruct Hnone as [_ [_ [_ [Hstatus [Hsuccess [Herror _]]]]]].
  - left. reflexivity.
  - right. reflexivity.
  - reflexivity.
  - split; [exact Hstatus |]. split; [exact Hsuccess | exact Herror].
Defined.
